(** * ILSim: the DL-EN1 / IL sensor simulator

    A shallow embedding of the command engine of [ilsim/communication.py]
    and of the amplifier register file and fixed-point codec of
    [ilsim/sensor.py], with the properties of the specification proved (or
    refuted) about it.

    Conventions of the embedding.
    - A Python [float] is an exact rational ([Q]); [float | None] is
      [option Q].  Binary64 rounding is outside this model; the module
      [Binary64] runs the codec on IEEE doubles, to compare the two at
      given points.
    - A Python [int] is [Z]; an [IntEnum] is an inductive type with its
      [value] function; the [IntFlag] word [ILError] is the integer [Z] that
      carries its bits.
    - Methods that mutate [self] take the object and return the new one;
      a method that can raise returns an [Outcome].
    - [time.time()] is the argument [now] of the methods that read the clock.
    - Request lines are the decoded text of the request.  The wire protocol
      is ASCII, on which utf-8 decoding is the identity and the regular
      expression class [\d] is the ten digits [0..9]. *)

From Stdlib Require Import ZArith QArith Qround Qabs Qminmax String Ascii List Bool Lia.
From Stdlib Require Import Floats Uint63 Lqa Qpower.
From stdpp Require Import base option gmap strings list.

Open Scope Z_scope.

(** ** Python primitives *)

Module Py.

Definition CR : ascii := "013"%char.
Definition LF : ascii := "010"%char.

(** The two characters written [\r\n] in the source. *)
Definition CRLF : string := String CR (String LF EmptyString).

Definition is_digit (c : ascii) : bool :=
  let n := nat_of_ascii c in ((48 <=? n) && (n <=? 57))%nat.

Definition is_ascii (c : ascii) : bool := (nat_of_ascii c <? 128)%nat.

Fixpoint all_chars (p : ascii -> bool) (s : string) : bool :=
  match s with
  | EmptyString => true
  | String c r => p c && all_chars p r
  end.

Definition digit_char (d : Z) : ascii := ascii_of_nat (48 + Z.to_nat d).

Definition digit_value (c : ascii) : Z := Z.of_nat (nat_of_ascii c) - 48.

(** Decimal digits of a non-negative integer, most significant first. *)
Fixpoint digits_go (fuel : nat) (n : Z) (acc : string) : string :=
  let acc' := String (digit_char (n mod 10)) acc in
  match fuel with
  | O => acc'
  | S fuel' => if n <? 10 then acc' else digits_go fuel' (n / 10) acc'
  end.

Definition digits (n : Z) : string :=
  digits_go (Z.to_nat (Z.log2 n)) n EmptyString.

(** [str(n)] for an [int]. *)
Definition str (n : Z) : string :=
  if n <? 0 then String "-" (digits (- n)) else digits n.

Fixpoint repeat_char (c : ascii) (k : nat) : string :=
  match k with
  | O => EmptyString
  | S k' => String c (repeat_char c k')
  end.

(** [format(s, "0>w")]: right-aligned in a field of width [w], filled
    with zeros; a longer text is not cut. *)
Definition fill0_right (w : nat) (s : string) : string :=
  repeat_char "0" (w - String.length s) +:+ s.

(** [f"{n:0>2}"] and [f"{n:0>3}"] for an [int]. *)
Definition fmt_0r (w : nat) (n : Z) : string := fill0_right w (str n).

(** [f"{n:+010d}"]: the sign, then the digits zero-padded so that the
    whole field has at least ten characters. *)
Definition fmt_p010d (n : Z) : string :=
  String (if n <? 0 then "-"%char else "+"%char) (fill0_right 9 (digits (Z.abs n))).

Fixpoint digits_value (s : string) (acc : Z) : Z :=
  match s with
  | EmptyString => acc
  | String c r => digits_value r (10 * acc + digit_value c)
  end.

(** *** Text

    A [str] is kept as its UTF-8 encoding, a string of bytes that decodes:
    [str.encode('utf-8')] is then the identity and [bytes.decode('utf-8')]
    the check that the bytes decode.  A character of the text is one to four
    bytes of it. *)

Definition byte (c : ascii) : Z := Z.of_nat (nat_of_ascii c).

(** The six payload bits of a continuation byte [10xxxxxx]. *)
Definition continuation (c : ascii) : option Z :=
  let b := byte c in
  if (128 <=? b) && (b <? 192) then Some (b - 128) else None.

(** The first character of a UTF-8 text: its code point, its bytes, and
    the rest of the text.  [None] on the empty text and on bytes that the
    strict decoder refuses: a continuation byte or a byte above [0xF4] in
    front, a missing continuation byte, an overlong form, a surrogate, a
    code point above [0x10FFFF]. *)
Definition next_char (s : string) : option (Z * string * string) :=
  match s with
  | EmptyString => None
  | String c0 r0 =>
      let b0 := byte c0 in
      if b0 <? 128 then Some (b0, String c0 EmptyString, r0)
      else if b0 <? 194 then None
      else if b0 <? 224 then
        match r0 with
        | String c1 r1 =>
            match continuation c1 with
            | Some x1 => Some ((b0 - 192) * 64 + x1, String c0 (String c1 EmptyString), r1)
            | None => None
            end
        | EmptyString => None
        end
      else if b0 <? 240 then
        match r0 with
        | String c1 (String c2 r2) =>
            match continuation c1, continuation c2 with
            | Some x1, Some x2 =>
                let cp := (b0 - 224) * 4096 + x1 * 64 + x2 in
                if (cp <? 2048) || ((55296 <=? cp) && (cp <? 57344)) then None
                else Some (cp, String c0 (String c1 (String c2 EmptyString)), r2)
            | _, _ => None
            end
        | _ => None
        end
      else if b0 <? 245 then
        match r0 with
        | String c1 (String c2 (String c3 r3)) =>
            match continuation c1, continuation c2, continuation c3 with
            | Some x1, Some x2, Some x3 =>
                let cp := (b0 - 240) * 262144 + x1 * 4096 + x2 * 64 + x3 in
                if (cp <? 65536) || (1114111 <? cp) then None
                else Some (cp, String c0 (String c1 (String c2 (String c3 EmptyString))), r3)
            | _, _, _ => None
            end
        | _ => None
        end
      else None
  end.

(** Every character of the bytes decodes; [fuel] bounds the number of
    characters. *)
Fixpoint decodes (fuel : nat) (s : string) : bool :=
  match s, fuel with
  | EmptyString, _ => true
  | _, O => false
  | _, S fuel' =>
      match next_char s with
      | Some (_, _, rest) => decodes fuel' rest
      | None => false
      end
  end.

(** [raw.decode('utf-8')]; [None] stands for [UnicodeDecodeError]. *)
Definition decode (raw : string) : option string :=
  if decodes (String.length raw) raw then Some raw else None.

(** The code points of the digit zero of each run of ten decimal digits
    (general category [Nd]) of Unicode 14.0, the character table of
    CPython 3.11: ASCII, Arabic-Indic, and so on to the segmented digits. *)
Definition decimal_zeros : list Z :=
  [48; 1632; 1776; 1984; 2406; 2534; 2662; 2790; 2918; 3046; 3174; 3302;
   3430; 3558; 3664; 3792; 3872; 4160; 4240; 6112; 6160; 6470; 6608; 6784;
   6800; 6992; 7088; 7232; 7248; 42528; 43216; 43264; 43472; 43504; 43600;
   44016; 65296; 66720; 68912; 69734; 69872; 69942; 70096; 70384; 70736;
   70864; 71248; 71360; 71472; 71904; 72016; 72784; 73040; 73120; 92768;
   92864; 93008; 120782; 120792; 120802; 120812; 120822; 123200; 123632;
   125264; 130032].

(** The value of a decimal digit, for a code point that is one: what the
    class [\d] of a [str] pattern matches and what [int()] reads. *)
Definition decimal (cp : Z) : option Z :=
  (fun zero => cp - zero)
    <$> List.find (fun zero => (zero <=? cp) && (cp <? zero + 10)) decimal_zeros.

(** The number that a text of decimal digits denotes after the digits
    [acc]; [None] when a character is not a decimal digit. *)
Fixpoint decimal_value (fuel : nat) (s : string) (acc : Z) : option Z :=
  match s, fuel with
  | EmptyString, _ => Some acc
  | _, O => None
  | _, S fuel' =>
      match next_char s with
      | Some (cp, _, rest) =>
          match decimal cp with
          | Some d => decimal_value fuel' rest (10 * acc + d)
          | None => None
          end
      | None => None
      end
  end.

(** [int(s)] on the texts the command grammar captures: an optional sign
    and at least one decimal digit.  [None] stands for [ValueError]. *)
Definition int (s : string) : option Z :=
  let unsigned (r : string) :=
    match r with
    | EmptyString => None
    | _ => decimal_value (String.length r) r 0
    end in
  match s with
  | String "+" r => unsigned r
  | String "-" r => Z.opp <$> unsigned r
  | _ => unsigned s
  end.

(** [s[0:n]]: the first [n] characters. *)
Fixpoint prefix (n : nat) (s : string) : string :=
  match n with
  | O => EmptyString
  | S n' =>
      match next_char s with
      | Some (_, c, rest) => c +:+ prefix n' rest
      | None => EmptyString
      end
  end.

(** [sep.join(parts)] *)
Fixpoint join (sep : string) (parts : list string) : string :=
  match parts with
  | [] => EmptyString
  | [p] => p
  | p :: rest => p +:+ sep +:+ join sep rest
  end.

(** Comparison of floats: [x > y] and [x < y]. *)
Definition gt (x y : Q) : bool := negb (Qle_bool x y).
Definition lt (x y : Q) : bool := negb (Qle_bool y x).

(** [int(x)] for a float: truncation toward zero. *)
Definition trunc (x : Q) : Z := Z.quot (Qnum x) (Z.pos (Qden x)).

(** The binary exponent [floor(log2(x))] of a positive rational. *)
Definition ilog2 (x : Q) : Z :=
  let k := Z.log2 (Qnum x) - Z.log2 (Z.pos (Qden x)) in
  if Qle_bool (2 ^ k) x then k else k - 1.

(** The integer nearest to [x], a tie going to the even one. *)
Definition rint (x : Q) : Z :=
  let f := Qfloor x in
  match (x - inject_Z f ?= 1 # 2)%Q with
  | Lt => f
  | Gt => f + 1
  | Eq => if Z.even f then f else f + 1
  end.

(** The spacing of the binary64 numbers around a magnitude [a]: 53
    significant bits, and the exponent never below -1022, where the
    subnormal numbers keep the spacing [2 ** -1074]. *)
Definition ulp (a : Q) : Q := (2 ^ (Z.max (ilog2 a) (-1022) - 52))%Q.

(** The binary64 number nearest to a magnitude [a], ties to even. *)
Definition round_magnitude (a : Q) : Q := (inject_Z (rint (a / ulp a)) * ulp a)%Q.

(** The binary64 number that a real result is rounded to (round to nearest,
    ties to even), in lowest terms.  Results beyond the largest float are
    not cut off: the model has no infinity. *)
Definition float_round (x : Q) : Q :=
  let r := Qred (round_magnitude (Qabs x)) in
  if Qle_bool 0 x then r else (- r)%Q.

(** [x * y] for two floats. *)
Definition fmul (x y : Q) : Q := float_round (x * y).

(** [float(n)], the conversion that an [int] operand of a float operation
    goes through. *)
Definition float_of_int (n : Z) : Q := float_round (inject_Z n).

(** [a / b] for two [int]s: the quotient of the integers, correctly
    rounded. *)
Definition true_div (a b : Z) : Q := float_round (inject_Z a / inject_Z b).

(** [n.bit_length()] *)
Definition bit_length (n : Z) : Z :=
  if n =? 0 then 0 else Z.log2 (Z.abs n) + 1.

(** A [bool] used as an [int]. *)
Definition int_of_bool (b : bool) : Z := if b then 1 else 0.

(** [l[i]] for a list, with Python's negative indices; [None] stands for
    [IndexError]. *)
Definition getitem {A : Type} (l : list A) (i : Z) : option A :=
  if 0 <=? i then l !! Z.to_nat i
  else if 0 <=? Z.of_nat (length l) + i then l !! Z.to_nat (Z.of_nat (length l) + i)
  else None.

(** [l[i] = x] on an index where [l[i]] exists. *)
Definition setitem {A : Type} (l : list A) (i : Z) (x : A) : list A :=
  if 0 <=? i then <[Z.to_nat i := x]> l
  else <[Z.to_nat (Z.of_nat (length l) + i) := x]> l.

End Py.

(** ** Error codes and exceptions ([ilsim/errors.py]) *)

Module Errors.

(** [CommunicationErrorCodes]: the codes of the [ER] replies. *)
Inductive CommunicationErrorCodes : Set :=
| NO_ERROR
| ERROR_009
| ERROR_012
| ERROR_014
| ERROR_016
| ERROR_020
| ERROR_022
| ERROR_031
| ERROR_254
| ERROR_255.

Definition value (c : CommunicationErrorCodes) : Z :=
  match c with
  | NO_ERROR => 0
  | ERROR_009 => 9
  | ERROR_012 => 12
  | ERROR_014 => 14
  | ERROR_016 => 16
  | ERROR_020 => 20
  | ERROR_022 => 22
  | ERROR_031 => 31
  | ERROR_254 => 254
  | ERROR_255 => 255
  end.

(** The subclasses of [CommunicationException]. *)
Inductive CommunicationException : Set :=
| WriteDataOutsideValidRangeError
| NonExecutableStateError
| QueryWriteProtectedError
| QueryReadProtectedError
| QueryOutsideValidRangeError
| IDOutsideValidRangeError
| InaccessibleIDOrQueryError
| GeneralSystemError
| CommandFormatError.

(** The class attribute [error_code] of each exception. *)
Definition error_code (e : CommunicationException) : CommunicationErrorCodes :=
  match e with
  | WriteDataOutsideValidRangeError => ERROR_009
  | NonExecutableStateError => ERROR_012
  | QueryWriteProtectedError => ERROR_014
  | QueryReadProtectedError => ERROR_016
  | QueryOutsideValidRangeError => ERROR_020
  | IDOutsideValidRangeError => ERROR_022
  | InaccessibleIDOrQueryError => ERROR_031
  | GeneralSystemError => ERROR_254
  | CommandFormatError => ERROR_255
  end.

(** What a call can be left with: a communication exception, or one of the
    built-in exceptions the engine mentions. *)
Inductive Exception : Set :=
| Communication (e : CommunicationException)
| NotImplementedError
| AssertionError
| UnicodeDecodeError.

End Errors.

(** ** Enumerations of [ilsim/sensor.py] *)

Module OutputState.
Inductive t : Set := All_OFF | HIGH | LOW | Error | GO | HH | LL.
Definition value (s : t) : Z :=
  match s with
  | All_OFF => 0 | HIGH => 1 | LOW => 2 | Error => 3 | GO => 4
  | HH => 8 | LL => 16
  end.
End OutputState.

(** [ILError] is an [IntFlag]: the word is kept as the integer of its bits. *)
Module ILError.
Definition NO_ERROR : Z := 0.
Definition Overcurrent : Z := 1.
Definition EEPROM : Z := 2.
Definition Sensor_Head : Z := 4.
Definition Spot_Light_Laser : Z := 128.
Definition Incompatible_Model : Z := 256.
Definition Amplifier_Communication : Z := 2048.
Definition Number_Of_Units : Z := 4096.
Definition Calculation : Z := 8192.
End ILError.

Module OperationResult.
Inductive t : Set := OPERATING | NORMAL_TERMINATION | ABNORMAL_TERMINATION.
Definition value (r : t) : Z :=
  match r with
  | OPERATING => 0 | NORMAL_TERMINATION => 1 | ABNORMAL_TERMINATION => 2
  end.
End OperationResult.

Module HoldFunctionSetting.
Inductive t : Set :=
| SAMPLE_HOLD | PEAK_HOLD | BOTTOM_HOLD | PEAK_TO_PEAK_HOLD
| AUTO_PEAK_HOLD | AUTO_BOTTOM_HOLD.
Definition value (h : t) : Z :=
  match h with
  | SAMPLE_HOLD => 0 | PEAK_HOLD => 1 | BOTTOM_HOLD => 2
  | PEAK_TO_PEAK_HOLD => 3 | AUTO_PEAK_HOLD => 4 | AUTO_BOTTOM_HOLD => 5
  end.
Definition of_int (n : Z) : option t :=
  if n =? 0 then Some SAMPLE_HOLD
  else if n =? 1 then Some PEAK_HOLD
  else if n =? 2 then Some BOTTOM_HOLD
  else if n =? 3 then Some PEAK_TO_PEAK_HOLD
  else if n =? 4 then Some AUTO_PEAK_HOLD
  else if n =? 5 then Some AUTO_BOTTOM_HOLD
  else None.
End HoldFunctionSetting.

Module ExternalInput1Setting.
Inductive t : Set := ZERO_SHIFT | BANK_A | BANK_B | LASER_EMISSION_STOP | UNUSED.
Definition value (x : t) : Z :=
  match x with
  | ZERO_SHIFT => 0 | BANK_A => 1 | BANK_B => 2
  | LASER_EMISSION_STOP => 3 | UNUSED => 4
  end.
Definition eqb (x y : t) : bool := value x =? value y.
Definition of_int (n : Z) : option t :=
  if n =? 0 then Some ZERO_SHIFT
  else if n =? 1 then Some BANK_A
  else if n =? 2 then Some BANK_B
  else if n =? 3 then Some LASER_EMISSION_STOP
  else if n =? 4 then Some UNUSED
  else None.
End ExternalInput1Setting.

Module ExternalInput2Setting.
Inductive t : Set := RESET | BANK_A | BANK_B | LASER_EMISSION_STOP | UNUSED.
Definition value (x : t) : Z :=
  match x with
  | RESET => 0 | BANK_A => 1 | BANK_B => 2
  | LASER_EMISSION_STOP => 3 | UNUSED => 4
  end.
Definition eqb (x y : t) : bool := value x =? value y.
Definition of_int (n : Z) : option t :=
  if n =? 0 then Some RESET
  else if n =? 1 then Some BANK_A
  else if n =? 2 then Some BANK_B
  else if n =? 3 then Some LASER_EMISSION_STOP
  else if n =? 4 then Some UNUSED
  else None.
End ExternalInput2Setting.

Module ExternalInput3Setting.
Inductive t : Set := TIMING | BANK_A | BANK_B | LASER_EMISSION_STOP | UNUSED.
Definition value (x : t) : Z :=
  match x with
  | TIMING => 0 | BANK_A => 1 | BANK_B => 2
  | LASER_EMISSION_STOP => 3 | UNUSED => 4
  end.
Definition eqb (x y : t) : bool := value x =? value y.
Definition of_int (n : Z) : option t :=
  if n =? 0 then Some TIMING
  else if n =? 1 then Some BANK_A
  else if n =? 2 then Some BANK_B
  else if n =? 3 then Some LASER_EMISSION_STOP
  else if n =? 4 then Some UNUSED
  else None.
End ExternalInput3Setting.

Module ExternalInput4Setting.
Inductive t : Set := UNUSED | BANK_A | BANK_B | LASER_EMISSION_STOP.
Definition value (x : t) : Z :=
  match x with
  | UNUSED => 0 | BANK_A => 1 | BANK_B => 2 | LASER_EMISSION_STOP => 3
  end.
Definition eqb (x y : t) : bool := value x =? value y.
Definition of_int (n : Z) : option t :=
  if n =? 0 then Some UNUSED
  else if n =? 1 then Some BANK_A
  else if n =? 2 then Some BANK_B
  else if n =? 3 then Some LASER_EMISSION_STOP
  else None.
End ExternalInput4Setting.

(** [BANK_INDEX = Literal[0, 1, 2, 3]] *)
Module BANK_INDEX.
Inductive t : Set := B0 | B1 | B2 | B3.
Definition value (i : t) : Z :=
  match i with B0 => 0 | B1 => 1 | B2 => 2 | B3 => 3 end.
Definition of_int (n : Z) : option t :=
  if n =? 0 then Some B0
  else if n =? 1 then Some B1
  else if n =? 2 then Some B2
  else if n =? 3 then Some B3
  else None.
End BANK_INDEX.

(** The dataclass [Bank]. *)
Module Bank.
Record t : Set := mk {
  threshold_high : Q;
  threshold_low : Q;
  shift_target : Q;
  analog_upper_limit : Q;
  analog_lower_limit : Q
}.
Definition with_threshold_high (v : Q) (b : t) : t :=
  mk v (threshold_low b) (shift_target b) (analog_upper_limit b) (analog_lower_limit b).
Definition with_threshold_low (v : Q) (b : t) : t :=
  mk (threshold_high b) v (shift_target b) (analog_upper_limit b) (analog_lower_limit b).
Definition with_shift_target (v : Q) (b : t) : t :=
  mk (threshold_high b) (threshold_low b) v (analog_upper_limit b) (analog_lower_limit b).
Definition with_analog_upper_limit (v : Q) (b : t) : t :=
  mk (threshold_high b) (threshold_low b) (shift_target b) v (analog_lower_limit b).
Definition with_analog_lower_limit (v : Q) (b : t) : t :=
  mk (threshold_high b) (threshold_low b) (shift_target b) (analog_upper_limit b) v.
End Bank.

(** ** The amplifier ([SensorUnit] of [ilsim/sensor.py]) *)

Module SensorUnit.

(** Names of the bound methods stored in [read_mapping]. *)
Inductive ReadHandler : Set :=
| read_033_sensor_amplifier_error
| read_036_judgment_alarm_output
| read_037_judgment_value
| read_038_internal_measurement_value
| read_039_peak_hold_value_during_hold_period
| read_040_bottom_hold_value_during_hold_period
| read_041_calculation_value
| read_042_analog_output_value
| read_043_bank_status
| read_044_timing_status
| read_050_laser_emission_stop_status
| read_051_abnormal_setting
| read_052_external_input_status
| read_053_eeprom_write_result
| read_054_zero_shift_zero_shift_reset_result
| read_055_reset_request_result
| read_056_current_system_parameters
| read_060_tuning_result
| read_061_calibraiton_result
| read_06X_high_setting_value_bank_Y (bank_index : BANK_INDEX.t)
| read_06X_low_setting_value_bank_Y (bank_index : BANK_INDEX.t)
| read_06X_shift_target_value_bank_Y (bank_index : BANK_INDEX.t)
| read_06X_analog_output_upper_limit_bank_Y (bank_index : BANK_INDEX.t)
| read_06X_analog_output_lower_limit_bank_Y (bank_index : BANK_INDEX.t)
| read_097_key_lock_function
| read_098_bank_function
| read_099_timing_input
| read_100_laser_emission_on_stop_input
| read_104_sub_display_screen
| read_105_system_parameter_settings
| read_106_tolerance_tuning_setting_range
| read_107_calibration_function
| read_108_calibration_function_set_1
| read_109_calibration_function_set_2
| read_110_calculated_value_calibration_function
| read_111_calculated_value_two_point_set_1
| read_112_calculated_value_two_point_set_2
| read_113_calculated_value_three_point_set_1
| read_114_calculated_value_three_point_set_3
| read_129_calculation_function
| read_131_measurement_direction
| read_132_sampling_cycle
| read_133_averaging_diff_count_high_pass_filter
| read_134_output_mode
| read_136_hold_function_setting
| read_137_auto_hold_trigger_level
| read_138_timing_input_setting
| read_139_delay_timer
| read_140_timer_duration
| read_141_hyseresis
| read_142_analog_output_scaling
| read_143_analog_output_upper_limit_value
| read_144_analog_output_lower_limit_value
| read_145_external_input
| read_146_external_input_1
| read_147_external_input_2
| read_148_external_input_3
| read_149_external_input_4
| read_150_bank_switching_method
| read_152_zero_shift_value_memory_function
| read_153_mutual_interference_prevention_function
| read_154_display_digit
| read_155_power_saving_function
| read_156_head_display_mode
| read_157_display_color
| read_158_timer_duration_diff_count_filter
| read_159_cutoff_frequency_high_pass_filter
| read_161_alarm_setting
| read_162_alarm_count
| read_193_product_code
| read_194_revision
| read_195_connected_sensor_head
| read_200_product_name
| read_215_series_code
| read_216_series_version
| read_217_device_type.

(** Names of the bound methods stored in [write_mapping]. *)
Inductive WriteHandler : Set :=
| write_001_zero_shift_execution_request
| write_002_zero_shift_reset_request
| write_003_reset_request
| write_005_initial_reset_request
| write_006_system_parameters_set_request
| write_014_tolerance_tuning_request
| write_015_2point_high_1st_point_request
| write_016_2point_high_2nd_point_request
| write_017_2point_low_1st_point_request
| write_018_2point_low_2nd_point_request
| write_019_calibration_set_1_request
| write_020_calibration_set_2_request
| write_021_calc_2point_calibration_set_1_request
| write_022_calc_2point_calibration_set_2_request
| write_023_calc_3point_calibration_set_1_request
| write_024_calc_3point_calibration_set_2_request
| write_025_calc_3point_calibration_set_3_request
| write_026_diff_count_filter_1point_tuning_request
| write_027_diff_count_filter_2point_1st_point_request
| write_028_diff_count_filter_2point_2nd_point_request
| write_06X_high_setting_value_bank_Y (bank_index : BANK_INDEX.t)
| write_06X_low_setting_value_bank_Y (bank_index : BANK_INDEX.t)
| write_06X_shift_target_value_bank_Y (bank_index : BANK_INDEX.t)
| write_06X_analog_output_upper_limit_bank_Y (bank_index : BANK_INDEX.t)
| write_06X_analog_output_lower_limit_bank_Y (bank_index : BANK_INDEX.t)
| write_097_key_lock_function
| write_098_bank_function
| write_099_timing_input
| write_100_laser_emission_on_stop_input
| write_104_sub_display_screen
| write_105_system_parameter_settings
| write_106_tolerance_tuning_setting_range
| write_107_calibration_function
| write_108_calibration_function_set_1
| write_109_calibration_function_set_2
| write_110_calculated_value_calibration_function
| write_111_calculated_value_two_point_set_1
| write_112_calculated_value_two_point_set_2
| write_113_calculated_value_three_point_set_1
| write_114_calculated_value_three_point_set_3
| write_129_calculation_function
| write_131_measurement_direction
| write_132_sampling_cycle
| write_133_averaging_diff_count_high_pass_filter
| write_134_output_mode
| write_136_hold_function_setting
| write_137_auto_hold_trigger_level
| write_138_timing_input_setting
| write_139_delay_timer
| write_140_timer_duration
| write_141_hyseresis
| write_142_analog_output_scaling
| write_143_analog_output_upper_limit_value
| write_144_analog_output_lower_limit_value
| write_145_external_input
| write_146_external_input_1
| write_147_external_input_2
| write_148_external_input_3
| write_149_external_input_4
| write_150_bank_switching_method
| write_152_zero_shift_value_memory_function
| write_153_mutual_interference_prevention_function
| write_154_display_digit
| write_155_power_saving_function
| write_156_head_display_mode
| write_157_display_color
| write_158_timer_duration_diff_count_filter
| write_159_cutoff_frequency_high_pass_filter
| write_161_alarm_setting
| write_162_alarm_count.

(** The attributes of the amplifier that the embedded methods read or
    write.  The attributes of the remaining settings, of the hold state
    machine and of the calibration staging are outside the record. *)
Record t : Type := mk {
  _raw_value : option Q;
  _r_v_value : option Q;
  _calc_value : option Q;
  _p_v_value : option Q;
  _hold_bottom : option Q;
  _hold_peak : option Q;
  _next_eeprom_write : option Q;
  _timing_input : bool;
  active_bank_setting : BANK_INDEX.t;
  banks : Bank.t * Bank.t * Bank.t * Bank.t;
  calibration_result : OperationResult.t;
  decimal_position : nat;
  eeprom_write_result : OperationResult.t;
  external_input_1 : bool;
  external_input_1_setting : ExternalInput1Setting.t;
  external_input_2 : bool;
  external_input_2_setting : ExternalInput2Setting.t;
  external_input_3 : bool;
  external_input_3_setting : ExternalInput3Setting.t;
  external_input_4 : bool;
  external_input_4_setting : ExternalInput4Setting.t;
  external_input_use_user_settings : bool;
  hold_function_setting : HoldFunctionSetting.t;
  internal_error : Z;
  is_main_unit : bool;
  lower_bound : Q;
  output_mode_normally_closed : bool;
  reset_request_result : OperationResult.t;
  stored_laser_emission_stop : bool;
  switch_banks_via_external_input : bool;
  tuning_result : OperationResult.t;
  upper_bound : Q;
  zero_shift_saved_in_memory : bool;
  zero_shifting_result : OperationResult.t
}.

(** Attribute assignment [self.a = v], one function for each attribute the
    embedded methods assign. *)
Definition with_next_eeprom_write (v : option Q) (s : t) : t :=
  mk (_raw_value s) (_r_v_value s) (_calc_value s) (_p_v_value s)
    (_hold_bottom s) (_hold_peak s) v (_timing_input s)
    (active_bank_setting s) (banks s) (calibration_result s)
    (decimal_position s) (eeprom_write_result s) (external_input_1 s)
    (external_input_1_setting s) (external_input_2 s)
    (external_input_2_setting s) (external_input_3 s)
    (external_input_3_setting s) (external_input_4 s)
    (external_input_4_setting s) (external_input_use_user_settings s)
    (hold_function_setting s) (internal_error s) (is_main_unit s)
    (lower_bound s) (output_mode_normally_closed s) (reset_request_result s)
    (stored_laser_emission_stop s) (switch_banks_via_external_input s)
    (tuning_result s) (upper_bound s) (zero_shift_saved_in_memory s)
    (zero_shifting_result s).
Definition with_active_bank_setting (v : BANK_INDEX.t) (s : t) : t :=
  mk (_raw_value s) (_r_v_value s) (_calc_value s) (_p_v_value s)
    (_hold_bottom s) (_hold_peak s) (_next_eeprom_write s) (_timing_input s) v
    (banks s) (calibration_result s) (decimal_position s)
    (eeprom_write_result s) (external_input_1 s) (external_input_1_setting s)
    (external_input_2 s) (external_input_2_setting s) (external_input_3 s)
    (external_input_3_setting s) (external_input_4 s)
    (external_input_4_setting s) (external_input_use_user_settings s)
    (hold_function_setting s) (internal_error s) (is_main_unit s)
    (lower_bound s) (output_mode_normally_closed s) (reset_request_result s)
    (stored_laser_emission_stop s) (switch_banks_via_external_input s)
    (tuning_result s) (upper_bound s) (zero_shift_saved_in_memory s)
    (zero_shifting_result s).
Definition with_banks (v : Bank.t * Bank.t * Bank.t * Bank.t) (s : t) : t :=
  mk (_raw_value s) (_r_v_value s) (_calc_value s) (_p_v_value s)
    (_hold_bottom s) (_hold_peak s) (_next_eeprom_write s) (_timing_input s)
    (active_bank_setting s) v (calibration_result s) (decimal_position s)
    (eeprom_write_result s) (external_input_1 s) (external_input_1_setting s)
    (external_input_2 s) (external_input_2_setting s) (external_input_3 s)
    (external_input_3_setting s) (external_input_4 s)
    (external_input_4_setting s) (external_input_use_user_settings s)
    (hold_function_setting s) (internal_error s) (is_main_unit s)
    (lower_bound s) (output_mode_normally_closed s) (reset_request_result s)
    (stored_laser_emission_stop s) (switch_banks_via_external_input s)
    (tuning_result s) (upper_bound s) (zero_shift_saved_in_memory s)
    (zero_shifting_result s).
Definition with_eeprom_write_result (v : OperationResult.t) (s : t) : t :=
  mk (_raw_value s) (_r_v_value s) (_calc_value s) (_p_v_value s)
    (_hold_bottom s) (_hold_peak s) (_next_eeprom_write s) (_timing_input s)
    (active_bank_setting s) (banks s) (calibration_result s)
    (decimal_position s) v (external_input_1 s) (external_input_1_setting s)
    (external_input_2 s) (external_input_2_setting s) (external_input_3 s)
    (external_input_3_setting s) (external_input_4 s)
    (external_input_4_setting s) (external_input_use_user_settings s)
    (hold_function_setting s) (internal_error s) (is_main_unit s)
    (lower_bound s) (output_mode_normally_closed s) (reset_request_result s)
    (stored_laser_emission_stop s) (switch_banks_via_external_input s)
    (tuning_result s) (upper_bound s) (zero_shift_saved_in_memory s)
    (zero_shifting_result s).
Definition with_reset_request_result (v : OperationResult.t) (s : t) : t :=
  mk (_raw_value s) (_r_v_value s) (_calc_value s) (_p_v_value s)
    (_hold_bottom s) (_hold_peak s) (_next_eeprom_write s) (_timing_input s)
    (active_bank_setting s) (banks s) (calibration_result s)
    (decimal_position s) (eeprom_write_result s) (external_input_1 s)
    (external_input_1_setting s) (external_input_2 s)
    (external_input_2_setting s) (external_input_3 s)
    (external_input_3_setting s) (external_input_4 s)
    (external_input_4_setting s) (external_input_use_user_settings s)
    (hold_function_setting s) (internal_error s) (is_main_unit s)
    (lower_bound s) (output_mode_normally_closed s) v
    (stored_laser_emission_stop s) (switch_banks_via_external_input s)
    (tuning_result s) (upper_bound s) (zero_shift_saved_in_memory s)
    (zero_shifting_result s).
Definition with_zero_shifting_result (v : OperationResult.t) (s : t) : t :=
  mk (_raw_value s) (_r_v_value s) (_calc_value s) (_p_v_value s)
    (_hold_bottom s) (_hold_peak s) (_next_eeprom_write s) (_timing_input s)
    (active_bank_setting s) (banks s) (calibration_result s)
    (decimal_position s) (eeprom_write_result s) (external_input_1 s)
    (external_input_1_setting s) (external_input_2 s)
    (external_input_2_setting s) (external_input_3 s)
    (external_input_3_setting s) (external_input_4 s)
    (external_input_4_setting s) (external_input_use_user_settings s)
    (hold_function_setting s) (internal_error s) (is_main_unit s)
    (lower_bound s) (output_mode_normally_closed s) (reset_request_result s)
    (stored_laser_emission_stop s) (switch_banks_via_external_input s)
    (tuning_result s) (upper_bound s) (zero_shift_saved_in_memory s) v.
Definition with_external_input_1_setting (v : ExternalInput1Setting.t) (s : t) : t :=
  mk (_raw_value s) (_r_v_value s) (_calc_value s) (_p_v_value s)
    (_hold_bottom s) (_hold_peak s) (_next_eeprom_write s) (_timing_input s)
    (active_bank_setting s) (banks s) (calibration_result s)
    (decimal_position s) (eeprom_write_result s) (external_input_1 s) v
    (external_input_2 s) (external_input_2_setting s) (external_input_3 s)
    (external_input_3_setting s) (external_input_4 s)
    (external_input_4_setting s) (external_input_use_user_settings s)
    (hold_function_setting s) (internal_error s) (is_main_unit s)
    (lower_bound s) (output_mode_normally_closed s) (reset_request_result s)
    (stored_laser_emission_stop s) (switch_banks_via_external_input s)
    (tuning_result s) (upper_bound s) (zero_shift_saved_in_memory s)
    (zero_shifting_result s).
Definition with_external_input_2_setting (v : ExternalInput2Setting.t) (s : t) : t :=
  mk (_raw_value s) (_r_v_value s) (_calc_value s) (_p_v_value s)
    (_hold_bottom s) (_hold_peak s) (_next_eeprom_write s) (_timing_input s)
    (active_bank_setting s) (banks s) (calibration_result s)
    (decimal_position s) (eeprom_write_result s) (external_input_1 s)
    (external_input_1_setting s) (external_input_2 s) v (external_input_3 s)
    (external_input_3_setting s) (external_input_4 s)
    (external_input_4_setting s) (external_input_use_user_settings s)
    (hold_function_setting s) (internal_error s) (is_main_unit s)
    (lower_bound s) (output_mode_normally_closed s) (reset_request_result s)
    (stored_laser_emission_stop s) (switch_banks_via_external_input s)
    (tuning_result s) (upper_bound s) (zero_shift_saved_in_memory s)
    (zero_shifting_result s).
Definition with_external_input_3_setting (v : ExternalInput3Setting.t) (s : t) : t :=
  mk (_raw_value s) (_r_v_value s) (_calc_value s) (_p_v_value s)
    (_hold_bottom s) (_hold_peak s) (_next_eeprom_write s) (_timing_input s)
    (active_bank_setting s) (banks s) (calibration_result s)
    (decimal_position s) (eeprom_write_result s) (external_input_1 s)
    (external_input_1_setting s) (external_input_2 s)
    (external_input_2_setting s) (external_input_3 s) v (external_input_4 s)
    (external_input_4_setting s) (external_input_use_user_settings s)
    (hold_function_setting s) (internal_error s) (is_main_unit s)
    (lower_bound s) (output_mode_normally_closed s) (reset_request_result s)
    (stored_laser_emission_stop s) (switch_banks_via_external_input s)
    (tuning_result s) (upper_bound s) (zero_shift_saved_in_memory s)
    (zero_shifting_result s).
Definition with_external_input_4_setting (v : ExternalInput4Setting.t) (s : t) : t :=
  mk (_raw_value s) (_r_v_value s) (_calc_value s) (_p_v_value s)
    (_hold_bottom s) (_hold_peak s) (_next_eeprom_write s) (_timing_input s)
    (active_bank_setting s) (banks s) (calibration_result s)
    (decimal_position s) (eeprom_write_result s) (external_input_1 s)
    (external_input_1_setting s) (external_input_2 s)
    (external_input_2_setting s) (external_input_3 s)
    (external_input_3_setting s) (external_input_4 s) v
    (external_input_use_user_settings s) (hold_function_setting s)
    (internal_error s) (is_main_unit s) (lower_bound s)
    (output_mode_normally_closed s) (reset_request_result s)
    (stored_laser_emission_stop s) (switch_banks_via_external_input s)
    (tuning_result s) (upper_bound s) (zero_shift_saved_in_memory s)
    (zero_shifting_result s).
Definition with_external_input_use_user_settings (v : bool) (s : t) : t :=
  mk (_raw_value s) (_r_v_value s) (_calc_value s) (_p_v_value s)
    (_hold_bottom s) (_hold_peak s) (_next_eeprom_write s) (_timing_input s)
    (active_bank_setting s) (banks s) (calibration_result s)
    (decimal_position s) (eeprom_write_result s) (external_input_1 s)
    (external_input_1_setting s) (external_input_2 s)
    (external_input_2_setting s) (external_input_3 s)
    (external_input_3_setting s) (external_input_4 s)
    (external_input_4_setting s) v (hold_function_setting s)
    (internal_error s) (is_main_unit s) (lower_bound s)
    (output_mode_normally_closed s) (reset_request_result s)
    (stored_laser_emission_stop s) (switch_banks_via_external_input s)
    (tuning_result s) (upper_bound s) (zero_shift_saved_in_memory s)
    (zero_shifting_result s).
Definition with_hold_function_setting (v : HoldFunctionSetting.t) (s : t) : t :=
  mk (_raw_value s) (_r_v_value s) (_calc_value s) (_p_v_value s)
    (_hold_bottom s) (_hold_peak s) (_next_eeprom_write s) (_timing_input s)
    (active_bank_setting s) (banks s) (calibration_result s)
    (decimal_position s) (eeprom_write_result s) (external_input_1 s)
    (external_input_1_setting s) (external_input_2 s)
    (external_input_2_setting s) (external_input_3 s)
    (external_input_3_setting s) (external_input_4 s)
    (external_input_4_setting s) (external_input_use_user_settings s) v
    (internal_error s) (is_main_unit s) (lower_bound s)
    (output_mode_normally_closed s) (reset_request_result s)
    (stored_laser_emission_stop s) (switch_banks_via_external_input s)
    (tuning_result s) (upper_bound s) (zero_shift_saved_in_memory s)
    (zero_shifting_result s).
Definition with_output_mode_normally_closed (v : bool) (s : t) : t :=
  mk (_raw_value s) (_r_v_value s) (_calc_value s) (_p_v_value s)
    (_hold_bottom s) (_hold_peak s) (_next_eeprom_write s) (_timing_input s)
    (active_bank_setting s) (banks s) (calibration_result s)
    (decimal_position s) (eeprom_write_result s) (external_input_1 s)
    (external_input_1_setting s) (external_input_2 s)
    (external_input_2_setting s) (external_input_3 s)
    (external_input_3_setting s) (external_input_4 s)
    (external_input_4_setting s) (external_input_use_user_settings s)
    (hold_function_setting s) (internal_error s) (is_main_unit s)
    (lower_bound s) v (reset_request_result s) (stored_laser_emission_stop s)
    (switch_banks_via_external_input s) (tuning_result s) (upper_bound s)
    (zero_shift_saved_in_memory s) (zero_shifting_result s).
Definition with_stored_laser_emission_stop (v : bool) (s : t) : t :=
  mk (_raw_value s) (_r_v_value s) (_calc_value s) (_p_v_value s)
    (_hold_bottom s) (_hold_peak s) (_next_eeprom_write s) (_timing_input s)
    (active_bank_setting s) (banks s) (calibration_result s)
    (decimal_position s) (eeprom_write_result s) (external_input_1 s)
    (external_input_1_setting s) (external_input_2 s)
    (external_input_2_setting s) (external_input_3 s)
    (external_input_3_setting s) (external_input_4 s)
    (external_input_4_setting s) (external_input_use_user_settings s)
    (hold_function_setting s) (internal_error s) (is_main_unit s)
    (lower_bound s) (output_mode_normally_closed s) (reset_request_result s) v
    (switch_banks_via_external_input s) (tuning_result s) (upper_bound s)
    (zero_shift_saved_in_memory s) (zero_shifting_result s).
Definition with_switch_banks_via_external_input (v : bool) (s : t) : t :=
  mk (_raw_value s) (_r_v_value s) (_calc_value s) (_p_v_value s)
    (_hold_bottom s) (_hold_peak s) (_next_eeprom_write s) (_timing_input s)
    (active_bank_setting s) (banks s) (calibration_result s)
    (decimal_position s) (eeprom_write_result s) (external_input_1 s)
    (external_input_1_setting s) (external_input_2 s)
    (external_input_2_setting s) (external_input_3 s)
    (external_input_3_setting s) (external_input_4 s)
    (external_input_4_setting s) (external_input_use_user_settings s)
    (hold_function_setting s) (internal_error s) (is_main_unit s)
    (lower_bound s) (output_mode_normally_closed s) (reset_request_result s)
    (stored_laser_emission_stop s) v (tuning_result s) (upper_bound s)
    (zero_shift_saved_in_memory s) (zero_shifting_result s).
Definition with_zero_shift_saved_in_memory (v : bool) (s : t) : t :=
  mk (_raw_value s) (_r_v_value s) (_calc_value s) (_p_v_value s)
    (_hold_bottom s) (_hold_peak s) (_next_eeprom_write s) (_timing_input s)
    (active_bank_setting s) (banks s) (calibration_result s)
    (decimal_position s) (eeprom_write_result s) (external_input_1 s)
    (external_input_1_setting s) (external_input_2 s)
    (external_input_2_setting s) (external_input_3 s)
    (external_input_3_setting s) (external_input_4 s)
    (external_input_4_setting s) (external_input_use_user_settings s)
    (hold_function_setting s) (internal_error s) (is_main_unit s)
    (lower_bound s) (output_mode_normally_closed s) (reset_request_result s)
    (stored_laser_emission_stop s) (switch_banks_via_external_input s)
    (tuning_result s) (upper_bound s) v (zero_shifting_result s).
Definition with_external_input_1 (v : bool) (s : t) : t :=
  mk (_raw_value s) (_r_v_value s) (_calc_value s) (_p_v_value s)
    (_hold_bottom s) (_hold_peak s) (_next_eeprom_write s) (_timing_input s)
    (active_bank_setting s) (banks s) (calibration_result s)
    (decimal_position s) (eeprom_write_result s) v
    (external_input_1_setting s) (external_input_2 s)
    (external_input_2_setting s) (external_input_3 s)
    (external_input_3_setting s) (external_input_4 s)
    (external_input_4_setting s) (external_input_use_user_settings s)
    (hold_function_setting s) (internal_error s) (is_main_unit s)
    (lower_bound s) (output_mode_normally_closed s) (reset_request_result s)
    (stored_laser_emission_stop s) (switch_banks_via_external_input s)
    (tuning_result s) (upper_bound s) (zero_shift_saved_in_memory s)
    (zero_shifting_result s).
Definition with_external_input_2 (v : bool) (s : t) : t :=
  mk (_raw_value s) (_r_v_value s) (_calc_value s) (_p_v_value s)
    (_hold_bottom s) (_hold_peak s) (_next_eeprom_write s) (_timing_input s)
    (active_bank_setting s) (banks s) (calibration_result s)
    (decimal_position s) (eeprom_write_result s) (external_input_1 s)
    (external_input_1_setting s) v (external_input_2_setting s)
    (external_input_3 s) (external_input_3_setting s) (external_input_4 s)
    (external_input_4_setting s) (external_input_use_user_settings s)
    (hold_function_setting s) (internal_error s) (is_main_unit s)
    (lower_bound s) (output_mode_normally_closed s) (reset_request_result s)
    (stored_laser_emission_stop s) (switch_banks_via_external_input s)
    (tuning_result s) (upper_bound s) (zero_shift_saved_in_memory s)
    (zero_shifting_result s).
Definition with_external_input_3 (v : bool) (s : t) : t :=
  mk (_raw_value s) (_r_v_value s) (_calc_value s) (_p_v_value s)
    (_hold_bottom s) (_hold_peak s) (_next_eeprom_write s) (_timing_input s)
    (active_bank_setting s) (banks s) (calibration_result s)
    (decimal_position s) (eeprom_write_result s) (external_input_1 s)
    (external_input_1_setting s) (external_input_2 s)
    (external_input_2_setting s) v (external_input_3_setting s)
    (external_input_4 s) (external_input_4_setting s)
    (external_input_use_user_settings s) (hold_function_setting s)
    (internal_error s) (is_main_unit s) (lower_bound s)
    (output_mode_normally_closed s) (reset_request_result s)
    (stored_laser_emission_stop s) (switch_banks_via_external_input s)
    (tuning_result s) (upper_bound s) (zero_shift_saved_in_memory s)
    (zero_shifting_result s).
Definition with_external_input_4 (v : bool) (s : t) : t :=
  mk (_raw_value s) (_r_v_value s) (_calc_value s) (_p_v_value s)
    (_hold_bottom s) (_hold_peak s) (_next_eeprom_write s) (_timing_input s)
    (active_bank_setting s) (banks s) (calibration_result s)
    (decimal_position s) (eeprom_write_result s) (external_input_1 s)
    (external_input_1_setting s) (external_input_2 s)
    (external_input_2_setting s) (external_input_3 s)
    (external_input_3_setting s) v (external_input_4_setting s)
    (external_input_use_user_settings s) (hold_function_setting s)
    (internal_error s) (is_main_unit s) (lower_bound s)
    (output_mode_normally_closed s) (reset_request_result s)
    (stored_laser_emission_stop s) (switch_banks_via_external_input s)
    (tuning_result s) (upper_bound s) (zero_shift_saved_in_memory s)
    (zero_shifting_result s).
Definition with_internal_error (v : Z) (s : t) : t :=
  mk (_raw_value s) (_r_v_value s) (_calc_value s) (_p_v_value s)
    (_hold_bottom s) (_hold_peak s) (_next_eeprom_write s) (_timing_input s)
    (active_bank_setting s) (banks s) (calibration_result s)
    (decimal_position s) (eeprom_write_result s) (external_input_1 s)
    (external_input_1_setting s) (external_input_2 s)
    (external_input_2_setting s) (external_input_3 s)
    (external_input_3_setting s) (external_input_4 s)
    (external_input_4_setting s) (external_input_use_user_settings s)
    (hold_function_setting s) v (is_main_unit s) (lower_bound s)
    (output_mode_normally_closed s) (reset_request_result s)
    (stored_laser_emission_stop s) (switch_banks_via_external_input s)
    (tuning_result s) (upper_bound s) (zero_shift_saved_in_memory s)
    (zero_shifting_result s).
Definition with_is_main_unit (v : bool) (s : t) : t :=
  mk (_raw_value s) (_r_v_value s) (_calc_value s) (_p_v_value s)
    (_hold_bottom s) (_hold_peak s) (_next_eeprom_write s) (_timing_input s)
    (active_bank_setting s) (banks s) (calibration_result s)
    (decimal_position s) (eeprom_write_result s) (external_input_1 s)
    (external_input_1_setting s) (external_input_2 s)
    (external_input_2_setting s) (external_input_3 s)
    (external_input_3_setting s) (external_input_4 s)
    (external_input_4_setting s) (external_input_use_user_settings s)
    (hold_function_setting s) (internal_error s) v (lower_bound s)
    (output_mode_normally_closed s) (reset_request_result s)
    (stored_laser_emission_stop s) (switch_banks_via_external_input s)
    (tuning_result s) (upper_bound s) (zero_shift_saved_in_memory s)
    (zero_shifting_result s).

(** A call whose body is outside this development: a handler that is not
    embedded here, or a draw of [random.uniform]. *)
Inductive Outside : Set :=
| ReadBody (h : ReadHandler)
| WriteBody (h : WriteHandler) (setting_data : Z)
| RandomUniform.

(** The result of a call: a value, an exception, or a call that leaves the
    development. *)
Inductive Outcome (A : Type) : Type :=
| Return (a : A)
| Raise (e : Errors.Exception)
| Leaves (o : Outside).
Arguments Return {A} a.
Arguments Raise {A} e.
Arguments Leaves {A} o.

Definition raise {A : Type} (e : Errors.CommunicationException) : Outcome A :=
  Raise (Errors.Communication e).

(** The value a read handler returns: [int | str]. *)
Inductive RegValue : Set :=
| IntValue (n : Z)
| StrValue (s : string).

(** *** Fixed-point codec *)

(** [mm_to_int]: millimeter values to protocol integers. *)
Definition mm_to_int (self : t) (value : option Q) : Z :=
  match value with
  | None => -99998
  | Some value =>
      if Py.gt value (upper_bound self) then 99999
      else if Py.lt value (lower_bound self) then -99999
      else Py.trunc (Py.fmul value (Py.float_of_int (10 ^ Z.of_nat (decimal_position self))))
  end.

(** [int_to_mm]: protocol integers to millimeter values. *)
Definition int_to_mm (self : t) (value : Z) : Q :=
  Py.true_div value (10 ^ Z.of_nat (decimal_position self)).

(** *** EEPROM scheduler *)

(** [start_eeprom_write(write_duration)], with [now] the reading of
    [time.time()]. *)
Definition start_eeprom_write (write_duration : Q) (now : Q) (self : t) : t :=
  let self := with_eeprom_write_result OperationResult.OPERATING self in
  let next_write := (now + write_duration)%Q in
  match _next_eeprom_write self with
  | None => with_next_eeprom_write (Some next_write) self
  | Some next =>
      if Py.lt next next_write
      then with_next_eeprom_write (Some next_write) self
      else self
  end.

(** The default [write_duration = 2.0]. *)
Definition default_write_duration : Q := 2.

(** *** Banks *)

(** [self.banks[index]] *)
Definition get_bank (self : t) (index : BANK_INDEX.t) : Bank.t :=
  match banks self, index with
  | (b0, _, _, _), BANK_INDEX.B0 => b0
  | (_, b1, _, _), BANK_INDEX.B1 => b1
  | (_, _, b2, _), BANK_INDEX.B2 => b2
  | (_, _, _, b3), BANK_INDEX.B3 => b3
  end.

(** [self.banks[index].attr = value], as the update [f] of that bank. *)
Definition update_bank (index : BANK_INDEX.t) (f : Bank.t -> Bank.t) (self : t) : t :=
  match banks self, index with
  | (b0, b1, b2, b3), BANK_INDEX.B0 => with_banks (f b0, b1, b2, b3) self
  | (b0, b1, b2, b3), BANK_INDEX.B1 => with_banks (b0, f b1, b2, b3) self
  | (b0, b1, b2, b3), BANK_INDEX.B2 => with_banks (b0, b1, f b2, b3) self
  | (b0, b1, b2, b3), BANK_INDEX.B3 => with_banks (b0, b1, b2, f b3) self
  end.

(** The local variable [bank_a] of [active_bank_index]. *)
Definition bank_a (self : t) : bool :=
  external_input_use_user_settings self && (
    (ExternalInput1Setting.eqb (external_input_1_setting self) ExternalInput1Setting.BANK_A
       && external_input_1 self)
    || (ExternalInput2Setting.eqb (external_input_2_setting self) ExternalInput2Setting.BANK_A
       && external_input_2 self)
    || (ExternalInput3Setting.eqb (external_input_3_setting self) ExternalInput3Setting.BANK_A
       && external_input_3 self)
    || (ExternalInput4Setting.eqb (external_input_4_setting self) ExternalInput4Setting.BANK_A
       && external_input_4 self)).

(** The local variable [bank_b] of [active_bank_index]. *)
Definition bank_b (self : t) : bool :=
  external_input_use_user_settings self && (
    (ExternalInput1Setting.eqb (external_input_1_setting self) ExternalInput1Setting.BANK_B
       && external_input_1 self)
    || (ExternalInput2Setting.eqb (external_input_2_setting self) ExternalInput2Setting.BANK_B
       && external_input_2 self)
    || (ExternalInput3Setting.eqb (external_input_3_setting self) ExternalInput3Setting.BANK_B
       && external_input_3 self)
    || (ExternalInput4Setting.eqb (external_input_4_setting self) ExternalInput4Setting.BANK_B
       && external_input_4 self)).

(** The local variable [bank_index] of [active_bank_index]. *)
Definition bank_index (self : t) : Z :=
  (2 * Py.int_of_bool (bank_b self)) + (1 * Py.int_of_bool (bank_a self)).

(** The property [active_bank_index].  Under
    [switch_banks_via_external_input] the source computes [bank_index] and
    asserts that it is one of 0, 1, 2, 3; the value is then dropped and the
    property returns [active_bank_setting] on every path.  [None] stands
    for the [AssertionError]. *)
Definition active_bank_index_checked (self : t) : option BANK_INDEX.t :=
  if switch_banks_via_external_input self then
    let bank_index := bank_index self in
    if bool_decide (bank_index ∈ [0; 1; 2; 3])
    then Some (active_bank_setting self)
    else None
  else Some (active_bank_setting self).

(** The assertion never fails, hence this total form of the property. *)
Definition active_bank_index (self : t) : BANK_INDEX.t :=
  active_bank_setting self.

(** The property [active_bank]. *)
Definition active_bank (self : t) : Bank.t :=
  get_bank self (active_bank_index self).

Definition threshold_high (self : t) : Q := Bank.threshold_high (active_bank self).
Definition threshold_low (self : t) : Q := Bank.threshold_low (active_bank self).
Definition shift_target (self : t) : Q := Bank.shift_target (active_bank self).

(** [index = self.active_bank_index if index is None else index] *)
Definition index_or_active (self : t) (index : option BANK_INDEX.t) : BANK_INDEX.t :=
  match index with
  | None => active_bank_index self
  | Some index => index
  end.

Definition change_low_threshold
    (value : Q) (index : option BANK_INDEX.t) (now : Q) (self : t) : t :=
  let index := index_or_active self index in
  let self := update_bank index (Bank.with_threshold_low value) self in
  start_eeprom_write default_write_duration now self.

Definition read_low_threshold (self : t) (index : option BANK_INDEX.t) : Q :=
  Bank.threshold_low (get_bank self (index_or_active self index)).

Definition change_high_threshold
    (value : Q) (index : option BANK_INDEX.t) (now : Q) (self : t) : t :=
  let index := index_or_active self index in
  let self := update_bank index (Bank.with_threshold_high value) self in
  start_eeprom_write default_write_duration now self.

Definition read_high_threshold (self : t) (index : option BANK_INDEX.t) : Q :=
  Bank.threshold_high (get_bank self (index_or_active self index)).

Definition change_shift_target
    (value : Q) (index : option BANK_INDEX.t) (now : Q) (self : t) : t :=
  let index := index_or_active self index in
  let self := update_bank index (Bank.with_shift_target value) self in
  if zero_shift_saved_in_memory self
  then start_eeprom_write 0 now self
  else self.

Definition read_shift_target (self : t) (index : option BANK_INDEX.t) : Q :=
  Bank.shift_target (get_bank self (index_or_active self index)).

Definition change_analog_upper_limit
    (value : Q) (index : option BANK_INDEX.t) (now : Q) (self : t) : t :=
  let index := index_or_active self index in
  let self := update_bank index (Bank.with_analog_upper_limit value) self in
  start_eeprom_write default_write_duration now self.

Definition read_analog_upper_limit (self : t) (index : option BANK_INDEX.t) : Q :=
  Bank.analog_upper_limit (get_bank self (index_or_active self index)).

Definition change_analog_lower_limit
    (value : Q) (index : option BANK_INDEX.t) (now : Q) (self : t) : t :=
  let index := index_or_active self index in
  let self := update_bank index (Bank.with_analog_lower_limit value) self in
  start_eeprom_write default_write_duration now self.

Definition read_analog_lower_limit (self : t) (index : option BANK_INDEX.t) : Q :=
  Bank.analog_lower_limit (get_bank self (index_or_active self index)).

Definition change_bank (index : BANK_INDEX.t) (now : Q) (self : t) : t :=
  let self := with_active_bank_setting index self in
  start_eeprom_write default_write_duration now self.

(** [reset]: the zero shift of every bank is cleared unless it is kept in
    memory. *)
Definition reset (now : Q) (self : t) : t :=
  if negb (zero_shift_saved_in_memory self) then
    let self := change_shift_target 0 None now self in
    let clear := Bank.with_shift_target 0 in
    let '(b0, b1, b2, b3) := banks self in
    with_banks (clear b0, clear b1, clear b2, clear b3) self
  else self.

(** *** Status *)

(** [set_error(error_code)]: the word becomes [ILError(error_code)]. *)
Definition set_error (error_code : Z) (self : t) : t := with_internal_error error_code self.

Definition clear_error (self : t) : t := with_internal_error ILError.NO_ERROR self.

Definition has_error (self : t) : bool :=
  negb (internal_error self =? ILError.NO_ERROR).

(** The properties [raw_value], [measurement_value], [calculation_value]
    and [judgment_value] (the getters). *)
Definition raw_value (self : t) : option Q := _raw_value self.
Definition measurement_value (self : t) : option Q := _r_v_value self.
Definition calculation_value (self : t) : option Q := _calc_value self.
Definition judgment_value (self : t) : option Q := _p_v_value self.
Definition timing_input (self : t) : bool := _timing_input self.

(** [isinstance(x, (int, float))] for [x : float | None]. *)
Definition is_number (x : option Q) : bool :=
  match x with Some _ => true | None => false end.

(** The test [x > bound] on a value already known to be a number; on
    [None] the source has returned before the comparison. *)
Definition number_gt (x : option Q) (bound : Q) : bool :=
  match x with Some x => Py.gt x bound | None => false end.
Definition number_lt (x : option Q) (bound : Q) : bool :=
  match x with Some x => Py.lt x bound | None => false end.

(** [apply_uncertainty]: nothing happens without a raw value; otherwise
    the raw value is perturbed by a random draw. *)
Definition apply_uncertainty (self : t) : Outcome t :=
  if is_number (raw_value self) then Leaves RandomUniform else Return self.

(** The property [error_code]: the ordinal of the lowest bit set. *)
Definition error_code (self : t) : Z :=
  let bitmask := internal_error self in
  Py.bit_length (Z.land (- bitmask) bitmask).

Definition laser_active (self : t) : bool :=
  if (external_input_use_user_settings self && (
        (ExternalInput1Setting.eqb (external_input_1_setting self)
           ExternalInput1Setting.LASER_EMISSION_STOP && external_input_1 self)
        || (ExternalInput2Setting.eqb (external_input_2_setting self)
           ExternalInput2Setting.LASER_EMISSION_STOP && external_input_2 self)
        || (ExternalInput3Setting.eqb (external_input_3_setting self)
           ExternalInput3Setting.LASER_EMISSION_STOP && external_input_3 self)
        || (ExternalInput4Setting.eqb (external_input_4_setting self)
           ExternalInput4Setting.LASER_EMISSION_STOP && external_input_4 self)))
     || stored_laser_emission_stop self
     || (internal_error self =? ILError.Sensor_Head)
  then false
  else true.

Definition is_out_of_range (self : t) : bool :=
  negb (laser_active self)
  || negb (is_number (judgment_value self))
  || number_gt (judgment_value self) (upper_bound self)
  || number_lt (judgment_value self) (lower_bound self).

Definition OUTPUT_FALSE (self : t) : bool := output_mode_normally_closed self.
Definition OUTPUT_TRUE (self : t) : bool := negb (output_mode_normally_closed self).

Definition alarm_state (self : t) : bool :=
  if negb (internal_error self =? ILError.NO_ERROR)
     || negb (is_number (raw_value self))
  then true
  else false.

(** The truth value of [ILError.Overcurrent & self.internal_error]. *)
Definition overcurrent (self : t) : bool :=
  negb (Z.land ILError.Overcurrent (internal_error self) =? 0).

Definition high_state (self : t) : bool :=
  if overcurrent self then false
  else if negb (internal_error self =? ILError.NO_ERROR)
          && negb (internal_error self =? ILError.EEPROM) then true
  else if negb (laser_active self)
          || negb (is_number (raw_value self))
          || negb (is_number (judgment_value self)) then false
  else if number_gt (raw_value self) (upper_bound self)
          || number_gt (judgment_value self) (threshold_high self) then true
  else false.

Definition low_state (self : t) : bool :=
  if overcurrent self then false
  else if negb (internal_error self =? ILError.NO_ERROR)
          && negb (internal_error self =? ILError.EEPROM) then true
  else if negb (laser_active self)
          || negb (is_number (raw_value self))
          || negb (is_number (judgment_value self)) then false
  else if number_lt (raw_value self) (lower_bound self)
          || number_lt (judgment_value self) (threshold_low self) then true
  else false.

Definition go_state (self : t) : bool :=
  if overcurrent self then false
  else if negb (internal_error self =? ILError.NO_ERROR)
          && negb (internal_error self =? ILError.EEPROM) then false
  else if negb (laser_active self)
          || negb (is_number (raw_value self))
          || negb (is_number (judgment_value self)) then false
  else if number_gt (raw_value self) (upper_bound self)
          || number_gt (judgment_value self) (threshold_high self)
          || number_lt (raw_value self) (lower_bound self)
          || number_lt (judgment_value self) (threshold_low self) then false
  else true.

Definition alarm_output (self : t) : bool := negb (alarm_state self).
Definition high_output (self : t) : bool :=
  if high_state self then OUTPUT_TRUE self else OUTPUT_FALSE self.
Definition low_output (self : t) : bool :=
  if low_state self then OUTPUT_TRUE self else OUTPUT_FALSE self.
Definition go_output (self : t) : bool :=
  if go_state self then OUTPUT_TRUE self else OUTPUT_FALSE self.

Definition value_invalid (self : t) : bool :=
  negb (laser_active self) || negb (is_number (judgment_value self)).

Definition value_under_range (self : t) : bool :=
  match judgment_value self with
  | None => false
  | Some judgment_value => Py.lt judgment_value (lower_bound self)
  end.

Definition value_over_range (self : t) : bool :=
  match judgment_value self with
  | None => false
  | Some judgment_value => Py.gt judgment_value (upper_bound self)
  end.

Definition output_state (self : t) : OutputState.t :=
  if negb (internal_error self =? ILError.NO_ERROR) then OutputState.Error
  else if high_state self then OutputState.HIGH
  else if low_state self then OutputState.LOW
  else if go_state self then OutputState.GO
  else OutputState.All_OFF.

Definition stringified_state (self : t) : string :=
  Py.fmt_0r 2 (OutputState.value (output_state self)).

(** *** The judgment value delivered to the communication unit *)

Definition CONSTANT_ERROR : Z := 100000000.
Definition CONSTANT_INVALID : Z := -99999998.
Definition CONSTANT_OVERRANGE : Z := 99999999.
Definition CONSTANT_UNDERRANGE : Z := 99999999.

(** [judgment_value_for_communication_unit].  The [assert] of the last
    branch holds there, since [value_invalid] was false. *)
Definition judgment_value_for_communication_unit (self : t) : Z :=
  if negb (internal_error self =? ILError.NO_ERROR) then CONSTANT_ERROR
  else if value_invalid self then CONSTANT_INVALID
  else if value_over_range self then CONSTANT_OVERRANGE
  else if value_under_range self then CONSTANT_UNDERRANGE
  else mm_to_int self (judgment_value self).

(** The property [stringified_value]. *)
Definition stringified_value (self : t) : string :=
  let value := judgment_value_for_communication_unit self in
  Py.fmt_p010d value.

(** *** Read handlers *)

Definition read_033 (self : t) : Z := internal_error self.

Definition read_036 (self : t) : Z :=
  2 ^ 0 * Py.int_of_bool (high_output self)
  + 2 ^ 1 * Py.int_of_bool (low_output self)
  + 2 ^ 2 * Py.int_of_bool (go_output self)
  + 2 ^ 3 * Py.int_of_bool (alarm_output self).

Definition read_037 (self : t) : Z :=
  if negb (laser_active self) || negb (is_number (judgment_value self)) then -99998
  else if number_gt (judgment_value self) (upper_bound self) then 99999
  else if number_lt (judgment_value self) (lower_bound self) then -99999
  else mm_to_int self (judgment_value self).

Definition read_038 (self : t) : Z :=
  if negb (laser_active self) || negb (is_number (measurement_value self)) then -99998
  else if number_gt (measurement_value self) (upper_bound self) then 99999
  else if number_lt (measurement_value self) (lower_bound self) then -99999
  else mm_to_int self (measurement_value self).

Definition read_039 (self : t) : Z :=
  match hold_function_setting self with
  | HoldFunctionSetting.SAMPLE_HOLD => -99998
  | _ => mm_to_int self (_hold_peak self)
  end.

Definition read_040 (self : t) : Z :=
  match hold_function_setting self with
  | HoldFunctionSetting.SAMPLE_HOLD => -99998
  | _ => mm_to_int self (_hold_bottom self)
  end.

Definition read_041 (self : t) : Z :=
  if negb (laser_active self)
     || negb (is_number (calculation_value self))
     || negb (is_main_unit self) then -99998
  else if number_gt (calculation_value self) (upper_bound self) then 99999
  else if number_lt (calculation_value self) (lower_bound self) then -99999
  else mm_to_int self (calculation_value self).

Definition read_043 (self : t) : Z := BANK_INDEX.value (active_bank_index self).

Definition read_044 (self : t) : Z := 1 * Py.int_of_bool (timing_input self).

Definition read_050 (self : t) : Z := 1 * Py.int_of_bool (negb (laser_active self)).

Definition read_052 (self : t) : Z :=
  let output := 0 in
  let output := output + 2 ^ 0 * Py.int_of_bool (external_input_1 self) in
  let output := output + 2 ^ 1 * Py.int_of_bool (external_input_2 self) in
  let output := output + 2 ^ 2 * Py.int_of_bool (external_input_3 self) in
  let output := output + 2 ^ 3 * Py.int_of_bool (external_input_4 self) in
  output.

Definition read_053 (self : t) : Z := OperationResult.value (eeprom_write_result self).
Definition read_054 (self : t) : Z := OperationResult.value (zero_shifting_result self).
Definition read_055 (self : t) : Z := OperationResult.value (reset_request_result self).
Definition read_060 (self : t) : Z := OperationResult.value (tuning_result self).
Definition read_061 (self : t) : Z := OperationResult.value (calibration_result self).

Definition read_06X_high (bank_index : BANK_INDEX.t) (self : t) : Z :=
  mm_to_int self (Some (read_high_threshold self (Some bank_index))).
Definition read_06X_low (bank_index : BANK_INDEX.t) (self : t) : Z :=
  mm_to_int self (Some (read_low_threshold self (Some bank_index))).
Definition read_06X_shift_target (bank_index : BANK_INDEX.t) (self : t) : Z :=
  mm_to_int self (Some (read_shift_target self (Some bank_index))).
Definition read_06X_analog_upper (bank_index : BANK_INDEX.t) (self : t) : Z :=
  mm_to_int self (Some (read_analog_upper_limit self (Some bank_index))).
Definition read_06X_analog_lower (bank_index : BANK_INDEX.t) (self : t) : Z :=
  mm_to_int self (Some (read_analog_lower_limit self (Some bank_index))).

Definition read_098 (self : t) : Z := BANK_INDEX.value (active_bank_setting self).
Definition read_100 (self : t) : Z := 1 * Py.int_of_bool (stored_laser_emission_stop self).
Definition read_134 (self : t) : Z := 1 * Py.int_of_bool (output_mode_normally_closed self).
Definition read_136 (self : t) : Z := HoldFunctionSetting.value (hold_function_setting self).
Definition read_145 (self : t) : Z := 1 * Py.int_of_bool (external_input_use_user_settings self).
Definition read_146 (self : t) : Z := ExternalInput1Setting.value (external_input_1_setting self).
Definition read_147 (self : t) : Z := ExternalInput2Setting.value (external_input_2_setting self).
Definition read_148 (self : t) : Z := ExternalInput3Setting.value (external_input_3_setting self).
Definition read_149 (self : t) : Z := ExternalInput4Setting.value (external_input_4_setting self).
Definition read_150 (self : t) : Z := 1 * Py.int_of_bool (switch_banks_via_external_input self).
Definition read_152 (self : t) : Z := 1 * Py.int_of_bool (zero_shift_saved_in_memory self).
Definition read_193 (self : t) : Z := if is_main_unit self then 4022 else 4023.
Definition read_194 (self : t) : Z := 257.
Definition read_200 (self : t) : string :=
  if is_main_unit self then "IL-1000/1500" else "IL-1050/1550".
Definition read_215 (self : t) : Z := if is_main_unit self then 4022 else 4023.
Definition read_216 (self : t) : Z := 1.
Definition read_217 (self : t) : Z := 0.

(** [handler_function()] for a handler of [read_mapping]. *)
Definition call_read (h : ReadHandler) (self : t) : Outcome RegValue :=
  let int (f : t -> Z) := Return (IntValue (f self)) in
  match h with
  | read_033_sensor_amplifier_error => int read_033
  | read_036_judgment_alarm_output => int read_036
  | read_037_judgment_value => int read_037
  | read_038_internal_measurement_value => int read_038
  | read_039_peak_hold_value_during_hold_period => int read_039
  | read_040_bottom_hold_value_during_hold_period => int read_040
  | read_041_calculation_value => int read_041
  | read_043_bank_status => int read_043
  | read_044_timing_status => int read_044
  | read_050_laser_emission_stop_status => int read_050
  | read_052_external_input_status => int read_052
  | read_053_eeprom_write_result => int read_053
  | read_054_zero_shift_zero_shift_reset_result => int read_054
  | read_055_reset_request_result => int read_055
  | read_060_tuning_result => int read_060
  | read_061_calibraiton_result => int read_061
  | read_06X_high_setting_value_bank_Y i => int (read_06X_high i)
  | read_06X_low_setting_value_bank_Y i => int (read_06X_low i)
  | read_06X_shift_target_value_bank_Y i => int (read_06X_shift_target i)
  | read_06X_analog_output_upper_limit_bank_Y i => int (read_06X_analog_upper i)
  | read_06X_analog_output_lower_limit_bank_Y i => int (read_06X_analog_lower i)
  | read_098_bank_function => int read_098
  | read_100_laser_emission_on_stop_input => int read_100
  | read_134_output_mode => int read_134
  | read_136_hold_function_setting => int read_136
  | read_145_external_input => int read_145
  | read_146_external_input_1 => int read_146
  | read_147_external_input_2 => int read_147
  | read_148_external_input_3 => int read_148
  | read_149_external_input_4 => int read_149
  | read_150_bank_switching_method => int read_150
  | read_152_zero_shift_value_memory_function => int read_152
  | read_193_product_code => int read_193
  | read_194_revision => int read_194
  | read_200_product_name => Return (StrValue (read_200 self))
  | read_215_series_code => int read_215
  | read_216_series_version => int read_216
  | read_217_device_type => int read_217
  | h => Leaves (ReadBody h)
  end.

(** *** Write handlers *)

(** The result of a write handler: how the call ends, and the amplifier
    as the call leaves it. *)
Definition Written : Type := Outcome unit * t.

(** [setting_data not in range(lo, hi + 1)] *)
Definition not_in_range (setting_data lo hi : Z) : bool :=
  negb ((lo <=? setting_data) && (setting_data <=? hi)).

Definition write_001 (setting_data : Z) (now : Q) (self : t) : Written :=
  if negb (setting_data =? 1) then (raise Errors.WriteDataOutsideValidRangeError, self)
  else
    let self := with_zero_shifting_result OperationResult.OPERATING self in
    let value := raw_value self in
    match value with
    | None =>
        (Return tt, with_zero_shifting_result OperationResult.ABNORMAL_TERMINATION self)
    | Some value =>
        let self := change_shift_target value None now self in
        (Return tt, with_zero_shifting_result OperationResult.NORMAL_TERMINATION self)
    end.

Definition write_002 (setting_data : Z) (now : Q) (self : t) : Written :=
  if negb (setting_data =? 1) then (raise Errors.WriteDataOutsideValidRangeError, self)
  else
    let self := with_zero_shifting_result OperationResult.OPERATING self in
    let self := change_shift_target 0 None now self in
    (Return tt, with_zero_shifting_result OperationResult.NORMAL_TERMINATION self).

Definition write_003 (setting_data : Z) (now : Q) (self : t) : Written :=
  if negb (setting_data =? 1) then (raise Errors.WriteDataOutsideValidRangeError, self)
  else
    let self := with_reset_request_result OperationResult.OPERATING self in
    let self := reset now self in
    (Return tt, with_reset_request_result OperationResult.NORMAL_TERMINATION self).

Definition write_06X_high
    (bank_index : BANK_INDEX.t) (setting_data : Z) (now : Q) (self : t) : Written :=
  if not_in_range setting_data (-99999) 99999
  then (raise Errors.WriteDataOutsideValidRangeError, self)
  else (Return tt,
        change_high_threshold (int_to_mm self setting_data) (Some bank_index) now self).

Definition write_06X_low
    (bank_index : BANK_INDEX.t) (setting_data : Z) (now : Q) (self : t) : Written :=
  if not_in_range setting_data (-99999) 99999
  then (raise Errors.WriteDataOutsideValidRangeError, self)
  else (Return tt,
        change_low_threshold (int_to_mm self setting_data) (Some bank_index) now self).

Definition write_06X_shift_target
    (bank_index : BANK_INDEX.t) (setting_data : Z) (now : Q) (self : t) : Written :=
  if not_in_range setting_data (-99999) 99999
  then (raise Errors.WriteDataOutsideValidRangeError, self)
  else (Return tt,
        change_shift_target (int_to_mm self setting_data) (Some bank_index) now self).

Definition write_06X_analog_upper
    (bank_index : BANK_INDEX.t) (setting_data : Z) (now : Q) (self : t) : Written :=
  if negb (is_main_unit self) then (raise Errors.QueryWriteProtectedError, self)
  else if not_in_range setting_data (-99999) 99999
  then (raise Errors.WriteDataOutsideValidRangeError, self)
  else (Return tt,
        change_analog_upper_limit (int_to_mm self setting_data) (Some bank_index) now self).

Definition write_06X_analog_lower
    (bank_index : BANK_INDEX.t) (setting_data : Z) (now : Q) (self : t) : Written :=
  if negb (is_main_unit self) then (raise Errors.QueryWriteProtectedError, self)
  else if not_in_range setting_data (-99999) 99999
  then (raise Errors.WriteDataOutsideValidRangeError, self)
  else (Return tt,
        change_analog_lower_limit (int_to_mm self setting_data) (Some bank_index) now self).

Definition write_098 (setting_data : Z) (now : Q) (self : t) : Written :=
  match BANK_INDEX.of_int setting_data with
  | None => (raise Errors.WriteDataOutsideValidRangeError, self)
  | Some index =>
      if negb (switch_banks_via_external_input self)
      then (Return tt, change_bank index now self)
      else (Return tt, self)
  end.

(** The writers of a flag: [setting_data] is 0 or 1, the flag is
    [bool(setting_data)], and the scheduler is armed. *)
Definition write_flag (assign : bool -> t -> t) (setting_data : Z) (now : Q) (self : t)
    : Written :=
  if negb (setting_data =? 0) && negb (setting_data =? 1)
  then (raise Errors.WriteDataOutsideValidRangeError, self)
  else
    let self := assign (negb (setting_data =? 0)) self in
    (Return tt, start_eeprom_write default_write_duration now self).

(** The writers of an enumerated setting: [setting_data] is a value of the
    enumeration (and, for 146 to 148, at most 4; for 149, at most 3; for
    136, at most 5), the setting is that member, and the scheduler is
    armed. *)
Definition write_enum {E : Type} (of_int : Z -> option E) (assign : E -> t -> t)
    (setting_data : Z) (now : Q) (self : t) : Written :=
  match of_int setting_data with
  | None => (raise Errors.WriteDataOutsideValidRangeError, self)
  | Some member =>
      let self := assign member self in
      (Return tt, start_eeprom_write default_write_duration now self)
  end.

Definition write_100 := write_flag with_stored_laser_emission_stop.
Definition write_134 := write_flag with_output_mode_normally_closed.
Definition write_136 := write_enum HoldFunctionSetting.of_int with_hold_function_setting.
Definition write_145 := write_flag with_external_input_use_user_settings.
Definition write_146 := write_enum ExternalInput1Setting.of_int with_external_input_1_setting.
Definition write_147 := write_enum ExternalInput2Setting.of_int with_external_input_2_setting.
Definition write_148 := write_enum ExternalInput3Setting.of_int with_external_input_3_setting.
Definition write_149 := write_enum ExternalInput4Setting.of_int with_external_input_4_setting.
Definition write_150 := write_flag with_switch_banks_via_external_input.
Definition write_152 := write_flag with_zero_shift_saved_in_memory.

(** [handler_function(setting_data)] for a handler of [write_mapping]. *)
Definition call_write (h : WriteHandler) (setting_data : Z) (now : Q) (self : t) : Written :=
  match h with
  | write_001_zero_shift_execution_request => write_001 setting_data now self
  | write_002_zero_shift_reset_request => write_002 setting_data now self
  | write_003_reset_request => write_003 setting_data now self
  | write_06X_high_setting_value_bank_Y i => write_06X_high i setting_data now self
  | write_06X_low_setting_value_bank_Y i => write_06X_low i setting_data now self
  | write_06X_shift_target_value_bank_Y i => write_06X_shift_target i setting_data now self
  | write_06X_analog_output_upper_limit_bank_Y i =>
      write_06X_analog_upper i setting_data now self
  | write_06X_analog_output_lower_limit_bank_Y i =>
      write_06X_analog_lower i setting_data now self
  | write_098_bank_function => write_098 setting_data now self
  | write_100_laser_emission_on_stop_input => write_100 setting_data now self
  | write_134_output_mode => write_134 setting_data now self
  | write_136_hold_function_setting => write_136 setting_data now self
  | write_145_external_input => write_145 setting_data now self
  | write_146_external_input_1 => write_146 setting_data now self
  | write_147_external_input_2 => write_147 setting_data now self
  | write_148_external_input_3 => write_148 setting_data now self
  | write_149_external_input_4 => write_149 setting_data now self
  | write_150_bank_switching_method => write_150 setting_data now self
  | write_152_zero_shift_value_memory_function => write_152 setting_data now self
  | h => (Leaves (WriteBody h setting_data), self)
  end.

(** *** Register tables *)

(** A [dict] display [{k: v, ...}]: a later entry replaces an earlier one. *)
Definition dict {V : Type} (entries : list (Z * V)) : gmap Z V :=
  foldl (fun m kv => <[kv.1 := kv.2]> m) ∅ entries.

(** [read_mapping], as [init_mappings] builds it. *)
Definition read_mapping : gmap Z ReadHandler :=
  let read_mapping := dict [
    (33, read_033_sensor_amplifier_error);
    (36, read_036_judgment_alarm_output);
    (37, read_037_judgment_value);
    (38, read_038_internal_measurement_value);
    (39, read_039_peak_hold_value_during_hold_period);
    (40, read_040_bottom_hold_value_during_hold_period);
    (41, read_041_calculation_value);
    (42, read_042_analog_output_value);
    (43, read_043_bank_status);
    (44, read_044_timing_status);
    (50, read_050_laser_emission_stop_status);
    (51, read_051_abnormal_setting);
    (52, read_052_external_input_status);
    (53, read_053_eeprom_write_result);
    (54, read_054_zero_shift_zero_shift_reset_result);
    (55, read_055_reset_request_result);
    (56, read_056_current_system_parameters);
    (60, read_060_tuning_result);
    (61, read_061_calibraiton_result);
    (97, read_097_key_lock_function);
    (98, read_098_bank_function);
    (99, read_099_timing_input);
    (100, read_100_laser_emission_on_stop_input);
    (104, read_104_sub_display_screen);
    (105, read_105_system_parameter_settings);
    (106, read_106_tolerance_tuning_setting_range);
    (107, read_107_calibration_function);
    (108, read_108_calibration_function_set_1);
    (109, read_109_calibration_function_set_2);
    (110, read_110_calculated_value_calibration_function);
    (111, read_111_calculated_value_two_point_set_1);
    (112, read_112_calculated_value_two_point_set_2);
    (113, read_113_calculated_value_three_point_set_1);
    (114, read_114_calculated_value_three_point_set_3);
    (129, read_129_calculation_function);
    (131, read_131_measurement_direction);
    (132, read_132_sampling_cycle);
    (133, read_133_averaging_diff_count_high_pass_filter);
    (134, read_134_output_mode);
    (136, read_136_hold_function_setting);
    (137, read_137_auto_hold_trigger_level);
    (138, read_138_timing_input_setting);
    (139, read_139_delay_timer);
    (140, read_140_timer_duration);
    (141, read_141_hyseresis);
    (142, read_142_analog_output_scaling);
    (143, read_143_analog_output_upper_limit_value);
    (144, read_144_analog_output_lower_limit_value);
    (145, read_145_external_input);
    (146, read_146_external_input_1);
    (147, read_147_external_input_2);
    (148, read_148_external_input_3);
    (149, read_149_external_input_4);
    (150, read_150_bank_switching_method);
    (152, read_152_zero_shift_value_memory_function);
    (153, read_153_mutual_interference_prevention_function);
    (154, read_154_display_digit);
    (155, read_155_power_saving_function);
    (156, read_156_head_display_mode);
    (157, read_157_display_color);
    (158, read_158_timer_duration_diff_count_filter);
    (159, read_159_cutoff_frequency_high_pass_filter);
    (161, read_161_alarm_setting);
    (162, read_162_alarm_count);
    (193, read_193_product_code);
    (194, read_194_revision);
    (195, read_195_connected_sensor_head);
    (200, read_200_product_name);
    (215, read_215_series_code);
    (216, read_216_series_version);
    (217, read_217_device_type)
  ] in
  foldl (fun read_mapping i =>
    let n := BANK_INDEX.value i in
    let read_mapping := <[65 + 5 * n + 0 := read_06X_high_setting_value_bank_Y i]> read_mapping in
    let read_mapping := <[65 + 5 * n + 1 := read_06X_low_setting_value_bank_Y i]> read_mapping in
    let read_mapping := <[65 + 5 * n + 2 := read_06X_shift_target_value_bank_Y i]> read_mapping in
    let read_mapping :=
      <[65 + 5 * n + 3 := read_06X_analog_output_upper_limit_bank_Y i]> read_mapping in
    <[65 + 5 * n + 4 := read_06X_analog_output_lower_limit_bank_Y i]> read_mapping)
    read_mapping [BANK_INDEX.B0; BANK_INDEX.B1; BANK_INDEX.B2; BANK_INDEX.B3].

(** [write_mapping], as [init_mappings] builds it. *)
Definition write_mapping : gmap Z WriteHandler :=
  let write_mapping := dict [
    (1, write_001_zero_shift_execution_request);
    (2, write_002_zero_shift_reset_request);
    (3, write_003_reset_request);
    (5, write_005_initial_reset_request);
    (6, write_006_system_parameters_set_request);
    (14, write_014_tolerance_tuning_request);
    (15, write_015_2point_high_1st_point_request);
    (16, write_016_2point_high_2nd_point_request);
    (17, write_017_2point_low_1st_point_request);
    (18, write_018_2point_low_2nd_point_request);
    (19, write_019_calibration_set_1_request);
    (20, write_020_calibration_set_2_request);
    (21, write_021_calc_2point_calibration_set_1_request);
    (22, write_022_calc_2point_calibration_set_2_request);
    (23, write_023_calc_3point_calibration_set_1_request);
    (24, write_024_calc_3point_calibration_set_2_request);
    (25, write_025_calc_3point_calibration_set_3_request);
    (26, write_026_diff_count_filter_1point_tuning_request);
    (27, write_027_diff_count_filter_2point_1st_point_request);
    (28, write_028_diff_count_filter_2point_2nd_point_request);
    (97, write_097_key_lock_function);
    (98, write_098_bank_function);
    (99, write_099_timing_input);
    (100, write_100_laser_emission_on_stop_input);
    (104, write_104_sub_display_screen);
    (105, write_105_system_parameter_settings);
    (106, write_106_tolerance_tuning_setting_range);
    (107, write_107_calibration_function);
    (108, write_108_calibration_function_set_1);
    (109, write_109_calibration_function_set_2);
    (110, write_110_calculated_value_calibration_function);
    (111, write_111_calculated_value_two_point_set_1);
    (112, write_112_calculated_value_two_point_set_2);
    (113, write_113_calculated_value_three_point_set_1);
    (114, write_114_calculated_value_three_point_set_3);
    (129, write_129_calculation_function);
    (131, write_131_measurement_direction);
    (132, write_132_sampling_cycle);
    (133, write_133_averaging_diff_count_high_pass_filter);
    (134, write_134_output_mode);
    (136, write_136_hold_function_setting);
    (137, write_137_auto_hold_trigger_level);
    (138, write_138_timing_input_setting);
    (139, write_139_delay_timer);
    (140, write_140_timer_duration);
    (141, write_141_hyseresis);
    (142, write_142_analog_output_scaling);
    (143, write_143_analog_output_upper_limit_value);
    (144, write_144_analog_output_lower_limit_value);
    (145, write_145_external_input);
    (146, write_146_external_input_1);
    (147, write_147_external_input_2);
    (148, write_148_external_input_3);
    (149, write_149_external_input_4);
    (150, write_150_bank_switching_method);
    (152, write_152_zero_shift_value_memory_function);
    (153, write_153_mutual_interference_prevention_function);
    (154, write_154_display_digit);
    (155, write_155_power_saving_function);
    (156, write_156_head_display_mode);
    (157, write_157_display_color);
    (158, write_158_timer_duration_diff_count_filter);
    (159, write_159_cutoff_frequency_high_pass_filter);
    (161, write_161_alarm_setting);
    (162, write_162_alarm_count)
  ] in
  foldl (fun write_mapping i =>
    let n := BANK_INDEX.value i in
    let write_mapping := <[65 + 5 * n + 0 := write_06X_high_setting_value_bank_Y i]> write_mapping in
    let write_mapping := <[65 + 5 * n + 1 := write_06X_low_setting_value_bank_Y i]> write_mapping in
    let write_mapping :=
      <[65 + 5 * n + 2 := write_06X_shift_target_value_bank_Y i]> write_mapping in
    let write_mapping :=
      <[65 + 5 * n + 3 := write_06X_analog_output_upper_limit_bank_Y i]> write_mapping in
    <[65 + 5 * n + 4 := write_06X_analog_output_lower_limit_bank_Y i]> write_mapping)
    write_mapping [BANK_INDEX.B0; BANK_INDEX.B1; BANK_INDEX.B2; BANK_INDEX.B3].

(** *** Dispatch *)

(** [handle_read]: dispatch read calls for SR commands. *)
Definition handle_read (self : t) (query_data : Z) : Outcome RegValue :=
  if query_data >? 223 then raise Errors.QueryOutsideValidRangeError
  else
    match read_mapping !! query_data with
    | None =>
        if bool_decide (query_data ∈ dom write_mapping)
        then raise Errors.QueryReadProtectedError
        else raise Errors.InaccessibleIDOrQueryError
    | Some handler_function => call_read handler_function self
    end.

(** [handle_write]: dispatch write calls for SW commands. *)
Definition handle_write (self : t) (query_data setting_data : Z) (now : Q) : Written :=
  if query_data >? 223 then (raise Errors.QueryOutsideValidRangeError, self)
  else
    match write_mapping !! query_data with
    | None =>
        if bool_decide (query_data ∈ dom read_mapping)
        then (raise Errors.QueryWriteProtectedError, self)
        else (raise Errors.InaccessibleIDOrQueryError, self)
    | Some handler_function => call_write handler_function setting_data now self
    end.

End SensorUnit.

(** ** The communication unit ([ilsim/communication.py]) *)

Module DLEN1Error.
Inductive t : Set :=
| NO_ERROR
| ERROR_051 | ERROR_052 | ERROR_053 | ERROR_054 | ERROR_055 | ERROR_056
| ERROR_057 | ERROR_070
| ERROR_100 | ERROR_101 | ERROR_102 | ERROR_103 | ERROR_104
| ERROR_150 | ERROR_151 | ERROR_152.
Definition value (e : t) : Z :=
  match e with
  | NO_ERROR => 0
  | ERROR_051 => 51 | ERROR_052 => 52 | ERROR_053 => 53 | ERROR_054 => 54
  | ERROR_055 => 55 | ERROR_056 => 56 | ERROR_057 => 57 | ERROR_070 => 70
  | ERROR_100 => 100 | ERROR_101 => 101 | ERROR_102 => 102
  | ERROR_103 => 103 | ERROR_104 => 104
  | ERROR_150 => 150 | ERROR_151 => 151 | ERROR_152 => 152
  end.
Definition eqb (x y : t) : bool := value x =? value y.
End DLEN1Error.

Module CommunicationUnit.

Import SensorUnit(Outcome, Return, Raise, Leaves, raise).

Record t : Type := mk {
  connected_sensors : list SensorUnit.t;
  internal_error : DLEN1Error.t;
  mask_sensor_status : bool
}.

Definition with_connected_sensors (v : list SensorUnit.t) (self : t) : t :=
  mk v (internal_error self) (mask_sensor_status self).
Definition with_mask_sensor_status (v : bool) (self : t) : t :=
  mk (connected_sensors self) (internal_error self) v.

(** *** The command grammar [valid_query_regex] *)

(** The groups 1 to 7 of a match. *)
Record Match : Set := mkMatch {
  group1 : option string;
  group2 : option string;
  group3 : option string;
  group4 : option string;
  group5 : option string;
  group6 : option string;
  group7 : option string
}.

(** A literal at the head of the text; the rest of the text is returned.
    The literals of the pattern are ASCII, and an ASCII byte of a UTF-8
    text is a character of it. *)
Fixpoint literal (lit s : string) : option string :=
  match lit, s with
  | EmptyString, _ => Some s
  | String a lit', String b s' => if Ascii.eqb a b then literal lit' s' else None
  | String _ _, EmptyString => None
  end.

(** [\d{n}] at the head of the text: the digits and the rest.  The
    pattern is a [str] pattern compiled without [re.ASCII], so that [\d]
    is any decimal digit of Unicode. *)
Fixpoint digits (n : nat) (s : string) : option (string * string) :=
  match n with
  | O => Some (EmptyString, s)
  | S n' =>
      match Py.next_char s with
      | Some (cp, c, s') =>
          match Py.decimal cp with
          | Some _ =>
              match digits n' s' with
              | Some (d, rest) => Some (c +:+ d, rest)
              | None => None
              end
          | None => None
          end
      | None => None
      end
  end.

(** [[+-]\d{9}] at the head of the text. *)
Definition signed_digits (s : string) : option (string * string) :=
  match s with
  | String c s' =>
      if Ascii.eqb c "+" || Ascii.eqb c "-" then
        match digits 9 s' with
        | Some (d, rest) => Some (String c d, rest)
        | None => None
        end
      else None
  | EmptyString => None
  end.

(** The end of the pattern: [\r\n] and nothing after it. *)
Definition at_end (s : string) (m : Match) : option Match :=
  if String.eqb s Py.CRLF then Some m else None.

Definition no_groups : Match := mkMatch None None None None None None None.

(** The five alternatives of the pattern, each followed by [\r\n]. *)
Definition alt_M0 (s : string) : option Match :=
  rest ← literal "M0" s; at_end rest no_groups.

Definition alt_MS (s : string) : option Match :=
  rest ← literal "MS" s; at_end rest no_groups.

Definition alt_SR (s : string) : option Match :=
  rest ← literal "SR," s;
  '(g1, rest) ← digits 2 rest;
  rest ← literal "," rest;
  '(g2, rest) ← digits 3 rest;
  at_end rest (mkMatch (Some g1) (Some g2) None None None None None).

Definition alt_SW (s : string) : option Match :=
  rest ← literal "SW," s;
  '(g3, rest) ← digits 2 rest;
  rest ← literal "," rest;
  '(g4, rest) ← digits 3 rest;
  rest ← literal "," rest;
  '(g5, rest) ← signed_digits rest;
  at_end rest (mkMatch None None (Some g3) (Some g4) (Some g5) None None).

Definition alt_FR (s : string) : option Match :=
  rest ← literal "FR," s;
  '(g6, rest) ← digits 2 rest;
  rest ← literal "," rest;
  '(g7, rest) ← digits 3 rest;
  at_end rest (mkMatch None None None None None (Some g6) (Some g7)).

(** The first alternative that matches, if any. *)
Definition orelse {A : Type} (x y : option A) : option A :=
  match x with Some _ => x | None => y end.

(** [valid_query_regex.fullmatch(s)] *)
Definition fullmatch (s : string) : option Match :=
  orelse (alt_M0 s) (orelse (alt_MS s) (orelse (alt_SR s) (orelse (alt_SW s) (alt_FR s)))).

(** *** Register file of the communication unit *)

(** Names of the bound methods stored in [read_mapping]; for 044 to 058
    and 669 to 683 the partial application to [i]. *)
Inductive ReadHandler : Set :=
| read_000_status
| read_001_sensor_error_status
| read_002_warning_status
| read_004_current_value_0_property
| read_008_error_id_number
| read_009_error_code
| read_010_warning_id_number
| read_011_warning_code
| read_016_output_1_high
| read_017_output_2_low
| read_018_output_3_go
| read_019_output_4_alarm
| read_020_output_5
| read_038_current_value_0_invalid
| read_039_current_value_0_under_range
| read_040_current_value_0_over_range
| read_044_to_058_current_value_id_Y (id : Z)
| read_076_sensor_status_mask_setting
| read_077_sensor_connected_number
| read_668_error_code_id_00
| read_669_to_683_error_code_id_Y (id : Z).

Inductive WriteHandler : Set :=
| write_076_sensor_status_mask_setting.

(** [range(n)] *)
Definition range (n : nat) : list Z := Z.of_nat <$> seq 0 n.

Definition read_mapping : gmap Z ReadHandler :=
  let read_mapping := SensorUnit.dict [
    (0, read_000_status);
    (1, read_001_sensor_error_status);
    (2, read_002_warning_status);
    (4, read_004_current_value_0_property);
    (8, read_008_error_id_number);
    (9, read_009_error_code);
    (10, read_010_warning_id_number);
    (11, read_011_warning_code);
    (16, read_016_output_1_high);
    (17, read_017_output_2_low);
    (18, read_018_output_3_go);
    (19, read_019_output_4_alarm);
    (20, read_020_output_5);
    (38, read_038_current_value_0_invalid);
    (39, read_039_current_value_0_under_range);
    (40, read_040_current_value_0_over_range);
    (76, read_076_sensor_status_mask_setting);
    (77, read_077_sensor_connected_number);
    (668, read_668_error_code_id_00)
  ] in
  foldl (fun read_mapping i =>
    let read_mapping := <[44 + i := read_044_to_058_current_value_id_Y i]> read_mapping in
    <[669 + i := read_669_to_683_error_code_id_Y i]> read_mapping)
    read_mapping (range 15).

Definition write_mapping : gmap Z WriteHandler :=
  SensorUnit.dict [ (76, write_076_sensor_status_mask_setting) ].

(** [sum(2**i * f(sensor) for i, sensor in enumerate(sensors))], the loop
    shared by the bitmap registers. *)
Fixpoint bitmap_from (i : Z) (f : SensorUnit.t -> bool) (sensors : list SensorUnit.t) : Z :=
  match sensors with
  | [] => 0
  | sensor :: rest => 2 ^ i * Py.int_of_bool (f sensor) + bitmap_from (i + 1) f rest
  end.

Definition bitmap (f : SensorUnit.t -> bool) (self : t) : Z :=
  bitmap_from 0 f (connected_sensors self).

Definition bus_error (self : t) : bool :=
  negb (DLEN1Error.eqb (internal_error self) DLEN1Error.NO_ERROR).

Definition read_000 (self : t) : Z :=
  let output := 0 in
  let output := output + 2 ^ 0 * Py.int_of_bool (bus_error self) in
  let output :=
    output + 2 ^ 15 * Py.int_of_bool (existsb SensorUnit.has_error (connected_sensors self)) in
  output.

Definition read_001 (self : t) : Z := bitmap SensorUnit.has_error self.
Definition read_002 (self : t) : Z := 0.
Definition read_004 (self : t) : Z := bitmap SensorUnit.is_out_of_range self.

(** The loop of [read_008_error_id_number]: the 1-based position of the
    first amplifier with an error. *)
Fixpoint first_error_id (i : Z) (sensors : list SensorUnit.t) : Z :=
  match sensors with
  | [] => 0
  | sensor :: rest =>
      if SensorUnit.has_error sensor then i + 1 else first_error_id (i + 1) rest
  end.

Definition read_008 (self : t) : Z :=
  if bus_error self then 0 else first_error_id 0 (connected_sensors self).

Fixpoint first_error_code (sensors : list SensorUnit.t) : Z :=
  match sensors with
  | [] => 0
  | sensor :: rest =>
      if SensorUnit.has_error sensor then SensorUnit.error_code sensor
      else first_error_code rest
  end.

Definition read_009 (self : t) : Z :=
  if bus_error self then DLEN1Error.value (internal_error self)
  else first_error_code (connected_sensors self).

Definition read_010 (self : t) : Z := 0.
Definition read_011 (self : t) : Z := 0.
Definition read_016 (self : t) : Z := bitmap SensorUnit.high_output self.
Definition read_017 (self : t) : Z := bitmap SensorUnit.low_output self.
Definition read_018 (self : t) : Z := bitmap SensorUnit.go_output self.
Definition read_019 (self : t) : Z := bitmap SensorUnit.alarm_output self.
Definition read_020 (self : t) : Z := 0.
Definition read_038 (self : t) : Z := bitmap SensorUnit.value_invalid self.
Definition read_039 (self : t) : Z := bitmap SensorUnit.value_under_range self.
Definition read_040 (self : t) : Z := bitmap SensorUnit.value_over_range self.

Definition read_044_to_058 (id : Z) (self : t) : Outcome Z :=
  match Py.getitem (connected_sensors self) id with
  | Some sensor => Return (SensorUnit.judgment_value_for_communication_unit sensor)
  | None => raise Errors.IDOutsideValidRangeError
  end.

Definition read_076 (self : t) : Z := 1 * Py.int_of_bool (mask_sensor_status self).

Definition write_076 (setting_data : Z) (self : t) : Outcome unit * t :=
  if negb (setting_data =? 0) && negb (setting_data =? 1)
  then (raise Errors.WriteDataOutsideValidRangeError, self)
  else (Return tt, with_mask_sensor_status (negb (setting_data =? 0)) self).

Definition read_077 (self : t) : Z := Z.of_nat (length (connected_sensors self)).
Definition read_668 (self : t) : Z := DLEN1Error.value (internal_error self).

Definition read_669_to_683 (id : Z) (self : t) : Outcome Z :=
  match Py.getitem (connected_sensors self) id with
  | Some sensor => Return (SensorUnit.internal_error sensor)
  | None => raise Errors.IDOutsideValidRangeError
  end.

Definition call_read (h : ReadHandler) (self : t) : Outcome Z :=
  match h with
  | read_000_status => Return (read_000 self)
  | read_001_sensor_error_status => Return (read_001 self)
  | read_002_warning_status => Return (read_002 self)
  | read_004_current_value_0_property => Return (read_004 self)
  | read_008_error_id_number => Return (read_008 self)
  | read_009_error_code => Return (read_009 self)
  | read_010_warning_id_number => Return (read_010 self)
  | read_011_warning_code => Return (read_011 self)
  | read_016_output_1_high => Return (read_016 self)
  | read_017_output_2_low => Return (read_017 self)
  | read_018_output_3_go => Return (read_018 self)
  | read_019_output_4_alarm => Return (read_019 self)
  | read_020_output_5 => Return (read_020 self)
  | read_038_current_value_0_invalid => Return (read_038 self)
  | read_039_current_value_0_under_range => Return (read_039 self)
  | read_040_current_value_0_over_range => Return (read_040 self)
  | read_044_to_058_current_value_id_Y id => read_044_to_058 id self
  | read_076_sensor_status_mask_setting => Return (read_076 self)
  | read_077_sensor_connected_number => Return (read_077 self)
  | read_668_error_code_id_00 => Return (read_668 self)
  | read_669_to_683_error_code_id_Y id => read_669_to_683 id self
  end.

Definition call_write (h : WriteHandler) (setting_data : Z) (self : t) : Outcome unit * t :=
  match h with
  | write_076_sensor_status_mask_setting => write_076 setting_data self
  end.

Definition handle_read (self : t) (query_data : Z) : Outcome Z :=
  if query_data >? 1179 then raise Errors.QueryOutsideValidRangeError
  else
    match read_mapping !! query_data with
    | None =>
        if bool_decide (query_data ∈ dom write_mapping)
        then raise Errors.QueryReadProtectedError
        else raise Errors.InaccessibleIDOrQueryError
    | Some handler_function => call_read handler_function self
    end.

Definition handle_write (self : t) (query_data setting_data : Z) : Outcome unit * t :=
  if query_data >? 1179 then (raise Errors.QueryOutsideValidRangeError, self)
  else
    match write_mapping !! query_data with
    | None =>
        if bool_decide (query_data ∈ dom read_mapping)
        then (raise Errors.QueryWriteProtectedError, self)
        else (raise Errors.InaccessibleIDOrQueryError, self)
    | Some handler_function => call_write handler_function setting_data self
    end.

(** *** Responses *)

(** [apply_sensor_uncertainty]: [apply_uncertainty] on every amplifier, in
    order. *)
Fixpoint apply_uncertainty_each (sensors : list SensorUnit.t) : Outcome (list SensorUnit.t) :=
  match sensors with
  | [] => Return []
  | sensor :: rest =>
      match SensorUnit.apply_uncertainty sensor with
      | Return sensor =>
          match apply_uncertainty_each rest with
          | Return rest => Return (sensor :: rest)
          | Raise e => Raise e
          | Leaves o => Leaves o
          end
      | Raise e => Raise e
      | Leaves o => Leaves o
      end
  end.

Definition apply_sensor_uncertainty (self : t) : Outcome t :=
  match apply_uncertainty_each (connected_sensors self) with
  | Return sensors => Return (with_connected_sensors sensors self)
  | Raise e => Raise e
  | Leaves o => Leaves o
  end.

Definition response_M0 (self : t) : string :=
  let values := Py.join "," (SensorUnit.stringified_value <$> connected_sensors self) in
  "M0," +:+ values +:+ Py.CRLF.

Definition response_MS (self : t) : string :=
  let values :=
    Py.join ","
      ((fun u => SensorUnit.stringified_state u +:+ "," +:+ SensorUnit.stringified_value u)
         <$> connected_sensors self) in
  "MS," +:+ values +:+ Py.CRLF.

Definition NOT_IMPLEMENTED : string := "NOT_IMPLEMENTED!".

(** [response_SR(id, query_data)] on the two captured texts. *)
Definition response_SR (self : t) (id query_data : string) : Outcome string :=
  match Py.int id with
  | None => raise Errors.CommandFormatError
  | Some id =>
  match Py.int query_data with
  | None => raise Errors.CommandFormatError
  | Some query_data =>
      let output : Outcome SensorUnit.RegValue :=
        if id =? 0 then
          match handle_read self query_data with
          | Return n => Return (SensorUnit.IntValue n)
          | Raise e => Raise e
          | Leaves o => Leaves o
          end
        else
          match Py.getitem (connected_sensors self) (id - 1) with
          | None => raise Errors.IDOutsideValidRangeError
          | Some relevant_sensor => SensorUnit.handle_read relevant_sensor query_data
          end in
      match output with
      | Raise Errors.NotImplementedError => Return NOT_IMPLEMENTED
      | Raise e => Raise e
      | Leaves o => Leaves o
      | Return (SensorUnit.StrValue output) =>
          Return ("SR," +:+ Py.fmt_0r 2 id +:+ "," +:+ Py.fmt_0r 3 query_data +:+ ","
                    +:+ output +:+ Py.CRLF)
      | Return (SensorUnit.IntValue output) =>
          Return ("SR," +:+ Py.fmt_0r 2 id +:+ "," +:+ Py.fmt_0r 3 query_data +:+ ","
                    +:+ Py.fmt_p010d output +:+ Py.CRLF)
      end
  end end.

(** [response_SW(id, query_data, setting_data)] on the three captured
    texts. *)
Definition response_SW (self : t) (id query_data setting_data : string) (now : Q)
    : Outcome string * t :=
  match Py.int id with
  | None => (raise Errors.CommandFormatError, self)
  | Some id =>
  match Py.int query_data with
  | None => (raise Errors.CommandFormatError, self)
  | Some query_data =>
  match Py.int setting_data with
  | None => (raise Errors.CommandFormatError, self)
  | Some setting_data =>
      let reply := "SW," +:+ Py.fmt_0r 2 id +:+ "," +:+ Py.fmt_0r 3 query_data +:+ Py.CRLF in
      if id =? 0 then
        match handle_write self query_data setting_data with
        | (Return _, self) => (Return reply, self)
        | (Raise Errors.NotImplementedError, self) => (Return NOT_IMPLEMENTED, self)
        | (Raise e, self) => (Raise e, self)
        | (Leaves o, self) => (Leaves o, self)
        end
      else
        match Py.getitem (connected_sensors self) (id - 1) with
        | None => (raise Errors.IDOutsideValidRangeError, self)
        | Some relevant_sensor =>
            let '(outcome, relevant_sensor) :=
              SensorUnit.handle_write relevant_sensor query_data setting_data now in
            let self :=
              with_connected_sensors
                (Py.setitem (connected_sensors self) (id - 1) relevant_sensor) self in
            match outcome with
            | Return _ => (Return reply, self)
            | Raise Errors.NotImplementedError => (Return NOT_IMPLEMENTED, self)
            | Raise e => (Raise e, self)
            | Leaves o => (Leaves o, self)
            end
        end
  end end end.

(** [response_FR(id, query_data)] on the two captured texts. *)
Definition response_FR (self : t) (id query_data : string) : Outcome string :=
  match Py.int id with
  | None => raise Errors.CommandFormatError
  | Some id =>
  match Py.int query_data with
  | None => raise Errors.CommandFormatError
  | Some query_data =>
      if id =? 0 then raise Errors.IDOutsideValidRangeError
      else
        match Py.getitem (connected_sensors self) (id - 1) with
        | None => raise Errors.IDOutsideValidRangeError
        | Some relevant_sensor =>
            let output := Z.of_nat (SensorUnit.decimal_position relevant_sensor) in
            Return ("FR," +:+ Py.fmt_0r 2 id +:+ "," +:+ Py.fmt_0r 3 query_data +:+ ","
                      +:+ Py.fmt_p010d output +:+ Py.CRLF)
        end
  end end.

(** [response(query, id, query_data, setting_data)]; a failed [assert] is
    the [AssertionError]. *)
Definition response
    (self : t) (query : string) (id query_data setting_data : option string) (now : Q)
    : Outcome string * t :=
  if String.eqb query "M0" then
    match apply_sensor_uncertainty self with
    | Return self => (Return (response_M0 self), self)
    | Raise e => (Raise e, self)
    | Leaves o => (Leaves o, self)
    end
  else if String.eqb query "MS" then
    match apply_sensor_uncertainty self with
    | Return self => (Return (response_MS self), self)
    | Raise e => (Raise e, self)
    | Leaves o => (Leaves o, self)
    end
  else if String.eqb query "SR" then
    match id, query_data with
    | Some id, Some query_data => (response_SR self id query_data, self)
    | _, _ => (Raise Errors.AssertionError, self)
    end
  else if String.eqb query "SW" then
    match id, query_data, setting_data with
    | Some id, Some query_data, Some setting_data =>
        response_SW self id query_data setting_data now
    | _, _, _ => (Raise Errors.AssertionError, self)
    end
  else if String.eqb query "FR" then
    match id, query_data with
    | Some id, Some query_data => (response_FR self id query_data, self)
    | _, _ => (Raise Errors.AssertionError, self)
    end
  else (Return ("MISSING_RESPONSE!" +:+ Py.CRLF), self).

(** The reply [f'ER,{query},{code:0>3}\r\n']. *)
Definition error_reply (query : string) (code : Errors.CommunicationErrorCodes) : string :=
  "ER," +:+ query +:+ "," +:+ Py.fmt_0r 3 (Errors.value code) +:+ Py.CRLF.

(** [handle_query(raw_query)]: the reply and the communication unit after
    the request.  [Raise] is the exception that leaves the method: the
    [UnicodeDecodeError] of the first statement, or the exception that the
    last [except] clause raises again.  The console output of the first
    branch is not kept. *)
Definition handle_query (self : t) (raw_query : string) (now : Q) : Outcome string * t :=
  match Py.decode raw_query with
  | None => (Raise Errors.UnicodeDecodeError, self)
  | Some translated_query =>
  let query := Py.prefix 2 translated_query in
  match fullmatch translated_query with
  | None =>
      (Return (error_reply query (Errors.error_code Errors.CommandFormatError)), self)
  | Some mo =>
      if negb (DLEN1Error.eqb (internal_error self) DLEN1Error.NO_ERROR) then
        (Return (error_reply query (Errors.error_code Errors.GeneralSystemError)), self)
      else
        let '(id, query_data, setting_data) :=
          if String.eqb query "SR" then (group1 mo, group2 mo, None)
          else if String.eqb query "SW" then (group3 mo, group4 mo, group5 mo)
          else if String.eqb query "FR" then (group6 mo, group7 mo, None)
          else (None, None, None) in
        match response self query id query_data setting_data now with
        | (Return reply, self) => (Return reply, self)
        | (Raise (Errors.Communication e), self) =>
            (Return (error_reply query (Errors.error_code e)), self)
        | (Raise e, self) => (Raise e, self)
        | (Leaves o, self) => (Leaves o, self)
        end
  end
  end.

End CommunicationUnit.

(** ** Construction *)

Module Factory.

(** The amplifier that [SensorUnit.__init__] builds, on the attributes of
    the record, for the given head constants; [now] is the time of the
    construction.  [restore_default_settings] arms the scheduler for 3.0
    seconds and [set_system_parameters] for 2.0 seconds, which leaves the
    deadline at [now + 3.0].  The assignment [self.raw_value =
    initial_value] runs the cascade on the default settings (zero shift
    target, no calibration, calculation off, sample hold with the timing
    input off), which copies the value to R.V., CALC and P.V. *)
Definition init
    (initial_value : option Q) (decimal_position : nat)
    (default_threshold_high default_threshold_low default_shift_target
       default_bank_analog_upper_limit default_bank_analog_lower_limit : Q)
    (now : Q) : SensorUnit.t :=
  let create_bank :=
    Bank.mk default_threshold_high default_threshold_low default_shift_target
      default_bank_analog_upper_limit default_bank_analog_lower_limit in
  let int_to_mm (value : Z) := Py.true_div value (10 ^ Z.of_nat decimal_position) in
  {| SensorUnit._raw_value := initial_value;
     SensorUnit._r_v_value := initial_value;
     SensorUnit._calc_value := initial_value;
     SensorUnit._p_v_value := initial_value;
     SensorUnit._hold_bottom := None;
     SensorUnit._hold_peak := None;
     SensorUnit._next_eeprom_write := Some (now + 3)%Q;
     SensorUnit._timing_input := false;
     SensorUnit.active_bank_setting := BANK_INDEX.B0;
     SensorUnit.banks := (create_bank, create_bank, create_bank, create_bank);
     SensorUnit.calibration_result := OperationResult.NORMAL_TERMINATION;
     SensorUnit.decimal_position := decimal_position;
     SensorUnit.eeprom_write_result := OperationResult.OPERATING;
     SensorUnit.external_input_1 := false;
     SensorUnit.external_input_1_setting := ExternalInput1Setting.ZERO_SHIFT;
     SensorUnit.external_input_2 := false;
     SensorUnit.external_input_2_setting := ExternalInput2Setting.RESET;
     SensorUnit.external_input_3 := false;
     SensorUnit.external_input_3_setting := ExternalInput3Setting.TIMING;
     SensorUnit.external_input_4 := false;
     SensorUnit.external_input_4_setting := ExternalInput4Setting.UNUSED;
     SensorUnit.external_input_use_user_settings := false;
     SensorUnit.hold_function_setting := HoldFunctionSetting.SAMPLE_HOLD;
     SensorUnit.internal_error := ILError.NO_ERROR;
     SensorUnit.is_main_unit := true;
     SensorUnit.lower_bound := int_to_mm (-99999);
     SensorUnit.output_mode_normally_closed := false;
     SensorUnit.reset_request_result := OperationResult.NORMAL_TERMINATION;
     SensorUnit.stored_laser_emission_stop := false;
     SensorUnit.switch_banks_via_external_input := false;
     SensorUnit.tuning_result := OperationResult.NORMAL_TERMINATION;
     SensorUnit.upper_bound := int_to_mm 99999;
     SensorUnit.zero_shift_saved_in_memory := false;
     SensorUnit.zero_shifting_result := OperationResult.NORMAL_TERMINATION |}.

(** [SensorUnit.create_IL_030()] *)
Definition create_IL_030 (now : Q) : SensorUnit.t :=
  init (Some 0%Q) 3 5 (-5) 0 10 (-10) now.

(** [SensorUnit.create_IL_300()], a head with two decimal places. *)
Definition create_IL_300 (now : Q) : SensorUnit.t :=
  init (Some 0%Q) 2 50 (-50) 0 100 (-100) now.

(** [CommunicationUnit()] *)
Definition CommunicationUnit_init : CommunicationUnit.t :=
  CommunicationUnit.mk [] DLEN1Error.NO_ERROR false.

End Factory.

(** ** Scaling on a straight line (module functions of [ilsim/sensor.py]) *)

Module Scaling.

(** [get_scale_values(x1, y1, x2, y2)]: tilt and offset of the line
    through the two points; [None] stands for the [ZeroDivisionError] of
    [x2 == x1]. *)
Definition get_scale_values (x1 y1 x2 y2 : Q) : option (Q * Q) :=
  if Qeq_bool (x2 - x1) 0 then None
  else
    let tilt := ((y2 - y1) / (x2 - x1))%Q in
    let offset := (y1 - x1 * tilt)%Q in
    Some (tilt, offset).

(** [scale_values(x, x1, y1, x2, y2)] *)
Definition scale_values (x x1 y1 x2 y2 : Q) : option Q :=
  '(tilt, offset) ← get_scale_values x1 y1 x2 y2;
  Some (tilt * x + offset)%Q.

End Scaling.

(** ** The EEPROM thread *)

Module EepromThread.

(** The truth value of a [float | None]: [None] and [0.0] are false. *)
Definition truthy (x : option Q) : bool :=
  match x with
  | None => false
  | Some x => negb (Qeq_bool x 0)
  end.

(** One pass of the loop body of [perform_eeprom_writes], with [now] the
    reading of [time.time()]. *)
Definition pass (now : Q) (self : SensorUnit.t) : SensorUnit.t :=
  match SensorUnit._next_eeprom_write self with
  | Some next =>
      if truthy (Some next) && Qle_bool next now then
        let self :=
          if SensorUnit.internal_error self =? ILError.EEPROM
          then SensorUnit.with_eeprom_write_result OperationResult.ABNORMAL_TERMINATION self
          else SensorUnit.with_eeprom_write_result OperationResult.NORMAL_TERMINATION self in
        SensorUnit.with_next_eeprom_write None self
      else self
  | None => self
  end.

(** [perform_eeprom_writes]: the passes of the loop at the successive
    readings [clock] of [time.time()], as long as the thread is kept
    alive. *)
Definition perform_eeprom_writes (clock : list Q) (self : SensorUnit.t) : SensorUnit.t :=
  foldl (fun self now => pass now self) self clock.

End EepromThread.

(** ** Attaching amplifiers to the communication unit *)

Module Wiring.

(** The amplifiers are objects: the list [connected_sensors] holds
    references, and the same amplifier may be listed more than once.  Of an
    amplifier the attributes that [assign_main_unit] touches are kept. *)
Definition ref : Type := nat.

Record Amplifier : Type := mkAmplifier {
  is_main_unit : bool;
  connected_amplifier : option ref
}.

Definition Heap : Type := gmap ref Amplifier.

Definition set_is_main_unit (v : bool) (unit : ref) (heap : Heap) : Heap :=
  alter (fun a => mkAmplifier v (connected_amplifier a)) unit heap.

Definition set_connected_amplifier (v : ref) (unit : ref) (heap : Heap) : Heap :=
  alter (fun a => mkAmplifier (is_main_unit a) (Some v)) unit heap.

(** [assign_main_unit]; the [IndexError] of a missing first or second
    amplifier ends the method where it is raised. *)
Definition assign_main_unit (connected_sensors : list ref) (heap : Heap) : Heap :=
  match connected_sensors !! 0%nat with
  | None => heap
  | Some main_unit =>
      let heap := set_is_main_unit true main_unit heap in
      match connected_sensors !! 1%nat with
      | None => heap
      | Some sub_unit =>
          let heap := set_connected_amplifier sub_unit main_unit heap in
          let heap := set_connected_amplifier main_unit sub_unit heap in
          foldl (fun heap su => set_is_main_unit false su heap) heap
            (drop 1 connected_sensors)
      end
  end.

(** [add_unit(unit)] *)
Definition add_unit (unit : ref) (connected_sensors : list ref) (heap : Heap)
    : list ref * Heap :=
  let connected_sensors := connected_sensors ++ [unit] in
  (connected_sensors, assign_main_unit connected_sensors heap).

(** [add_multiple_units(units)] *)
Definition add_multiple_units (units : list ref) (connected_sensors : list ref) (heap : Heap)
    : list ref * Heap :=
  let connected_sensors := connected_sensors ++ units in
  (connected_sensors, assign_main_unit connected_sensors heap).

End Wiring.

(** ** The codec on IEEE doubles *)

(** [mm_to_int] and [int_to_mm] once more, on the binary64 numbers the
    interpreter computes with (the primitive floats of the prover), for
    evaluation at given points: to compare them with the rationals of the
    embedding, and for the float that is no number. *)
Module Binary64.

(** [float(n)] for an integer below [2 ** 63] in absolute value. *)
Definition of_int (n : Z) : float :=
  if n <? 0 then PrimFloat.opp (PrimFloat.of_uint63 (Uint63.of_Z (- n)))
  else PrimFloat.of_uint63 (Uint63.of_Z n).

(** [int(x)]: truncation toward zero; [None] stands for the
    [OverflowError] and [ValueError] of an infinity and of a NaN. *)
Definition trunc (x : float) : option Z :=
  match Prim2SF x with
  | S754_zero _ => Some 0
  | S754_finite sign m e =>
      let magnitude := if 0 <=? e then Z.pos m * 2 ^ e else Z.pos m / 2 ^ (- e) in
      Some (if sign then - magnitude else magnitude)
  | S754_infinity _ => None
  | S754_nan => None
  end.

Definition int_to_mm (decimal_position : nat) (value : Z) : float :=
  PrimFloat.div (of_int value) (of_int (10 ^ Z.of_nat decimal_position)).

(** [mm_to_int] of an amplifier with the given bounds and decimal
    position. *)
Definition mm_to_int
    (lower_bound upper_bound : float) (decimal_position : nat) (value : option float)
    : option Z :=
  match value with
  | None => Some (-99998)
  | Some value =>
      if PrimFloat.ltb upper_bound value then Some 99999
      else if PrimFloat.ltb value lower_bound then Some (-99999)
      else trunc (PrimFloat.mul value (of_int (10 ^ Z.of_nat decimal_position)))
  end.

(** The codec of an amplifier as [__init__] sets its bounds. *)
Definition codec_mm_to_int (decimal_position : nat) (value : option float) : option Z :=
  mm_to_int (int_to_mm decimal_position (-99999)) (int_to_mm decimal_position 99999)
    decimal_position value.

(** The rational that a finite binary64 number denotes, in lowest terms. *)
Definition to_Q (x : float) : option Q :=
  match Prim2SF x with
  | S754_zero _ => Some 0%Q
  | S754_finite sign m e =>
      let a := (inject_Z (Z.pos m) * 2 ^ e)%Q in
      Some (Qred (if sign then - a else a))
  | S754_infinity _ => None
  | S754_nan => None
  end.

(** The two embeddings of the codec give the same results on the integer
    [n] at the decimal position [d]: [int_to_mm(n)] is the same number,
    and so is [mm_to_int(int_to_mm(n))]. *)
Definition agrees (d : nat) (n : Z) : bool :=
  let scale := 10 ^ Z.of_nat d in
  match to_Q (int_to_mm d n) with
  | Some x =>
      Qeq_bool x (Py.true_div n scale)
      && match codec_mm_to_int d (Some (int_to_mm d n)) with
         | Some k => k =? Py.trunc (Py.fmul (Py.true_div n scale) (Py.float_of_int scale))
         | None => false
         end
  | None => false
  end.

(** [range(lo, lo + len)] *)
Definition range (lo : Z) (len : nat) : list Z := (fun i => lo + Z.of_nat i) <$> seq 0 len.

End Binary64.

(** ** The specification's words *)

Module Spec.

(** Exactly [n] decimal digits. *)
Definition digits_n (n : nat) (s : string) : Prop :=
  String.length s = n /\ Py.all_chars Py.is_digit s = true.

(** [<sv10>]: a sign character followed by exactly nine decimal digits. *)
Definition sv10 (s : string) : Prop :=
  exists c ds, s = String c ds /\ (c = "+"%char \/ c = "-"%char) /\ digits_n 9 ds.

(** The command grammar: [Command cmd line] when [line] is a request of
    the command [cmd]. *)
Inductive Command : string -> string -> Prop :=
| Command_M0 : Command "M0" ("M0" +:+ Py.CRLF)
| Command_MS : Command "MS" ("MS" +:+ Py.CRLF)
| Command_SR id2 q3 :
    digits_n 2 id2 -> digits_n 3 q3 ->
    Command "SR" ("SR," +:+ id2 +:+ "," +:+ q3 +:+ Py.CRLF)
| Command_SW id2 q3 sv :
    digits_n 2 id2 -> digits_n 3 q3 -> sv10 sv ->
    Command "SW" ("SW," +:+ id2 +:+ "," +:+ q3 +:+ "," +:+ sv +:+ Py.CRLF)
| Command_FR id2 q3 :
    digits_n 2 id2 -> digits_n 3 q3 ->
    Command "FR" ("FR," +:+ id2 +:+ "," +:+ q3 +:+ Py.CRLF).

(** A line of the grammar. *)
Definition Grammar (line : string) : Prop := exists cmd, Command cmd line.

(** The integer nearest to [x], ties to the even one. *)
Definition round_half_even (x : Q) : Z :=
  let f := Qfloor x in
  let r := (x - inject_Z f)%Q in
  if Py.lt r (1 # 2) then f
  else if Py.gt r (1 # 2) then f + 1
  else if Z.even f then f else f + 1.

(** [round(v, d)]: [v] rounded to [d] decimal places, that is the float
    nearest to the decimal number of [d] places nearest to [v]. *)
Definition round (v : Q) (d : nat) : Q :=
  let scale := 10 ^ Z.of_nat d in
  Py.true_div (round_half_even (v * inject_Z scale)) scale.

(** The reply [ER,<cc>,<code>] followed by CR LF. *)
Definition ER (cc code : string) : string :=
  "ER," +:+ cc +:+ "," +:+ code +:+ Py.CRLF.

(** The amplifier keeps the bounds its constructor derives from the
    decimal position. *)
Definition bounds_derived (s : SensorUnit.t) : Prop :=
  (SensorUnit.lower_bound s == SensorUnit.int_to_mm s (-99999))%Q
  /\ (SensorUnit.upper_bound s == SensorUnit.int_to_mm s 99999)%Q.

(** A call that ends with the communication error of the given code. *)
Definition ends_with_error {A : Type} (o : SensorUnit.Outcome A) (code : Z) : Prop :=
  exists e, o = SensorUnit.raise e /\ Errors.value (Errors.error_code e) = code.



(** The scheduler is left alone. *)
Definition not_armed (before after : SensorUnit.t) : Prop :=
  SensorUnit.eeprom_write_result after = SensorUnit.eeprom_write_result before
  /\ SensorUnit._next_eeprom_write after = SensorUnit._next_eeprom_write before.





End Spec.

(** * Proofs *)

(** * Facts about the Python primitives *)

Lemma append_nil_l (s : string) : EmptyString +:+ s = s.
Proof. reflexivity. Qed.

Lemma append_cons c (a b : string) : String c a +:+ b = String c (a +:+ b).
Proof. reflexivity. Qed.

Lemma append_nil_r (s : string) : s +:+ EmptyString = s.
Proof. induction s as [|c s IH]; [reflexivity | now rewrite append_cons, IH]. Qed.

Lemma length_append (a b : string) :
  String.length (a +:+ b) = (String.length a + String.length b)%nat.
Proof.
  induction a as [|c a IH]; [reflexivity |].
  rewrite append_cons. simpl. now rewrite IH.
Qed.

Lemma append_assoc (a b c : string) : (a +:+ b) +:+ c = a +:+ (b +:+ c).
Proof.
  induction a as [|x a IH]; [reflexivity |].
  now rewrite !append_cons, IH.
Qed.

Lemma all_chars_append p (a b : string) :
  Py.all_chars p (a +:+ b) = Py.all_chars p a && Py.all_chars p b.
Proof.
  induction a as [|c a IH]; [reflexivity |].
  rewrite append_cons. simpl. rewrite IH. now rewrite andb_assoc.
Qed.

Lemma is_digit_digit_char d : 0 <= d < 10 -> Py.is_digit (Py.digit_char d) = true.
Proof.
  intros H. assert (Hd : d = 0 \/ d = 1 \/ d = 2 \/ d = 3 \/ d = 4 \/ d = 5
                          \/ d = 6 \/ d = 7 \/ d = 8 \/ d = 9) by lia.
  repeat (destruct Hd as [-> | Hd]; [reflexivity |]). now subst.
Qed.

Lemma digit_value_digit_char d : 0 <= d < 10 -> Py.digit_value (Py.digit_char d) = d.
Proof.
  intros H. assert (Hd : d = 0 \/ d = 1 \/ d = 2 \/ d = 3 \/ d = 4 \/ d = 5
                          \/ d = 6 \/ d = 7 \/ d = 8 \/ d = 9) by lia.
  repeat (destruct Hd as [-> | Hd]; [reflexivity |]). now subst.
Qed.

Lemma is_digit_ascii c : Py.is_digit c = true -> Py.is_ascii c = true.
Proof.
  unfold Py.is_digit, Py.is_ascii. intros H.
  apply andb_true_iff in H as [_ H]. apply Nat.leb_le in H.
  apply Nat.ltb_lt. lia.
Qed.

(** An ASCII byte is a character of the text. *)
Lemma next_char_ascii c (r : string) :
  Py.is_ascii c = true ->
  Py.next_char (String c r) = Some (Py.byte c, String c EmptyString, r).
Proof.
  unfold Py.is_ascii, Py.next_char, Py.byte. intros H. apply Nat.ltb_lt in H.
  destruct (Z.ltb_spec (Z.of_nat (nat_of_ascii c)) 128); [reflexivity | lia].
Qed.

(** Among the ASCII characters the decimal digits are [0] to [9], with
    their values. *)
Lemma decimal_ascii c :
  Py.is_ascii c = true ->
  Py.decimal (Py.byte c) = if Py.is_digit c then Some (Py.digit_value c) else None.
Proof.
  destruct c as [[] [] [] [] [] [] [] []]; intros H; try discriminate H; reflexivity.
Qed.

(** ASCII bytes decode, to themselves. *)
Lemma decodes_ascii (s : string) : forall fuel,
  (String.length s <= fuel)%nat -> Py.all_chars Py.is_ascii s = true ->
  Py.decodes fuel s = true.
Proof.
  induction s as [|c s IH]; intros fuel Hf Ha; [now destruct fuel |].
  cbn [Py.all_chars] in Ha. apply andb_true_iff in Ha as [Hc Ha].
  destruct fuel as [|fuel]; [simpl in Hf; lia |].
  cbn [Py.decodes]. rewrite next_char_ascii by exact Hc.
  apply IH; [simpl in Hf; lia | exact Ha].
Qed.

Lemma decode_ascii (s : string) :
  Py.all_chars Py.is_ascii s = true -> Py.decode s = Some s.
Proof. intros H. unfold Py.decode. now rewrite decodes_ascii. Qed.

Lemma all_digits_ascii (s : string) :
  Py.all_chars Py.is_digit s = true -> Py.all_chars Py.is_ascii s = true.
Proof.
  induction s as [|c s IH]; [reflexivity |]. cbn [Py.all_chars]. intros H.
  apply andb_true_iff in H as [Hc H]. now rewrite (is_digit_ascii c Hc), IH.
Qed.

(** [int] reads a text of the digits [0] to [9] as the decimal number. *)
Lemma decimal_value_digits (ds : string) : forall fuel acc,
  (String.length ds <= fuel)%nat -> Py.all_chars Py.is_digit ds = true ->
  Py.decimal_value fuel ds acc = Some (Py.digits_value ds acc).
Proof.
  induction ds as [|c ds IH]; intros fuel acc Hf Ha; [now destruct fuel |].
  cbn [Py.all_chars] in Ha. apply andb_true_iff in Ha as [Hc Ha].
  destruct fuel as [|fuel]; [simpl in Hf; lia |].
  cbn [Py.decimal_value Py.digits_value].
  rewrite next_char_ascii by now apply is_digit_ascii.
  rewrite decimal_ascii by now apply is_digit_ascii. rewrite Hc.
  apply IH; [simpl in Hf; lia | exact Ha].
Qed.

Lemma int_unsigned (ds : string) :
  (1 <= String.length ds)%nat -> Py.all_chars Py.is_digit ds = true ->
  match ds with
  | EmptyString => None
  | _ => Py.decimal_value (String.length ds) ds 0
  end = Some (Py.digits_value ds 0).
Proof.
  intros Hl Ha. destruct ds as [|c ds]; [simpl in Hl; lia |].
  now apply decimal_value_digits.
Qed.

Lemma digits_value_append (a b : string) acc :
  Py.digits_value (a +:+ b) acc = Py.digits_value b (Py.digits_value a acc).
Proof.
  revert acc. induction a as [|c a IH]; intros acc; [reflexivity |].
  rewrite append_cons. simpl. apply IH.
Qed.

Lemma digits_value_acc (s : string) acc :
  Py.digits_value s acc
  = acc * 10 ^ Z.of_nat (String.length s) + Py.digits_value s 0.
Proof.
  revert acc. induction s as [|c s IH]; intros acc.
  - simpl. lia.
  - cbn [Py.digits_value String.length]. rewrite IH, (IH (10 * 0 + _)).
    rewrite Nat2Z.inj_succ, Z.pow_succ_r by lia. lia.
Qed.

(** What [digits_go] appends in front of its accumulator. *)
Lemma digits_go_spec fuel : forall n acc,
  0 <= n < 10 ^ (Z.of_nat fuel + 1) ->
  exists ds,
    Py.digits_go fuel n acc = ds +:+ acc
    /\ Py.all_chars Py.is_digit ds = true
    /\ Py.digits_value ds 0 = n
    /\ (1 <= String.length ds)%nat
    /\ (forall k, (1 <= k)%nat -> n < 10 ^ Z.of_nat k -> (String.length ds <= k)%nat).
Proof.
  induction fuel as [|fuel IH]; intros n acc Hn.
  - exists (String (Py.digit_char n) EmptyString).
    change (10 ^ (Z.of_nat 0 + 1)) with 10 in Hn.
    assert (n mod 10 = n) as E by (apply Z.mod_small; lia).
    cbn [Py.digits_go]. rewrite E.
    repeat split.
    + cbn [Py.all_chars]. rewrite is_digit_digit_char by lia. reflexivity.
    + cbn [Py.digits_value]. rewrite digit_value_digit_char by lia. lia.
    + cbn [String.length]. lia.
    + intros k Hk _. cbn [String.length]. lia.
  - cbn [Py.digits_go]. destruct (n <? 10) eqn:Hlt.
    + apply Z.ltb_lt in Hlt.
      exists (String (Py.digit_char n) EmptyString).
      assert (n mod 10 = n) as E by (apply Z.mod_small; lia).
      rewrite E. repeat split.
      * cbn [Py.all_chars]. rewrite is_digit_digit_char by lia. reflexivity.
      * cbn [Py.digits_value]. rewrite digit_value_digit_char by lia. lia.
      * cbn [String.length]. lia.
      * intros k Hk _. cbn [String.length]. lia.
    + apply Z.ltb_ge in Hlt.
      assert (Hm : 0 <= n mod 10 < 10) by (apply Z.mod_pos_bound; lia).
      assert (Hq : 0 <= n / 10 < 10 ^ (Z.of_nat fuel + 1)).
      { split; [apply Z.div_pos; lia |].
        apply Z.div_lt_upper_bound; [lia |].
        rewrite <- Z.pow_succ_r by lia.
        replace (Z.succ (Z.of_nat fuel + 1)) with (Z.of_nat (S fuel) + 1) by lia.
        apply Hn. }
      destruct (IH (n / 10) (String (Py.digit_char (n mod 10)) acc) Hq)
        as (ds & Hgo & Hall & Hval & Hlen & Hk).
      exists (ds +:+ String (Py.digit_char (n mod 10)) EmptyString).
      repeat split.
      * rewrite Hgo, append_assoc. reflexivity.
      * rewrite all_chars_append, Hall. cbn [Py.all_chars].
        rewrite is_digit_digit_char by lia. reflexivity.
      * rewrite digits_value_append, Hval. cbn [Py.digits_value].
        rewrite digit_value_digit_char by lia.
        pose proof (Z.div_mod n 10). lia.
      * rewrite length_append. cbn [String.length]. lia.
      * intros k Hk1 Hnk. rewrite length_append. cbn [String.length].
        destruct k as [|k]; [lia |]. destruct k as [|k].
        { change (10 ^ Z.of_nat 1) with 10 in Hnk. lia. }
        assert (String.length ds <= S k)%nat; [| lia].
        apply Hk; [lia |].
        apply Z.div_lt_upper_bound; [lia |].
        rewrite <- Z.pow_succ_r by lia.
        replace (Z.succ (Z.of_nat (S k))) with (Z.of_nat (S (S k))) by lia.
        exact Hnk.
Qed.

Lemma lt_pow10_log2 n : 0 <= n -> n < 10 ^ (Z.of_nat (Z.to_nat (Z.log2 n)) + 1).
Proof.
  intros Hn. rewrite Z2Nat.id by apply Z.log2_nonneg.
  destruct (Z.eq_dec n 0) as [-> | Hne]; [reflexivity |].
  assert (n < 2 ^ (Z.log2 n + 1)).
  { pose proof (Z.log2_spec n ltac:(lia)) as [_ H]. now rewrite Z.add_1_r. }
  assert (2 ^ (Z.log2 n + 1) <= 10 ^ (Z.log2 n + 1)).
  { apply Z.pow_le_mono_l. lia. }
  lia.
Qed.

(** The decimal digits of a non-negative integer. *)
Lemma digits_spec n :
  0 <= n ->
  Py.all_chars Py.is_digit (Py.digits n) = true
  /\ Py.digits_value (Py.digits n) 0 = n
  /\ (1 <= String.length (Py.digits n))%nat
  /\ (forall k, (1 <= k)%nat -> n < 10 ^ Z.of_nat k -> (String.length (Py.digits n) <= k)%nat).
Proof.
  intros Hn. unfold Py.digits.
  destruct (digits_go_spec (Z.to_nat (Z.log2 n)) n EmptyString) as (ds & Hgo & H).
  { split; [exact Hn | apply lt_pow10_log2; exact Hn]. }
  rewrite Hgo, append_nil_r. exact H.
Qed.

Lemma repeat_char_length c k : String.length (Py.repeat_char c k) = k.
Proof. induction k as [|k IH]; simpl; [reflexivity | now rewrite IH]. Qed.

Lemma repeat_zero_digits k : Py.all_chars Py.is_digit (Py.repeat_char "0" k) = true.
Proof. induction k as [|k IH]; [reflexivity |]. cbn [Py.repeat_char Py.all_chars]. now rewrite IH. Qed.

Lemma repeat_zero_value k acc :
  Py.digits_value (Py.repeat_char "0" k) acc = acc * 10 ^ Z.of_nat k.
Proof.
  revert acc. induction k as [|k IH]; intros acc.
  - simpl. lia.
  - cbn [Py.repeat_char Py.digits_value]. rewrite IH.
    change (Py.digit_value "0") with 0.
    rewrite Nat2Z.inj_succ, Z.pow_succ_r by lia. lia.
Qed.

Lemma fill0_right_length w (s : string) :
  (String.length s <= w)%nat -> String.length (Py.fill0_right w s) = w.
Proof.
  intros H. unfold Py.fill0_right. rewrite length_append, repeat_char_length. lia.
Qed.

Lemma fill0_right_long w (s : string) :
  (w <= String.length s)%nat -> Py.fill0_right w s = s.
Proof.
  intros H. unfold Py.fill0_right.
  replace (w - String.length s)%nat with 0%nat by lia. reflexivity.
Qed.

Lemma fill0_right_digits w (s : string) :
  Py.all_chars Py.is_digit s = true ->
  Py.all_chars Py.is_digit (Py.fill0_right w s) = true.
Proof.
  intros H. unfold Py.fill0_right. now rewrite all_chars_append, repeat_zero_digits, H.
Qed.

Lemma fill0_right_value w (s : string) :
  Py.digits_value (Py.fill0_right w s) 0 = Py.digits_value s 0.
Proof.
  unfold Py.fill0_right. now rewrite digits_value_append, repeat_zero_value.
Qed.

(** [f"{n:0>w}"] of a number of at most [w] digits has exactly [w]
    characters, all of them digits, and reads back as [n]. *)
Lemma fmt_0r_spec (w : nat) n :
  (1 <= w)%nat -> 0 <= n < 10 ^ Z.of_nat w ->
  String.length (Py.fmt_0r w n) = w
  /\ Py.all_chars Py.is_digit (Py.fmt_0r w n) = true
  /\ Py.digits_value (Py.fmt_0r w n) 0 = n.
Proof.
  intros Hw [Hn0 Hn]. unfold Py.fmt_0r, Py.str.
  destruct (n <? 0) eqn:E; [apply Z.ltb_lt in E; lia |].
  destruct (digits_spec n Hn0) as (Hall & Hval & _ & Hlen).
  repeat split.
  - apply fill0_right_length. now apply Hlen.
  - now apply fill0_right_digits.
  - now rewrite fill0_right_value.
Qed.

(** The sign-and-digits field [f"{n:+010d}"]: its sign, its digits, and
    its value. *)
Lemma fmt_p010d_spec n :
  exists ds,
    Py.fmt_p010d n = String (if n <? 0 then "-"%char else "+"%char) ds
    /\ Py.all_chars Py.is_digit ds = true
    /\ Py.digits_value ds 0 = Z.abs n
    /\ (9 <= String.length ds)%nat
    /\ (Z.abs n < 10 ^ 9 -> String.length ds = 9%nat).
Proof.
  destruct (digits_spec (Z.abs n) (Z.abs_nonneg n)) as (Hall & Hval & Hlen1 & Hlen).
  exists (Py.fill0_right 9 (Py.digits (Z.abs n))). repeat split.
  - now apply fill0_right_digits.
  - now rewrite fill0_right_value.
  - unfold Py.fill0_right. rewrite length_append, repeat_char_length. lia.
  - intros Hn. apply fill0_right_length. apply Hlen; [lia | exact Hn].
Qed.

Lemma fmt_p010d_length n :
  Z.abs n < 10 ^ 9 -> String.length (Py.fmt_p010d n) = 10%nat.
Proof.
  intros Hn. destruct (fmt_p010d_spec n) as (ds & -> & _ & _ & _ & Hlen).
  simpl. now rewrite Hlen.
Qed.

(** Parsing the field gives the number back. *)
Lemma int_fmt_p010d n : Py.int (Py.fmt_p010d n) = Some n.
Proof.
  destruct (fmt_p010d_spec n) as (ds & -> & Hall & Hval & Hlen & _).
  destruct ds as [|c ds]; [simpl in Hlen; lia |].
  destruct (n <? 0) eqn:E.
  - apply Z.ltb_lt in E. cbn [Py.int].
    rewrite decimal_value_digits, Hval by (exact Hall || lia). simpl. f_equal. lia.
  - apply Z.ltb_ge in E. cbn [Py.int].
    rewrite decimal_value_digits, Hval by (exact Hall || lia). f_equal. lia.
Qed.

(** * The command grammar *)

Import CommunicationUnit.

Lemma literal_Some lit (s r : string) :
  literal lit s = Some r <-> s = lit +:+ r.
Proof.
  revert s. induction lit as [|a lit IH]; intros s.
  - cbn [literal]. rewrite append_nil_l. split; congruence.
  - destruct s as [|b s]; cbn [literal].
    + rewrite append_cons. split; discriminate.
    + rewrite append_cons. destruct (Ascii.eqb_spec a b) as [-> | Hne].
      * rewrite IH. split; [now intros -> | now intros [= ->]].
      * split; [discriminate | intros [= ? _]; congruence].
Qed.


(** [\d{n}] matches [n] of the digits [0] to [9]. *)
Lemma digits_intro n (d r : string) :
  Spec.digits_n n d -> digits n (d +:+ r) = Some (d, r).
Proof.
  unfold Spec.digits_n. revert d. induction n as [|n IH]; intros d [Hlen Hall].
  - destruct d; [reflexivity | discriminate].
  - destruct d as [|c d]; [discriminate |].
    cbn [String.length Py.all_chars] in Hlen, Hall. apply andb_true_iff in Hall as [Hc Hall].
    rewrite append_cons. cbn [digits].
    rewrite next_char_ascii by now apply is_digit_ascii.
    rewrite decimal_ascii by now apply is_digit_ascii. rewrite Hc.
    rewrite IH by (split; [lia | exact Hall]). reflexivity.
Qed.


Lemma signed_digits_intro (d r : string) :
  Spec.sv10 d -> signed_digits (d +:+ r) = Some (d, r).
Proof.
  intros (c & ds & -> & Hc & Hds). rewrite append_cons. cbn [signed_digits].
  assert (Ascii.eqb c "+" || Ascii.eqb c "-" = true) as ->
    by (destruct Hc as [-> | ->]; reflexivity).
  now rewrite digits_intro.
Qed.


Lemma at_end_Some (s : string) m m' : at_end s m = Some m' <-> s = Py.CRLF /\ m' = m.
Proof.
  unfold at_end. destruct (String.eqb_spec s Py.CRLF) as [-> | Hne].
  - split; [now intros [= <-] | now intros [_ ->]].
  - split; [discriminate | tauto].
Qed.



(** Two decompositions of one text into digits and a rest agree. *)
Lemma digits_unique n (d d' r r' : string) :
  Spec.digits_n n d -> Spec.digits_n n d' -> d +:+ r = d' +:+ r' -> d = d' /\ r = r'.
Proof.
  intros H H' E.
  assert (digits n (d +:+ r) = Some (d, r)) as H1 by now apply digits_intro.
  assert (digits n (d +:+ r) = Some (d', r')) as H2 by (rewrite E; now apply digits_intro).
  rewrite H1 in H2. now injection H2.
Qed.

Lemma sv10_unique (d d' r r' : string) :
  Spec.sv10 d -> Spec.sv10 d' -> d +:+ r = d' +:+ r' -> d = d' /\ r = r'.
Proof.
  intros H H' E.
  assert (signed_digits (d +:+ r) = Some (d, r)) as H1 by now apply signed_digits_intro.
  assert (signed_digits (d +:+ r) = Some (d', r')) as H2
    by (rewrite E; now apply signed_digits_intro).
  rewrite H1 in H2. now injection H2.
Qed.


Lemma two_fields_intro (cmd id2 q3 : string) (mk : string -> string -> Match) :
  Spec.digits_n 2 id2 -> Spec.digits_n 3 q3 ->
  (rest ← literal cmd (cmd +:+ id2 +:+ "," +:+ q3 +:+ Py.CRLF);
   '(g1, rest) ← digits 2 rest;
   rest ← literal "," rest;
   '(g2, rest) ← digits 3 rest;
   at_end rest (mk g1 g2)) = Some (mk id2 q3).
Proof.
  intros H2 H3.
  assert (literal cmd (cmd +:+ id2 +:+ "," +:+ q3 +:+ Py.CRLF)
          = Some (id2 +:+ "," +:+ q3 +:+ Py.CRLF)) as -> by now apply literal_Some.
  cbn [mbind option_bind]. rewrite digits_intro by exact H2.
  cbn [mbind option_bind].
  assert (literal "," ("," +:+ q3 +:+ Py.CRLF) = Some (q3 +:+ Py.CRLF)) as ->
    by now apply literal_Some.
  cbn [mbind option_bind]. rewrite digits_intro by exact H3.
  cbn [mbind option_bind]. now apply at_end_Some.
Qed.


Lemma alt_SW_intro (id2 q3 sv : string) :
  Spec.digits_n 2 id2 -> Spec.digits_n 3 q3 -> Spec.sv10 sv ->
  alt_SW ("SW," +:+ id2 +:+ "," +:+ q3 +:+ "," +:+ sv +:+ Py.CRLF)
  = Some (mkMatch None None (Some id2) (Some q3) (Some sv) None None).
Proof.
  intros H2 H3 H4. unfold alt_SW.
  assert (literal "SW," ("SW," +:+ id2 +:+ "," +:+ q3 +:+ "," +:+ sv +:+ Py.CRLF)
          = Some (id2 +:+ "," +:+ q3 +:+ "," +:+ sv +:+ Py.CRLF)) as ->
    by now apply literal_Some.
  cbn [mbind option_bind]. rewrite digits_intro by exact H2.
  cbn [mbind option_bind].
  assert (literal "," ("," +:+ q3 +:+ "," +:+ sv +:+ Py.CRLF)
          = Some (q3 +:+ "," +:+ sv +:+ Py.CRLF)) as -> by now apply literal_Some.
  cbn [mbind option_bind]. rewrite digits_intro by exact H3.
  cbn [mbind option_bind].
  assert (literal "," ("," +:+ sv +:+ Py.CRLF) = Some (sv +:+ Py.CRLF)) as ->
    by now apply literal_Some.
  cbn [mbind option_bind]. rewrite signed_digits_intro by exact H4.
  cbn [mbind option_bind]. now apply at_end_Some.
Qed.


(** The lines of the grammar are ASCII. *)
Lemma Command_ascii cmd s : Spec.Command cmd s -> Py.all_chars Py.is_ascii s = true.
Proof.
  assert (forall n d, Spec.digits_n n d -> Py.all_chars Py.is_ascii d = true) as Hd
    by (intros n d [_ H]; now apply all_digits_ascii).
  assert (forall sv, Spec.sv10 sv -> Py.all_chars Py.is_ascii sv = true) as Hsv.
  { intros sv (c & ds & -> & Hc & H). cbn [Py.all_chars]. rewrite (Hd _ _ H).
    destruct Hc as [-> | ->]; reflexivity. }
  intros H. destruct H as [| | id2 q3 H2 H3 | id2 q3 sv H2 H3 H4 | id2 q3 H2 H3];
    rewrite ?all_chars_append, ?(Hd _ _ H2), ?(Hd _ _ H3), ?(Hsv _ H4); reflexivity.
Qed.

(** A line of the grammar decodes and is accepted by the matcher; its
    command is its first two characters, and the groups of the match are
    its fields. *)
Lemma Command_fullmatch cmd s :
  Spec.Command cmd s ->
  Py.decode s = Some s /\
  Py.prefix 2 s = cmd /\
  exists m, fullmatch s = Some m /\
    match m with
    | mkMatch g1 g2 g3 g4 g5 g6 g7 =>
        (cmd = "SR"%string ->
           exists id2 q3, g1 = Some id2 /\ g2 = Some q3
             /\ Spec.digits_n 2 id2 /\ Spec.digits_n 3 q3
             /\ s = "SR," +:+ id2 +:+ "," +:+ q3 +:+ Py.CRLF)
        /\ (cmd = "SW"%string ->
           exists id2 q3 sv, g3 = Some id2 /\ g4 = Some q3 /\ g5 = Some sv
             /\ Spec.digits_n 2 id2 /\ Spec.digits_n 3 q3 /\ Spec.sv10 sv
             /\ s = "SW," +:+ id2 +:+ "," +:+ q3 +:+ "," +:+ sv +:+ Py.CRLF)
        /\ (cmd = "FR"%string ->
           exists id2 q3, g6 = Some id2 /\ g7 = Some q3
             /\ Spec.digits_n 2 id2 /\ Spec.digits_n 3 q3
             /\ s = "FR," +:+ id2 +:+ "," +:+ q3 +:+ Py.CRLF)
    end.
Proof.
  intros H. split; [apply decode_ascii; eapply Command_ascii, H |].
  split; [destruct H; reflexivity |].
  unfold fullmatch, orelse. destruct H as [| | id2 q3 H2 H3 | id2 q3 sv H2 H3 H4 | id2 q3 H2 H3].
  - exists no_groups. split; [reflexivity |]. repeat split; discriminate.
  - exists no_groups. split; [reflexivity |]. repeat split; discriminate.
  - change (alt_M0 ("SR," +:+ id2 +:+ "," +:+ q3 +:+ Py.CRLF)) with (@None Match).
    change (alt_MS ("SR," +:+ id2 +:+ "," +:+ q3 +:+ Py.CRLF)) with (@None Match).
    eexists. split.
    + unfold alt_SR. rewrite (two_fields_intro "SR," id2 q3) by assumption. reflexivity.
    + repeat split; try discriminate. intros _. eauto 10.
  - change (alt_M0 ("SW," +:+ id2 +:+ "," +:+ q3 +:+ "," +:+ sv +:+ Py.CRLF)) with (@None Match).
    change (alt_MS ("SW," +:+ id2 +:+ "," +:+ q3 +:+ "," +:+ sv +:+ Py.CRLF)) with (@None Match).
    change (alt_SR ("SW," +:+ id2 +:+ "," +:+ q3 +:+ "," +:+ sv +:+ Py.CRLF)) with (@None Match).
    eexists. split.
    + rewrite alt_SW_intro by assumption. reflexivity.
    + repeat split; try discriminate. intros _. eauto 12.
  - change (alt_M0 ("FR," +:+ id2 +:+ "," +:+ q3 +:+ Py.CRLF)) with (@None Match).
    change (alt_MS ("FR," +:+ id2 +:+ "," +:+ q3 +:+ Py.CRLF)) with (@None Match).
    change (alt_SR ("FR," +:+ id2 +:+ "," +:+ q3 +:+ Py.CRLF)) with (@None Match).
    change (alt_SW ("FR," +:+ id2 +:+ "," +:+ q3 +:+ Py.CRLF)) with (@None Match).
    eexists. split.
    + unfold alt_FR. apply (two_fields_intro "FR," id2 q3); assumption.
    + repeat split; try discriminate. intros _. eauto 10.
Qed.



Lemma DLEN1Error_eqb_eq x y : DLEN1Error.eqb x y = true <-> x = y.
Proof.
  unfold DLEN1Error.eqb. rewrite Z.eqb_eq. split; [| now intros ->].
  destruct x, y; simpl; intros H; try reflexivity; discriminate.
Qed.

(** * The protocol engine *)



(** C1, the claim as written fails outside ASCII.  A line whose digits are
    the Arabic-Indic digits U+0660 to U+0669 (two bytes each, [0xD9 0xA0]
    to [0xD9 0xA9]) is not of the grammar, and the engine reads register
    037 of amplifier 01 for it, since [\d] and [int()] take every decimal
    digit of Unicode.  A line with the byte [0xFF] is not of the grammar
    either, and [handle_query] gives no reply for it: the decoding raises
    [UnicodeDecodeError]. *)
Lemma C1_counterexample :
  let self := CommunicationUnit.mk [Factory.create_IL_030 0] DLEN1Error.NO_ERROR false in
  let digit (d : nat) := String "217" (String (ascii_of_nat (160 + d)) EmptyString) in
  let line := "SR," +:+ digit 0%nat +:+ digit 1%nat +:+ ","
                +:+ digit 0%nat +:+ digit 3%nat +:+ digit 7%nat +:+ Py.CRLF in
  let bytes := String "255" Py.CRLF in
  ~ Spec.Grammar line
  /\ handle_query self line 0
     = (SensorUnit.Return ("SR,01,037,+000000000" +:+ Py.CRLF), self)
  /\ handle_query self ("SR,01,037" +:+ Py.CRLF) 0
     = (SensorUnit.Return ("SR,01,037,+000000000" +:+ Py.CRLF), self)
  /\ ~ Spec.Grammar bytes
  /\ handle_query self bytes 0 = (SensorUnit.Raise Errors.UnicodeDecodeError, self).
Proof.
  intros self digit line bytes.
  assert (forall s, Spec.Grammar s -> Py.all_chars Py.is_ascii s = true) as Hascii
    by (intros s [cmd H]; eapply Command_ascii, H).
  split; [intros G; apply Hascii in G; discriminate G |].
  split; [vm_compute; reflexivity |].
  split; [vm_compute; reflexivity |].
  split; [intros G; apply Hascii in G; discriminate G |].
  vm_compute. reflexivity.
Qed.

(** C4: a request of the grammar for SR or SW, received while the
    communication unit's [internal_error] is not [NO_ERROR], is answered by
    [ER,<cmd>,254] and CR LF, and nothing is read or written: the
    communication unit and its amplifiers are left as they were. *)
Theorem C4_bus_error_preempts_register_access
    (self : CommunicationUnit.t) (cmd line : string) (now : Q) :
  Spec.Command cmd line ->
  cmd = "SR"%string \/ cmd = "SW"%string ->
  internal_error self <> DLEN1Error.NO_ERROR ->
  handle_query self line now = (SensorUnit.Return (Spec.ER cmd "254"), self).
Proof.
  intros Hc _ He. apply Command_fullmatch in Hc as (Hd & Hp & m & Hm & _).
  unfold handle_query. rewrite Hd, Hm, Hp.
  destruct (DLEN1Error.eqb (internal_error self) DLEN1Error.NO_ERROR) eqn:E.
  - apply DLEN1Error_eqb_eq in E. contradiction.
  - reflexivity.
Qed.

Lemma C4_witness :
  let self := CommunicationUnit.mk [Factory.create_IL_030 0] DLEN1Error.ERROR_057 false in
  let line := "SW,01,065,+000001234" +:+ Py.CRLF in
  Spec.Command "SW" line
  /\ internal_error self <> DLEN1Error.NO_ERROR
  /\ handle_query self line 0 = (SensorUnit.Return ("ER,SW,254" +:+ Py.CRLF), self).
Proof.
  assert (Spec.Command "SW" ("SW,01,065,+000001234" +:+ Py.CRLF)) as Hc.
  { apply (Spec.Command_SW "01" "065" "+000001234").
    - split; reflexivity.
    - split; reflexivity.
    - exists "+"%char, "000001234"%string. repeat split; auto. }
  split; [exact Hc |]. split; [discriminate |].
  apply (C4_bus_error_preempts_register_access _ "SW" _ 0);
    [exact Hc | right; reflexivity | discriminate].
Defined.

(** * The amplifier register file *)

Lemma handle_read_above self q :
  223 < q ->
  SensorUnit.handle_read self q = SensorUnit.raise Errors.QueryOutsideValidRangeError.
Proof.
  intros H. unfold SensorUnit.handle_read.
  destruct (Z.gtb_spec q 223) as [_ | ?]; [reflexivity | lia].
Qed.

Lemma handle_read_below self q :
  q <= 223 ->
  SensorUnit.handle_read self q =
    match SensorUnit.read_mapping !! q with
    | Some handler_function => SensorUnit.call_read handler_function self
    | None =>
        if bool_decide (q ∈ dom SensorUnit.write_mapping)
        then SensorUnit.raise Errors.QueryReadProtectedError
        else SensorUnit.raise Errors.InaccessibleIDOrQueryError
    end.
Proof.
  intros H. unfold SensorUnit.handle_read.
  destruct (Z.gtb_spec q 223) as [? | _]; [lia | reflexivity].
Qed.

Lemma handle_write_above self q v now :
  223 < q ->
  SensorUnit.handle_write self q v now
  = (SensorUnit.raise Errors.QueryOutsideValidRangeError, self).
Proof.
  intros H. unfold SensorUnit.handle_write.
  destruct (Z.gtb_spec q 223) as [_ | ?]; [reflexivity | lia].
Qed.

Lemma handle_write_below self q v now :
  q <= 223 ->
  SensorUnit.handle_write self q v now =
    match SensorUnit.write_mapping !! q with
    | Some handler_function => SensorUnit.call_write handler_function v now self
    | None =>
        if bool_decide (q ∈ dom SensorUnit.read_mapping)
        then (SensorUnit.raise Errors.QueryWriteProtectedError, self)
        else (SensorUnit.raise Errors.InaccessibleIDOrQueryError, self)
    end.
Proof.
  intros H. unfold SensorUnit.handle_write.
  destruct (Z.gtb_spec q 223) as [? | _]; [lia | reflexivity].
Qed.

Lemma ends_with_error_raise {A} (e : Errors.CommunicationException) code :
  Errors.value (Errors.error_code e) = code ->
  Spec.ends_with_error (@SensorUnit.raise A e) code.
Proof. intros H. exists e. split; [reflexivity | exact H]. Qed.

(** C2: the dispatch of an amplifier register access.  An index above 223
    is error 020.  Below, an index of both the readable and the writable
    set reaches its read handler on SR and its write handler on SW; SW on a
    readable-only index is error 014; SR on a writable-only index is error
    016; an index of neither set is error 031.  A refused write leaves the
    amplifier as it was. *)
Theorem C2_register_dispatch (self : SensorUnit.t) (q v : Z) (now : Q) :
  let readable := dom SensorUnit.read_mapping in
  let writable := dom SensorUnit.write_mapping in
  (223 < q ->
     Spec.ends_with_error (SensorUnit.handle_read self q) 20
     /\ Spec.ends_with_error (SensorUnit.handle_write self q v now).1 20
     /\ (SensorUnit.handle_write self q v now).2 = self)
  /\ (q <= 223 -> q ∈ readable -> q ∈ writable ->
        exists hr hw,
          SensorUnit.read_mapping !! q = Some hr
          /\ SensorUnit.write_mapping !! q = Some hw
          /\ SensorUnit.handle_read self q = SensorUnit.call_read hr self
          /\ SensorUnit.handle_write self q v now = SensorUnit.call_write hw v now self)
  /\ (q <= 223 -> q ∈ readable -> q ∉ writable ->
        Spec.ends_with_error (SensorUnit.handle_write self q v now).1 14
        /\ (SensorUnit.handle_write self q v now).2 = self)
  /\ (q <= 223 -> q ∉ readable -> q ∈ writable ->
        Spec.ends_with_error (SensorUnit.handle_read self q) 16)
  /\ (q <= 223 -> q ∉ readable -> q ∉ writable ->
        Spec.ends_with_error (SensorUnit.handle_read self q) 31
        /\ Spec.ends_with_error (SensorUnit.handle_write self q v now).1 31
        /\ (SensorUnit.handle_write self q v now).2 = self).
Proof.
  intros readable writable.
  split; [| split; [| split; [| split]]].
  - intros Hq. rewrite handle_read_above, handle_write_above by exact Hq.
    split; [| split]; [apply ends_with_error_raise .. |]; reflexivity.
  - intros Hq Hr Hw.
    apply elem_of_dom in Hr as [hr Hr]. apply elem_of_dom in Hw as [hw Hw].
    exists hr, hw. rewrite handle_read_below, handle_write_below by exact Hq.
    rewrite Hr, Hw. repeat split; reflexivity.
  - intros Hq Hr Hw. rewrite handle_write_below by exact Hq.
    apply not_elem_of_dom in Hw. rewrite Hw.
    case_bool_decide; [| contradiction].
    split; [apply ends_with_error_raise |]; reflexivity.
  - intros Hq Hr Hw. rewrite handle_read_below by exact Hq.
    apply not_elem_of_dom in Hr. rewrite Hr.
    case_bool_decide; [| contradiction].
    apply ends_with_error_raise; reflexivity.
  - intros Hq Hr Hw. rewrite handle_read_below, handle_write_below by exact Hq.
    pose proof Hr as Hr'. pose proof Hw as Hw'.
    apply not_elem_of_dom in Hr'. apply not_elem_of_dom in Hw'. rewrite Hr', Hw'.
    do 2 (case_bool_decide; [contradiction |]).
    split; [| split]; [apply ends_with_error_raise .. |]; reflexivity.
Qed.

Lemma C2_witness :
  let s := Factory.create_IL_030 0 in
  Spec.ends_with_error (SensorUnit.handle_read s 224) 20
  /\ SensorUnit.handle_read s 65
     = SensorUnit.call_read (SensorUnit.read_06X_high_setting_value_bank_Y BANK_INDEX.B0) s
  /\ Spec.ends_with_error (SensorUnit.handle_write s 37 1 0).1 14
  /\ Spec.ends_with_error (SensorUnit.handle_read s 1) 16
  /\ Spec.ends_with_error (SensorUnit.handle_read s 0) 31.
Proof.
  intros s.
  split; [| split; [| split; [| split]]].
  - apply (C2_register_dispatch s 224 0 0). lia.
  - destruct (C2_register_dispatch s 65 0 0) as (_ & H & _).
    destruct H as (hr & hw & Hr & _ & H & _).
    + lia.
    + apply elem_of_dom. eexists. reflexivity.
    + apply elem_of_dom. eexists. reflexivity.
    + rewrite H. f_equal. vm_compute in Hr. now injection Hr as <-.
  - apply (C2_register_dispatch s 37 1 0).
    + lia.
    + apply elem_of_dom. eexists. reflexivity.
    + apply not_elem_of_dom. reflexivity.
  - apply (C2_register_dispatch s 1 0 0).
    + lia.
    + apply not_elem_of_dom. reflexivity.
    + apply elem_of_dom. eexists. reflexivity.
  - apply (C2_register_dispatch s 0 0 0).
    + lia.
    + apply not_elem_of_dom. reflexivity.
    + apply not_elem_of_dom. reflexivity.
Defined.

(** * Rounding to binary64 *)

Lemma pow2_pos k : (0 < 2 ^ k)%Q.
Proof. apply Qpower_0_lt. reflexivity. Qed.

Lemma pow2_add a b : (2 ^ (a + b) == 2 ^ a * 2 ^ b)%Q.
Proof. apply Qpower_plus. discriminate. Qed.

Lemma pow2_le a b : a <= b -> (2 ^ a <= 2 ^ b)%Q.
Proof. intros H. apply Qpower_le_compat_l; [exact H | discriminate]. Qed.

Lemma pow2_lt_inv a b : (2 ^ a < 2 ^ b)%Q -> a < b.
Proof. intros H. apply (Qpower_lt_compat_l_inv 2); [exact H | reflexivity]. Qed.

Lemma pow2_Z k : 0 <= k -> (2 ^ k == inject_Z (2 ^ k))%Q.
Proof. intros H. symmetry. apply (Zpower_Qpower 2 k H). Qed.

(** [ilog2] is the binary exponent of a positive rational. *)
Lemma ilog2_spec (x : Q) :
  (0 < x)%Q -> (2 ^ Py.ilog2 x <= x)%Q /\ (x < 2 ^ (Py.ilog2 x + 1))%Q.
Proof.
  intros Hx. destruct x as [n d]. unfold Py.ilog2. cbn [Qnum Qden].
  assert (0 < n) as Hn by (unfold Qlt in Hx; cbn in Hx; lia).
  set (ln := Z.log2 n). set (ld := Z.log2 (Z.pos d)).
  destruct (Z.log2_spec n Hn) as [Hn1 Hn2]. fold ln in Hn1, Hn2.
  destruct (Z.log2_spec (Z.pos d) eq_refl) as [Hd1 Hd2]. fold ld in Hd1, Hd2.
  assert (0 <= ln) as Hln by apply Z.log2_nonneg.
  assert (0 <= ld) as Hld by apply Z.log2_nonneg.
  assert (n # d == inject_Z n / inject_Z (Z.pos d))%Q as Ex by apply Qmake_Qdiv.
  assert (0 < inject_Z (Z.pos d))%Q as Hdpos by (unfold Qlt; cbn; lia).
  assert (inject_Z (2 ^ ln) <= inject_Z n)%Q as Qn1 by (rewrite <- Zle_Qle; exact Hn1).
  assert (inject_Z n < inject_Z (2 ^ Z.succ ln))%Q as Qn2 by (rewrite <- Zlt_Qlt; exact Hn2).
  assert (inject_Z (2 ^ ld) <= inject_Z (Z.pos d))%Q as Qd1 by (rewrite <- Zle_Qle; exact Hd1).
  assert (inject_Z (Z.pos d) < inject_Z (2 ^ Z.succ ld))%Q as Qd2 by (rewrite <- Zlt_Qlt; exact Hd2).
  rewrite <- !pow2_Z in Qn1, Qn2, Qd1, Qd2 by lia.
  pose proof (pow2_pos ln) as Pln. pose proof (pow2_pos ld) as Pld.
  pose proof (pow2_pos (ln - ld)) as Pk.
  assert (2 ^ Z.succ ln == 2 * 2 ^ ln)%Q as Esn
    by (unfold Z.succ; rewrite pow2_add; change (2 ^ 1)%Q with 2%Q; ring).
  assert (2 ^ Z.succ ld == 2 * 2 ^ ld)%Q as Esd
    by (unfold Z.succ; rewrite pow2_add; change (2 ^ 1)%Q with 2%Q; ring).
  assert (2 ^ ln == 2 ^ (ln - ld) * 2 ^ ld)%Q as Ek
    by (rewrite <- pow2_add; apply Qpower_comp; [reflexivity | lia]).
  assert (2 ^ (ln - ld + 1) == 2 * 2 ^ (ln - ld))%Q as Ek1
    by (rewrite pow2_add; change (2 ^ 1)%Q with 2%Q; ring).
  assert (2 ^ (ln - ld - 1 + 1) == 2 ^ (ln - ld))%Q as Ek2
    by (apply Qpower_comp; [reflexivity | lia]).
  assert (2 * 2 ^ (ln - ld - 1) == 2 ^ (ln - ld))%Q as Ek3.
  { rewrite <- Ek2. rewrite (pow2_add (ln - ld - 1) 1). change (2 ^ 1)%Q with 2%Q. ring. }
  rewrite Esn in Qn2. rewrite Esd in Qd2.
  set (X := inject_Z n) in *. set (D := inject_Z (Z.pos d)) in *.
  set (K := (2 ^ (ln - ld))%Q) in *. set (A := (2 ^ ln)%Q) in *. set (B := (2 ^ ld)%Q) in *.
  assert (X / D < 2 * K)%Q as Hup.
  { apply Qlt_shift_div_r; [exact Hdpos |]. nra. }
  assert (K < 2 * (X / D))%Q as Hlo.
  { assert (K * D < 2 * X)%Q by nra.
    assert ((X / D) * D == X)%Q by (field; lra).
    nra. }
  destruct (Qle_bool K (n # d)) eqn:E.
  - apply Qle_bool_iff in E. split; [exact E |]. rewrite Ek1, Ex. exact Hup.
  - assert (n # d < K)%Q as Hlt.
    { apply Qnot_le_lt. intros H. apply Qle_bool_iff in H. congruence. }
    rewrite Ek2. split; [| exact Hlt].
    rewrite Ex. set (K' := (2 ^ (ln - ld - 1))%Q) in *. lra.
Qed.

Lemma ilog2_mono (x y : Q) : (0 < x)%Q -> (x <= y)%Q -> Py.ilog2 x <= Py.ilog2 y.
Proof.
  intros Hx Hxy.
  destruct (ilog2_spec x Hx) as [H1 _].
  destruct (ilog2_spec y ltac:(lra)) as [_ H2].
  assert (Py.ilog2 x < Py.ilog2 y + 1); [| lia].
  apply pow2_lt_inv. lra.
Qed.

(** [rint] is within one half of its argument, and monotone. *)
Lemma rint_bounds (x : Q) :
  (inject_Z (Py.rint x) - (1 # 2) <= x)%Q /\ (x <= inject_Z (Py.rint x) + (1 # 2))%Q.
Proof.
  unfold Py.rint.
  pose proof (Qfloor_le x) as H1. pose proof (Qlt_floor x) as H2.
  rewrite inject_Z_plus in H2. change (inject_Z 1) with 1%Q in H2.
  destruct (Qcompare_spec (x - inject_Z (Qfloor x)) (1 # 2)) as [E | E | E].
  - destruct (Z.even (Qfloor x)); rewrite ?inject_Z_plus; change (inject_Z 1) with 1%Q; lra.
  - lra.
  - rewrite inject_Z_plus. change (inject_Z 1) with 1%Q. lra.
Qed.

Lemma rint_mono (x y : Q) : (x <= y)%Q -> Py.rint x <= Py.rint y.
Proof.
  intros H. pose proof (Qfloor_resp_le x y H) as Hf.
  assert (Qfloor x <= Py.rint x <= Qfloor x + 1) as Hx.
  { unfold Py.rint. destruct (_ ?= _)%Q; [destruct (Z.even _) | |]; lia. }
  assert (Qfloor y <= Py.rint y <= Qfloor y + 1) as Hy.
  { unfold Py.rint. destruct (_ ?= _)%Q; [destruct (Z.even _) | |]; lia. }
  destruct (Z.eq_dec (Qfloor x) (Qfloor y)) as [E | Hne]; [| lia].
  unfold Py.rint in *. rewrite <- E in *.
  destruct (Qcompare_spec (x - inject_Z (Qfloor x)) (1 # 2)) as [Ex | Ex | Ex];
    destruct (Qcompare_spec (y - inject_Z (Qfloor x)) (1 # 2)) as [Ey | Ey | Ey];
    try destruct (Z.even (Qfloor x)); try lia; exfalso; lra.
Qed.

Lemma rint_Z (x : Q) (n : Z) : (x == inject_Z n)%Q -> Py.rint x = n.
Proof.
  intros E. destruct (rint_bounds x) as [H1 H2].
  assert (inject_Z (Py.rint x) < inject_Z (n + 1))%Q as A
    by (rewrite inject_Z_plus; change (inject_Z 1) with 1%Q; lra).
  assert (inject_Z n < inject_Z (Py.rint x + 1))%Q as B
    by (rewrite inject_Z_plus; change (inject_Z 1) with 1%Q; lra).
  rewrite <- Zlt_Qlt in A, B. lia.
Qed.

Lemma ulp_pos a : (0 < Py.ulp a)%Q.
Proof. apply pow2_pos. Qed.

(** A magnitude is rounded by at most half the spacing. *)
Lemma round_magnitude_error (a : Q) :
  (Py.round_magnitude a - Py.ulp a * (1 # 2) <= a)%Q
  /\ (a <= Py.round_magnitude a + Py.ulp a * (1 # 2))%Q.
Proof.
  unfold Py.round_magnitude. pose proof (ulp_pos a) as Hu.
  destruct (rint_bounds (a / Py.ulp a)) as [H1 H2].
  assert ((a / Py.ulp a) * Py.ulp a == a)%Q as E by (field; lra).
  set (m := inject_Z (Py.rint (a / Py.ulp a))) in *.
  set (q := (a / Py.ulp a)%Q) in *. set (u := Py.ulp a) in *.
  split; nra.
Qed.

Lemma round_magnitude_zero (a : Q) : (a == 0)%Q -> (Py.round_magnitude a == 0)%Q.
Proof.
  intros E. unfold Py.round_magnitude. pose proof (ulp_pos a) as Hu.
  rewrite (rint_Z _ 0); [ring |].
  change (inject_Z 0) with 0%Q. set (u := Py.ulp a) in *. rewrite E. field. lra.
Qed.

Lemma round_magnitude_nonneg (a : Q) : (0 <= a)%Q -> (0 <= Py.round_magnitude a)%Q.
Proof.
  intros H. unfold Py.round_magnitude. pose proof (ulp_pos a) as Hu.
  assert (0 <= Py.rint (a / Py.ulp a)) as Hr.
  { rewrite <- (rint_Z 0 0) by reflexivity. apply rint_mono.
    apply Qle_shift_div_l; lra. }
  rewrite Zle_Qle in Hr. change (inject_Z 0) with 0%Q in Hr. nra.
Qed.

(** Rounding is monotone on magnitudes: within one binade by [rint], and
    across binades because a power of two is a float. *)
Lemma round_magnitude_mono (a b : Q) :
  (0 <= a)%Q -> (a <= b)%Q -> (Py.round_magnitude a <= Py.round_magnitude b)%Q.
Proof.
  intros Ha Hab.
  destruct (Qlt_le_dec 0 a) as [Hpos | Hz].
  2: { rewrite (round_magnitude_zero a) by lra. apply round_magnitude_nonneg. lra. }
  pose proof (ilog2_mono a b Hpos Hab) as Hl.
  pose proof (ulp_pos a) as Hua. pose proof (ulp_pos b) as Hub.
  destruct (Z.eq_dec (Z.max (Py.ilog2 a) (-1022)) (Z.max (Py.ilog2 b) (-1022))) as [E | Hne].
  - unfold Py.round_magnitude.
    assert (Py.ulp b = Py.ulp a) as -> by (unfold Py.ulp; now rewrite E).
    assert (Py.rint (a / Py.ulp a) <= Py.rint (b / Py.ulp a)) as Hr.
    { apply rint_mono. apply Qle_shift_div_l; [exact Hua |].
      assert ((a / Py.ulp a) * Py.ulp a == a)%Q as -> by (field; lra). exact Hab. }
    rewrite Zle_Qle in Hr. nra.
  - assert (Z.max (Py.ilog2 a) (-1022) < Py.ilog2 b) as Hlt by lia.
    assert (Z.max (Py.ilog2 b) (-1022) = Py.ilog2 b) as Eb by lia.
    set (ea := Z.max (Py.ilog2 a) (-1022)) in *. set (eb := Py.ilog2 b) in *.
    destruct (ilog2_spec a Hpos) as [_ Ha2].
    destruct (ilog2_spec b ltac:(lra)) as [Hb1 _]. fold eb in Hb1.
    assert (Py.round_magnitude a <= 2 ^ (ea + 1))%Q as HRa.
    { unfold Py.round_magnitude. assert (Py.ulp a = 2 ^ (ea - 52))%Q as Eu by reflexivity.
      assert (2 ^ (ea + 1) == inject_Z (2 ^ 53) * Py.ulp a)%Q as E53.
      { rewrite Eu, <- pow2_Z, <- pow2_add by lia. apply Qpower_comp; [reflexivity | lia]. }
      assert (2 ^ (Py.ilog2 a + 1) <= 2 ^ (ea + 1))%Q as Hle by (apply pow2_le; lia).
      assert (Py.rint (a / Py.ulp a) <= 2 ^ 53) as Hr.
      { rewrite <- (rint_Z (inject_Z (2 ^ 53)) (2 ^ 53)) by reflexivity. apply rint_mono.
        apply Qle_shift_div_r; [exact Hua |]. lra. }
      rewrite Zle_Qle in Hr. rewrite E53. nra. }
    assert (2 ^ eb <= Py.round_magnitude b)%Q as HRb.
    { unfold Py.round_magnitude.
      assert (Py.ulp b = 2 ^ (eb - 52))%Q as Eu
        by (change (Py.ulp b) with (2 ^ (Z.max eb (-1022) - 52))%Q; now rewrite Eb).
      assert (2 ^ eb == inject_Z (2 ^ 52) * Py.ulp b)%Q as E52.
      { rewrite Eu, <- pow2_Z, <- pow2_add by lia. apply Qpower_comp; [reflexivity | lia]. }
      assert (2 ^ 52 <= Py.rint (b / Py.ulp b)) as Hr.
      { rewrite <- (rint_Z (inject_Z (2 ^ 52)) (2 ^ 52)) at 1 by reflexivity. apply rint_mono.
        apply Qle_shift_div_l; [exact Hub |]. rewrite <- E52. exact Hb1. }
      rewrite Zle_Qle in Hr. rewrite E52. nra. }
    assert (2 ^ (ea + 1) <= 2 ^ eb)%Q by (apply pow2_le; lia).
    lra.
Qed.

Lemma round_magnitude_comp (a b : Q) :
  (0 <= a)%Q -> (a == b)%Q -> (Py.round_magnitude a == Py.round_magnitude b)%Q.
Proof. intros H E. apply Qle_antisym; apply round_magnitude_mono; lra. Qed.

Lemma float_round_nonneg (x : Q) :
  (0 <= x)%Q -> (Py.float_round x == Py.round_magnitude x)%Q.
Proof.
  intros H. unfold Py.float_round.
  assert (Qle_bool 0 x = true) as -> by now apply Qle_bool_iff.
  rewrite Qred_correct.
  apply round_magnitude_comp; [apply Qabs_nonneg | now apply Qabs_pos].
Qed.

Lemma float_round_neg (x : Q) :
  (x < 0)%Q -> (Py.float_round x == - Py.round_magnitude (- x))%Q.
Proof.
  intros H. unfold Py.float_round.
  assert (Qle_bool 0 x = false) as ->.
  { destruct (Qle_bool 0 x) eqn:E; [| reflexivity]. apply Qle_bool_iff in E. lra. }
  rewrite Qred_correct.
  apply Qopp_comp. apply round_magnitude_comp; [apply Qabs_nonneg | apply Qabs_neg; lra].
Qed.

(** Rounding to binary64 is monotone. *)
Lemma float_round_mono (x y : Q) : (x <= y)%Q -> (Py.float_round x <= Py.float_round y)%Q.
Proof.
  intros H.
  destruct (Qlt_le_dec x 0) as [Hx | Hx]; destruct (Qlt_le_dec y 0) as [Hy | Hy].
  - rewrite !float_round_neg by assumption.
    assert (Py.round_magnitude (- y) <= Py.round_magnitude (- x))%Q
      by (apply round_magnitude_mono; lra).
    lra.
  - rewrite float_round_neg, float_round_nonneg by assumption.
    pose proof (round_magnitude_nonneg (- x) ltac:(lra)).
    pose proof (round_magnitude_nonneg y Hy). lra.
  - lra.
  - rewrite !float_round_nonneg by assumption. now apply round_magnitude_mono.
Qed.

Lemma float_round_comp (x y : Q) : (x == y)%Q -> (Py.float_round x == Py.float_round y)%Q.
Proof. intros E. apply Qle_antisym; apply float_round_mono; lra. Qed.

Lemma float_round_zero : (Py.float_round 0 == 0)%Q.
Proof. reflexivity. Qed.

(** The rounding error: a relative error of [2 ** -53], or, among the
    subnormal numbers, half their spacing [2 ** -1074]. *)
Lemma round_magnitude_near (a : Q) :
  (0 <= a)%Q ->
  (Qabs (Py.round_magnitude a - a) <= (1 # 2 ^ 53) * a + 2 ^ (-1075))%Q.
Proof.
  intros Ha. pose proof (pow2_pos (-1075)) as Heta.
  assert (0 < 1 # 2 ^ 53)%Q as Heps by reflexivity.
  set (eps := (1 # 2 ^ 53)%Q) in *. set (eta := (2 ^ (-1075))%Q) in *.
  destruct (Qlt_le_dec 0 a) as [Hpos | Hz].
  2: { assert (a == 0)%Q as E by lra.
       assert (Py.round_magnitude a - a == 0)%Q as -> by (rewrite round_magnitude_zero; lra).
       change (Qabs 0) with 0%Q. nra. }
  destruct (round_magnitude_error a) as [H1 H2].
  apply Qabs_Qle_condition.
  assert (Py.ulp a * (1 # 2) <= eps * a + eta)%Q as Hu; [| lra].
  unfold Py.ulp.
  destruct (ilog2_spec a Hpos) as [Hl _].
  destruct (Z.max_spec (Py.ilog2 a) (-1022)) as [[_ ->] | [_ ->]].
  - assert (2 ^ (-1022 - 52) * (1 # 2) == eta)%Q as -> by reflexivity. nra.
  - assert (2 ^ (Py.ilog2 a - 52) * (1 # 2) == 2 ^ Py.ilog2 a * eps)%Q as ->.
    { unfold Z.sub. rewrite pow2_add. subst eps.
      assert (2 ^ (-52) == 1 # 2 ^ 52)%Q as -> by reflexivity.
      rewrite <- Qmult_assoc. apply Qmult_comp; reflexivity. }
    set (p := (2 ^ Py.ilog2 a)%Q) in *. nra.
Qed.

Lemma float_round_near (x : Q) :
  (Qabs (Py.float_round x - x) <= (1 # 2 ^ 53) * Qabs x + 2 ^ (-1075))%Q.
Proof.
  destruct (Qlt_le_dec x 0) as [Hx | Hx].
  - rewrite float_round_neg by exact Hx.
    pose proof (round_magnitude_near (- x) ltac:(lra)) as H.
    rewrite (Qabs_neg x) by lra.
    apply Qabs_Qle_condition in H. apply Qabs_Qle_condition. lra.
  - rewrite float_round_nonneg by exact Hx.
    rewrite (Qabs_pos x) by exact Hx. now apply round_magnitude_near.
Qed.

(** * Truncation *)

Lemma trunc_spec (x : Q) :
  (0 <= x -> 0 <= inject_Z (Py.trunc x) /\ inject_Z (Py.trunc x) <= x
             /\ x < inject_Z (Py.trunc x) + 1)%Q
  /\ (x <= 0 -> x <= inject_Z (Py.trunc x) /\ inject_Z (Py.trunc x) <= 0
             /\ inject_Z (Py.trunc x) - 1 < x)%Q.
Proof.
  destruct x as [n d]. unfold Py.trunc. cbn [Qnum Qden].
  pose proof (Z.quot_rem' n (Z.pos d)) as E.
  assert (Z.pos d <> 0) as Hd by lia.
  unfold Qle, Qlt, Qminus, Qplus, Qopp, inject_Z. cbn [Qnum Qden].
  split; intros Hx.
  - assert (0 <= n) as Hn by lia.
    pose proof (Z.rem_bound_pos n (Z.pos d) Hn ltac:(lia)) as Hr.
    assert (0 <= n ÷ Z.pos d) by (apply Z.quot_pos; lia).
    repeat split; nia.
  - assert (n <= 0) as Hn by lia.
    pose proof (Z.rem_nonpos n (Z.pos d) Hd Hn) as Hr.
    pose proof (Z.rem_bound_abs n (Z.pos d) Hd) as Hr'.
    assert (- Z.pos d < Z.rem n (Z.pos d)) as Hr'' by lia.
    clear Hr'.
    assert (n ÷ Z.pos d <= 0).
    { destruct (Z.eq_dec n 0) as [-> | E0]; [now rewrite Z.quot_0_l |].
      assert (n ÷ Z.pos d <= 0 \/ 0 < n ÷ Z.pos d) as [? | Ht] by lia; [assumption | nia]. }
    set (q := n ÷ Z.pos d) in *. set (r := Z.rem n (Z.pos d)) in *.
    repeat split; nia.
Qed.

Lemma trunc_near (x : Q) :
  (x - 1 < inject_Z (Py.trunc x))%Q /\ (inject_Z (Py.trunc x) < x + 1)%Q.
Proof.
  destruct (trunc_spec x) as [Hp Hn].
  destruct (Qlt_le_dec x 0) as [Hx | Hx].
  - destruct Hn as (A & B & C); [lra |]. split; lra.
  - destruct (Hp Hx) as (A & B & C). split; lra.
Qed.

Lemma trunc_between (x : Q) (n : Z) :
  0 <= n -> (- inject_Z (n + 1) < x)%Q -> (x < inject_Z (n + 1))%Q -> - n <= Py.trunc x <= n.
Proof.
  intros Hn Hlo Hhi. destruct (trunc_spec x) as [Hp Hneg].
  rewrite inject_Z_plus in Hlo, Hhi. change (inject_Z 1) with 1%Q in *.
  assert (0 <= inject_Z n)%Q as Hn' by (change 0%Q with (inject_Z 0); now rewrite <- Zle_Qle).
  destruct (Qlt_le_dec x 0) as [Hx | Hx].
  - destruct Hneg as (A & B & C); [lra |].
    assert (inject_Z (- (n + 1)) < inject_Z (Py.trunc x))%Q as L.
    { rewrite inject_Z_opp, inject_Z_plus. change (inject_Z 1) with 1%Q. lra. }
    assert (inject_Z (Py.trunc x) <= inject_Z 0)%Q as U by exact B.
    rewrite <- Zlt_Qlt in L. rewrite <- Zle_Qle in U. lia.
  - destruct (Hp Hx) as (A & B & C).
    assert (inject_Z (Py.trunc x) < inject_Z (n + 1))%Q as U.
    { rewrite inject_Z_plus. change (inject_Z 1) with 1%Q. lra. }
    assert (inject_Z 0 <= inject_Z (Py.trunc x))%Q as L by exact A.
    rewrite <- Zlt_Qlt in U. rewrite <- Zle_Qle in L. lia.
Qed.

(** * The fixed-point codec *)

Lemma pow10_pos (d : nat) : 0 < 10 ^ Z.of_nat d.
Proof. apply Z.pow_pos_nonneg; lia. Qed.

Lemma mul_between (w r A B : Q) :
  (- A <= w)%Q -> (w <= A)%Q -> (- B <= r)%Q -> (r <= B)%Q ->
  (- (A * B) <= w * r)%Q /\ (w * r <= A * B)%Q.
Proof. intros. split; nra. Qed.

(** The scale [10 ** d] of a decimal position up to 308, as a rational:
    at least one, and a binary64 number of at most [2 ** 1024], which the
    subnormal spacing times it stays far below the last place. *)
Lemma scale_bounds (d : nat) :
  (d <= 308)%nat ->
  let P := inject_Z (10 ^ Z.of_nat d) in
  (1 <= P)%Q /\ (2 ^ (-1075) * P <= 1 # 2 ^ 51)%Q.
Proof.
  intros Hd P.
  assert (1 <= 10 ^ Z.of_nat d) as H1 by (pose proof (pow10_pos d); lia).
  assert (10 ^ Z.of_nat d <= 10 ^ 308) as H2 by (apply Z.pow_le_mono_r; lia).
  assert (10 ^ 308 <= 2 ^ 1024) as H3 by (vm_compute; discriminate).
  assert (1 <= P)%Q as HP1 by (subst P; change 1%Q with (inject_Z 1); now rewrite <- Zle_Qle).
  assert (P <= inject_Z (2 ^ 1024))%Q as HP2 by (subst P; rewrite <- Zle_Qle; lia).
  split; [exact HP1 |].
  rewrite <- (pow2_Z 1024) in HP2 by lia.
  assert (2 ^ (-1075) * 2 ^ 1024 == 1 # 2 ^ 51)%Q as E by reflexivity.
  pose proof (pow2_pos (-1075)) as Heta.
  set (eta := (2 ^ (-1075))%Q) in *. set (T := (2 ^ 1024)%Q) in *.
  set (k := (1 # 2 ^ 51)%Q) in *. nra.
Qed.

(** A decoded integer of at most five digits, scaled back, is within
    [2 ** -35] of the integer. *)
Lemma int_to_mm_near (d : nat) (k : Z) :
  (d <= 308)%nat -> -99999 <= k <= 99999 ->
  let P := 10 ^ Z.of_nat d in
  (Qabs (Py.true_div k P * inject_Z P - inject_Z k) <= 1 # 2 ^ 35)%Q.
Proof.
  intros Hd Hk P. destruct (scale_bounds d Hd) as [HP1 Heta]. fold P in HP1, Heta.
  unfold Py.true_div.
  pose proof (float_round_near (inject_Z k / inject_Z P)) as N.
  set (x := (inject_Z k / inject_Z P)%Q) in *.
  assert (x * inject_Z P == inject_Z k)%Q as Ex by (subst x; field; lra).
  assert (- (99999) <= inject_Z k)%Q as K1
    by (change (- (99999))%Q with (inject_Z (-99999)); rewrite <- Zle_Qle; lia).
  assert (inject_Z k <= 99999)%Q as K2
    by (change 99999%Q with (inject_Z 99999); rewrite <- Zle_Qle; lia).
  assert (Qabs x * inject_Z P <= 99999)%Q as Hx.
  { assert (Qabs x * inject_Z P == Qabs (inject_Z k))%Q as ->.
    { rewrite <- Ex, Qabs_Qmult, (Qabs_pos (inject_Z P)) by lra. reflexivity. }
    apply Qabs_Qle_condition. lra. }
  pose proof (Qabs_nonneg x) as Hx0.
  pose proof (pow2_pos (-1075)) as He.
  assert (0 < 1 # 2 ^ 53)%Q as Heps by reflexivity.
  assert ((1 # 2 ^ 53) * 99999 + (1 # 2 ^ 51) <= 1 # 2 ^ 35)%Q as Hc
    by (vm_compute; discriminate).
  apply Qabs_Qle_condition in N. apply Qabs_Qle_condition.
  set (r := Py.float_round x) in *. set (ax := Qabs x) in *.
  set (eps := (1 # 2 ^ 53)%Q) in *. set (eta := (2 ^ (-1075))%Q) in *.
  set (PP := inject_Z P) in *. set (c := (1 # 2 ^ 35)%Q) in *. set (kk := (1 # 2 ^ 51)%Q) in *.
  set (K := inject_Z k) in *.
  destruct N as [N1 N2].
  split; nra.
Qed.

(** A value between the bounds that the constructor derives, scaled by
    [10 ** d] in binary64, stays within five digits and within [2 ** -34]
    of the exact product. *)
Lemma scaled_product_near (d : nat) (v : Q) :
  (d <= 308)%nat ->
  let P := 10 ^ Z.of_nat d in
  (Py.true_div (-99999) P <= v)%Q -> (v <= Py.true_div 99999 P)%Q ->
  (Qabs (v * inject_Z P) <= 99999 + (1 # 2 ^ 35))%Q
  /\ (Qabs (Py.fmul v (Py.float_of_int P) - v * inject_Z P) <= 1 # 2 ^ 34)%Q.
Proof.
  intros Hd P Hlo Hhi. destruct (scale_bounds d Hd) as [HP1 Heta]. fold P in HP1, Heta.
  pose proof (int_to_mm_near d 99999 Hd ltac:(lia)) as Hu.
  pose proof (int_to_mm_near d (-99999) Hd ltac:(lia)) as Hl.
  cbv zeta in Hu, Hl. fold P in Hu, Hl.
  apply Qabs_Qle_condition in Hu, Hl.
  change (inject_Z 99999) with 99999%Q in Hu. change (inject_Z (-99999)) with (- (99999))%Q in Hl.
  assert (- (99999 + (1 # 2 ^ 35)) <= v * inject_Z P /\ v * inject_Z P <= 99999 + (1 # 2 ^ 35))%Q
    as [W1 W2].
  { set (u := Py.true_div 99999 P) in *. set (l := Py.true_div (-99999) P) in *.
    set (PP := inject_Z P) in *. set (c := (1 # 2 ^ 35)%Q) in *.
    destruct Hu, Hl. split; nra. }
  split; [apply Qabs_Qle_condition; split; assumption |].
  (* the scale as a float *)
  pose proof (float_round_near (inject_Z P)) as NP.
  rewrite (Qabs_pos (inject_Z P)) in NP by lra.
  fold (Py.float_of_int P) in NP. apply Qabs_Qle_condition in NP.
  (* the product *)
  unfold Py.fmul.
  pose proof (float_round_near (v * Py.float_of_int P)) as NY.
  pose proof (pow2_pos (-1075)) as He.
  assert (0 < 1 # 2 ^ 53)%Q as Heps by reflexivity.
  assert (2 ^ (-1075) <= 1 # 2 ^ 60)%Q as He' by (vm_compute; discriminate).
  set (P' := Py.float_of_int P) in *. set (PP := inject_Z P) in *.
  set (eps := (1 # 2 ^ 53)%Q) in *. set (eta := (2 ^ (-1075))%Q) in *.
  set (w := (v * PP)%Q) in *.
  (* rho = (P' - P) / P *)
  set (rho := ((P' - PP) / PP)%Q).
  assert (rho * PP == P' - PP)%Q as Erho by (subst rho; field; lra).
  assert (- (eps + eta) <= rho /\ rho <= eps + eta)%Q as [R1 R2].
  { destruct NP as [NP1 NP2]. split.
    - apply Qle_shift_div_l; [lra |]. nra.
    - apply Qle_shift_div_r; [lra |]. nra. }
  assert (v * P' == w + w * rho)%Q as Ey.
  { transitivity (v * (PP + rho * PP))%Q.
    - apply Qmult_comp; [reflexivity | lra].
    - subst w. ring. }
  destruct (mul_between w rho (99999 + (1 # 2 ^ 35)) (eps + eta) W1 W2 R1 R2) as [M1 M2].
  assert ((99999 + (1 # 2 ^ 35)) * (eps + (1 # 2 ^ 60)) <= 1 # 2 ^ 36)%Q as C1
    by (vm_compute; discriminate).
  assert (- (1 # 2 ^ 36) <= w * rho /\ w * rho <= 1 # 2 ^ 36)%Q as [M1' M2'].
  { set (A := (99999 + (1 # 2 ^ 35))%Q) in *. set (k60 := (1 # 2 ^ 60)%Q) in *.
    set (k36 := (1 # 2 ^ 36)%Q) in *.
    assert (0 <= A)%Q by (vm_compute; discriminate).
    split; nra. }
  set (y := (v * P')%Q) in *.
  assert (Qabs y <= 100000)%Q as Hy.
  { apply Qabs_Qle_condition.
    assert (99999 + (1 # 2 ^ 35) + (1 # 2 ^ 36) <= 100000)%Q as C2 by (vm_compute; discriminate).
    split; lra. }
  assert (eps * 100000 + (1 # 2 ^ 60) <= 1 # 2 ^ 36)%Q as C3 by (vm_compute; discriminate).
  assert ((1 # 2 ^ 36) + (1 # 2 ^ 36) <= 1 # 2 ^ 34)%Q as C4 by (vm_compute; discriminate).
  apply Qabs_Qle_condition in NY. apply Qabs_Qle_condition.
  set (Y := Py.float_round y) in *. set (ay := Qabs y) in *.
  set (k60 := (1 # 2 ^ 60)%Q) in *. set (k36 := (1 # 2 ^ 36)%Q) in *.
  set (k34 := (1 # 2 ^ 34)%Q) in *.
  destruct NY as [NY1 NY2].
  split; nra.
Qed.

Lemma gt_true x y : Py.gt x y = true <-> (y < x)%Q.
Proof.
  unfold Py.gt. rewrite negb_true_iff. split.
  - intros H. apply Qnot_le_lt. intros Hle. apply Qle_bool_iff in Hle. congruence.
  - intros H. destruct (Qle_bool x y) eqn:E; [| reflexivity].
    apply Qle_bool_iff in E. exfalso. eapply Qlt_not_le; eassumption.
Qed.

Lemma gt_false x y : Py.gt x y = false <-> (x <= y)%Q.
Proof. unfold Py.gt. rewrite negb_false_iff. apply Qle_bool_iff. Qed.

Lemma lt_true x y : Py.lt x y = true <-> (x < y)%Q.
Proof. apply gt_true. Qed.

Lemma lt_false x y : Py.lt x y = false <-> (y <= x)%Q.
Proof. apply gt_false. Qed.

Lemma bounds_ordered (s : SensorUnit.t) :
  Spec.bounds_derived s -> (SensorUnit.lower_bound s <= SensorUnit.upper_bound s)%Q.
Proof.
  intros [-> ->]. unfold SensorUnit.int_to_mm, Py.true_div.
  apply float_round_mono.
  pose proof (pow10_pos (SensorUnit.decimal_position s)) as HP.
  assert (0 < inject_Z (10 ^ Z.of_nat (SensorUnit.decimal_position s)))%Q as HP'
    by (change 0%Q with (inject_Z 0); now rewrite <- Zlt_Qlt).
  unfold Qdiv. apply Qmult_le_compat_r; [discriminate |].
  apply Qlt_le_weak, Qinv_lt_0_compat, HP'.
Qed.

(** In range, [mm_to_int] is the truncation of the product that binary64
    gives for [value * 10**d]; it lies within five digits, and less than
    [1 + 2 ** -34] from the exact product. *)
Lemma mm_to_int_in_range (s : SensorUnit.t) (v : Q) :
  Spec.bounds_derived s -> (SensorUnit.decimal_position s <= 308)%nat ->
  (SensorUnit.lower_bound s <= v)%Q -> (v <= SensorUnit.upper_bound s)%Q ->
  let scale := 10 ^ Z.of_nat (SensorUnit.decimal_position s) in
  SensorUnit.mm_to_int s (Some v) = Py.trunc (Py.fmul v (Py.float_of_int scale))
  /\ -99999 <= SensorUnit.mm_to_int s (Some v) <= 99999
  /\ (Qabs (inject_Z (SensorUnit.mm_to_int s (Some v)) - v * inject_Z scale)
      < 1 + (1 # 2 ^ 34))%Q.
Proof.
  intros [Hl Hu] Hd Hlo Hhi scale. unfold SensorUnit.mm_to_int.
  assert (Py.gt v (SensorUnit.upper_bound s) = false) as -> by now apply gt_false.
  assert (Py.lt v (SensorUnit.lower_bound s) = false) as -> by now apply lt_false.
  fold scale. split; [reflexivity |].
  rewrite Hl in Hlo. rewrite Hu in Hhi. unfold SensorUnit.int_to_mm in Hlo, Hhi.
  destruct (scaled_product_near _ v Hd Hlo Hhi) as [W N]. fold scale in W, N.
  apply Qabs_Qle_condition in W, N.
  destruct (trunc_near (Py.fmul v (Py.float_of_int scale))) as [T1 T2].
  assert ((1 # 2 ^ 35) + (1 # 2 ^ 34) < 1)%Q as C by reflexivity.
  set (Y := Py.fmul v (Py.float_of_int scale)) in *.
  set (k35 := (1 # 2 ^ 35)%Q) in *. set (k34 := (1 # 2 ^ 34)%Q) in *.
  split.
  - destruct W, N.
    apply (trunc_between Y 99999); [lia | |];
      change (inject_Z (99999 + 1)) with 100000%Q; lra.
  - destruct W, N. apply Qabs_Qlt_condition. split; lra.
Qed.

(** C10, as the code has it.  For an amplifier with the bounds of its
    constructor and a decimal position of at most 308 (beyond which
    [10 ** d] is no float), [mm_to_int] returns for every absent or finite
    value, and what it returns lies in [-99999, 99999]: an absent value
    gives -99998, a value above [upper_bound] gives 99999, a value below
    [lower_bound] gives -99999, and a value in between gives the truncation
    of the binary64 product [value * 10**d], less than [1 + 2 ** -34] from
    the exact product.  A register read formatted through it therefore
    fills the field of a sign and nine digits exactly. *)
Theorem C10_mm_to_int_total_and_bounded (s : SensorUnit.t) (value : option Q) :
  Spec.bounds_derived s -> (SensorUnit.decimal_position s <= 308)%nat ->
  let scale := 10 ^ Z.of_nat (SensorUnit.decimal_position s) in
  (value = None -> SensorUnit.mm_to_int s value = -99998)
  /\ (forall v, value = Some v -> (SensorUnit.upper_bound s < v)%Q ->
        SensorUnit.mm_to_int s value = 99999)
  /\ (forall v, value = Some v -> (v < SensorUnit.lower_bound s)%Q ->
        SensorUnit.mm_to_int s value = -99999)
  /\ (forall v, value = Some v ->
        (SensorUnit.lower_bound s <= v)%Q -> (v <= SensorUnit.upper_bound s)%Q ->
        SensorUnit.mm_to_int s value = Py.trunc (Py.fmul v (Py.float_of_int scale))
        /\ (Qabs (inject_Z (SensorUnit.mm_to_int s value) - v * inject_Z scale)
            < 1 + (1 # 2 ^ 34))%Q)
  /\ -99999 <= SensorUnit.mm_to_int s value <= 99999
  /\ String.length (Py.fmt_p010d (SensorUnit.mm_to_int s value)) = 10%nat.
Proof.
  intros Hb Hd scale.
  assert (forall v, (SensorUnit.upper_bound s < v)%Q ->
            SensorUnit.mm_to_int s (Some v) = 99999) as Hover.
  { intros v Hv. unfold SensorUnit.mm_to_int.
    now assert (Py.gt v (SensorUnit.upper_bound s) = true) as -> by now apply gt_true. }
  assert (forall v, (v < SensorUnit.lower_bound s)%Q ->
            SensorUnit.mm_to_int s (Some v) = -99999) as Hunder.
  { intros v Hv. unfold SensorUnit.mm_to_int.
    assert (Py.gt v (SensorUnit.upper_bound s) = false) as ->.
    { apply gt_false. apply Qlt_le_weak. eapply Qlt_le_trans; [exact Hv |].
      now apply bounds_ordered. }
    now assert (Py.lt v (SensorUnit.lower_bound s) = true) as -> by now apply lt_true. }
  assert (-99999 <= SensorUnit.mm_to_int s value <= 99999) as Hrange.
  { destruct value as [v|]; [| simpl; lia].
    destruct (Qlt_le_dec (SensorUnit.upper_bound s) v) as [Hv | Hv].
    { rewrite Hover by exact Hv. lia. }
    destruct (Qlt_le_dec v (SensorUnit.lower_bound s)) as [Hv' | Hv'].
    { rewrite Hunder by exact Hv'. lia. }
    now apply mm_to_int_in_range. }
  split; [now intros -> |].
  split; [intros v -> Hv; now apply Hover |].
  split; [intros v -> Hv; now apply Hunder |].
  split.
  { intros v -> Hlo Hhi.
    destruct (mm_to_int_in_range s v Hb Hd Hlo Hhi) as (E & _ & N). split; assumption. }
  split; [exact Hrange |].
  apply fmt_p010d_length. lia.
Qed.

Lemma bounds_derived_init iv d th tl st au al now :
  Spec.bounds_derived (Factory.init iv d th tl st au al now).
Proof. split; reflexivity. Qed.

Lemma C10_witness :
  let s := Factory.create_IL_030 0 in
  let v := Py.true_div 19 1000 in
  Spec.bounds_derived s
  /\ (SensorUnit.decimal_position s <= 308)%nat
  /\ SensorUnit.mm_to_int s None = -99998
  /\ SensorUnit.mm_to_int s (Some v) = 19
  /\ -99999 <= SensorUnit.mm_to_int s (Some 1000%Q) <= 99999
  /\ String.length (Py.fmt_p010d (SensorUnit.mm_to_int s (Some (-1000)%Q))) = 10%nat.
Proof.
  intros s v. pose proof (bounds_derived_init (Some 0%Q) 3 5 (-5) 0 10 (-10) 0) as Hb.
  assert (SensorUnit.decimal_position s <= 308)%nat as Hd by (vm_compute; lia).
  split; [exact Hb |]. split; [exact Hd |].
  split; [now apply (C10_mm_to_int_total_and_bounded s None Hb Hd) |].
  split.
  { destruct (C10_mm_to_int_total_and_bounded s (Some v) Hb Hd) as (_ & _ & _ & H & _).
    destruct (H v eq_refl) as [E _]; [vm_compute; discriminate | vm_compute; discriminate |].
    rewrite E. vm_compute. reflexivity. }
  split; [apply (C10_mm_to_int_total_and_bounded s (Some 1000%Q) Hb Hd) |].
  apply (C10_mm_to_int_total_and_bounded s (Some (-1000)%Q) Hb Hd).
Defined.

(** C10, the claim as written fails on the float that is no number: the
    comparisons with the bounds are both false on a NaN, and [int()] of the
    product raises [ValueError], so that [mm_to_int] does not return.  On
    the binary64 numbers of the interpreter, with [None] for the
    exception: *)
Lemma C10_counterexample :
  PrimFloat.ltb (Binary64.int_to_mm 3 99999) PrimFloat.nan = false
  /\ PrimFloat.ltb PrimFloat.nan (Binary64.int_to_mm 3 (-99999)) = false
  /\ Binary64.trunc (PrimFloat.mul PrimFloat.nan (Binary64.of_int 1000)) = None
  /\ Binary64.codec_mm_to_int 3 (Some PrimFloat.nan) = None.
Proof. repeat split; vm_compute; reflexivity. Qed.

(** * The judgment value on the wire *)



(** * The fixed-point codec: round trip *)

(** C6, as the code has it: for a value [v] between [lower_bound] and
    [upper_bound] of an amplifier with the bounds of its constructor and a
    decimal position of at most 308, [mm_to_int(v)] is an integer of at
    most five digits less than [1 + 2 ** -34] from [v * 10**d], and
    [int_to_mm(mm_to_int(v))] is less than [1 + 2 ** -30] units of the
    last place [10 ** -d] from [v].  The value is cut, not rounded. *)
Theorem C6_codec_round_trip_within_one_unit (s : SensorUnit.t) (v : Q) :
  Spec.bounds_derived s -> (SensorUnit.decimal_position s <= 308)%nat ->
  (SensorUnit.lower_bound s <= v)%Q -> (v <= SensorUnit.upper_bound s)%Q ->
  let scale := 10 ^ Z.of_nat (SensorUnit.decimal_position s) in
  let k := SensorUnit.mm_to_int s (Some v) in
  let r := SensorUnit.int_to_mm s k in
  k = Py.trunc (Py.fmul v (Py.float_of_int scale))
  /\ -99999 <= k <= 99999
  /\ (Qabs (inject_Z k - v * inject_Z scale) < 1 + (1 # 2 ^ 34))%Q
  /\ (Qabs (r - v) < (1 + (1 # 2 ^ 30)) / inject_Z scale)%Q.
Proof.
  intros Hb Hd Hlo Hhi scale k r.
  destruct (mm_to_int_in_range s v Hb Hd Hlo Hhi) as (E & R & N).
  fold scale in E, N. fold k in E, R, N.
  split; [exact E |]. split; [exact R |]. split; [exact N |].
  pose proof (int_to_mm_near _ k Hd R) as M. cbv zeta in M. fold scale in M.
  change (Py.true_div k scale) with r in M.
  destruct (scale_bounds _ Hd) as [HP _]. fold scale in HP.
  apply Qabs_Qlt_condition in N. apply Qabs_Qle_condition in M.
  assert ((1 # 2 ^ 35) + (1 + (1 # 2 ^ 34)) < 1 + (1 # 2 ^ 30))%Q as C by reflexivity.
  set (P := inject_Z scale) in *. set (K := inject_Z k) in *.
  set (k35 := (1 # 2 ^ 35)%Q) in *. set (k34 := (1 # 2 ^ 34)%Q) in *.
  set (k30 := (1 # 2 ^ 30)%Q) in *.
  destruct N as [N1 N2]. destruct M as [M1 M2].
  apply Qabs_Qlt_condition. split.
  - assert (- ((1 + k30) / P) == (- (1 + k30)) / P)%Q as -> by (field; lra).
    apply Qlt_shift_div_r; [lra |]. nra.
  - apply Qlt_shift_div_l; [lra |]. nra.
Qed.

Lemma C6_witness :
  let s := Factory.create_IL_030 0 in
  let v := Py.true_div 1001 1000 in
  Spec.bounds_derived s
  /\ (SensorUnit.decimal_position s <= 308)%nat
  /\ (SensorUnit.lower_bound s <= v)%Q
  /\ (v <= SensorUnit.upper_bound s)%Q
  /\ SensorUnit.mm_to_int s (Some v) = 1000
  /\ (Qabs (SensorUnit.int_to_mm s (SensorUnit.mm_to_int s (Some v)) - v)
      < (1 + (1 # 2 ^ 30)) / 1000)%Q.
Proof.
  intros s v. pose proof (bounds_derived_init (Some 0%Q) 3 5 (-5) 0 10 (-10) 0) as Hb.
  assert (SensorUnit.decimal_position s <= 308)%nat as Hd by (vm_compute; lia).
  assert (SensorUnit.lower_bound s <= v)%Q as Hlo by (vm_compute; discriminate).
  assert (v <= SensorUnit.upper_bound s)%Q as Hhi by (vm_compute; discriminate).
  split; [exact Hb |]. split; [exact Hd |]. split; [exact Hlo |]. split; [exact Hhi |].
  destruct (C6_codec_round_trip_within_one_unit s v Hb Hd Hlo Hhi) as (E & _ & _ & H).
  split; [rewrite E; vm_compute; reflexivity | exact H].
Defined.

(** C6, the claim as written fails: on an IL-030 (three decimal places)
    the value 1/1024 = 0.0009765625, a float, lies within the bounds and
    [round(0.0009765625, 3)] is 0.001, while
    [int_to_mm(mm_to_int(0.0009765625))] is 0. *)
Lemma C6_counterexample :
  let s := Factory.create_IL_030 0 in
  let v := (1 # 1024)%Q in
  (SensorUnit.lower_bound s <= v)%Q
  /\ (v <= SensorUnit.upper_bound s)%Q
  /\ Py.float_round v = v
  /\ SensorUnit.mm_to_int s (Some v) = 0
  /\ SensorUnit.int_to_mm s (SensorUnit.mm_to_int s (Some v)) = 0%Q
  /\ Spec.round v (SensorUnit.decimal_position s) = Py.true_div 1 1000
  /\ Qeq_bool (SensorUnit.int_to_mm s (SensorUnit.mm_to_int s (Some v)))
       (Spec.round v (SensorUnit.decimal_position s)) = false.
Proof.
  intros s v. repeat split; try (vm_compute; reflexivity); vm_compute; discriminate.
Qed.

(** On the binary64 numbers of the interpreter the same input gives the
    same integer: it is cut to 0, not rounded to 1. *)
Lemma mm_to_int_binary64_truncates :
  Binary64.codec_mm_to_int 3 (Some 0.0009765625%float) = Some 0
  /\ Binary64.codec_mm_to_int 3 (Some 0.001953125%float) = Some 1
  /\ Binary64.codec_mm_to_int 3 (Some (-0.0029296875)%float) = Some (-2).
Proof. repeat split; vm_compute; reflexivity. Qed.

(** The product [value * 10 ** d] can fall just below the integer that
    exact arithmetic gives, so that decoding and encoding an integer does
    not always give it back: 1001 comes back as 1000 at three decimal
    places, on the binary64 numbers and in the embedding alike. *)
Lemma codec_binary64_slips :
  Binary64.codec_mm_to_int 3 (Some (Binary64.int_to_mm 3 1001)) = Some 1000
  /\ Binary64.codec_mm_to_int 2 (Some (Binary64.int_to_mm 2 29)) = Some 28
  /\ Binary64.codec_mm_to_int 3 (Some (Binary64.int_to_mm 3 1000)) = Some 1000
  /\ (let s := Factory.create_IL_030 0 in
      SensorUnit.mm_to_int s (Some (SensorUnit.int_to_mm s 1001)) = 1000)
  /\ (let s := Factory.create_IL_300 0 in
      SensorUnit.mm_to_int s (Some (SensorUnit.int_to_mm s 29)) = 28).
Proof. repeat split; vm_compute; reflexivity. Qed.

(** The rationals of the embedding are the binary64 numbers of the
    interpreter: on every integer of the listed ranges, [int_to_mm] gives
    the same number and [mm_to_int(int_to_mm(n))] the same integer in
    both. *)
Lemma codec_agrees_with_binary64 :
  forallb (Binary64.agrees 3) (Binary64.range (-1100) 2201) = true
  /\ forallb (Binary64.agrees 2) (Binary64.range (-300) 601) = true
  /\ forallb (Binary64.agrees 3) (Binary64.range 99000 1000) = true
  /\ forallb (fun d => Binary64.agrees d 99999 && Binary64.agrees d (-99999)
                       && Binary64.agrees d 12345 && Binary64.agrees d 19)
       (seq 0 19) = true.
Proof. repeat split; vm_compute; reflexivity. Qed.

(** * Banks and zero shift *)

(** C5, what the code does: the property [active_bank_index] never raises
    and returns the stored [active_bank_setting] whatever the external
    inputs are; the active bank, the thresholds, the shift target and
    register 043 are those of the stored setting. *)
Theorem C5_active_bank_index_is_stored_setting (s : SensorUnit.t) :
  SensorUnit.active_bank_index_checked s = Some (SensorUnit.active_bank_setting s)
  /\ SensorUnit.active_bank_index s = SensorUnit.active_bank_setting s
  /\ SensorUnit.active_bank s = SensorUnit.get_bank s (SensorUnit.active_bank_setting s)
  /\ SensorUnit.handle_read s 43
     = SensorUnit.Return
         (SensorUnit.IntValue (BANK_INDEX.value (SensorUnit.active_bank_setting s))).
Proof.
  split; [| split; [| split]]; try reflexivity.
  unfold SensorUnit.active_bank_index_checked, SensorUnit.bank_index.
  destruct (SensorUnit.switch_banks_via_external_input s); [| reflexivity].
  destruct (SensorUnit.bank_b s), (SensorUnit.bank_a s); reflexivity.
Qed.

(** C5, the failing input: an IL-030 that switches banks by the external
    inputs, with user settings in use, input 1 assigned to bank A and
    high, and the stored bank setting 0.  Bank A is high and bank B low,
    so that [2 * bank_b + bank_a] is 1, while the property, register 043
    and the thresholds are those of bank 0. *)
Lemma C5_failing_input :
  let s :=
    SensorUnit.with_external_input_1 true
      (SensorUnit.with_external_input_1_setting ExternalInput1Setting.BANK_A
        (SensorUnit.with_external_input_use_user_settings true
          (SensorUnit.with_switch_banks_via_external_input true
            (SensorUnit.update_bank BANK_INDEX.B1 (Bank.with_threshold_high 7)
              (Factory.create_IL_030 0))))) in
  SensorUnit.switch_banks_via_external_input s = true
  /\ SensorUnit.external_input_use_user_settings s = true
  /\ SensorUnit.bank_a s = true
  /\ SensorUnit.bank_b s = false
  /\ SensorUnit.bank_index s = 1
  /\ SensorUnit.active_bank_index_checked s = Some BANK_INDEX.B0
  /\ SensorUnit.handle_read s 43 = SensorUnit.Return (SensorUnit.IntValue 0)
  /\ SensorUnit.threshold_high s = 5%Q
  /\ Bank.threshold_high (SensorUnit.get_bank s BANK_INDEX.B1) = 7%Q.
Proof. intros s. repeat split; vm_compute; reflexivity. Qed.

(** C8, what the code does: writing 1 to register 001 always returns.
    With a raw value present it leaves [zero_shifting_result] at
    [NORMAL_TERMINATION] and makes the raw value the shift target of the
    active bank.  With the raw value absent it leaves
    [zero_shifting_result] at [ABNORMAL_TERMINATION] and the banks as they
    were, and raises nothing. *)
Theorem C8_write_001_zero_shift_execution (s : SensorUnit.t) (now : Q) :
  exists s',
    SensorUnit.handle_write s 1 1 now = (SensorUnit.Return tt, s')
    /\ SensorUnit.active_bank_index s' = SensorUnit.active_bank_index s
    /\ match SensorUnit._raw_value s with
       | Some raw =>
           SensorUnit.zero_shifting_result s' = OperationResult.NORMAL_TERMINATION
           /\ SensorUnit.shift_target s' = raw
       | None =>
           SensorUnit.zero_shifting_result s' = OperationResult.ABNORMAL_TERMINATION
           /\ SensorUnit.banks s' = SensorUnit.banks s
       end.
Proof.
  rewrite handle_write_below by lia.
  change (SensorUnit.write_mapping !! 1)
    with (Some SensorUnit.write_001_zero_shift_execution_request).
  cbn [SensorUnit.call_write]. unfold SensorUnit.write_001. cbn [Z.eqb Pos.eqb negb].
  unfold SensorUnit.raw_value.
  destruct s; cbn. destruct _raw_value as [raw |]; cbn; eexists; (split; [reflexivity |]).
  - unfold SensorUnit.change_shift_target, SensorUnit.start_eeprom_write,
      SensorUnit.shift_target, SensorUnit.active_bank, SensorUnit.active_bank_index,
      SensorUnit.index_or_active, SensorUnit.get_bank, SensorUnit.update_bank; cbn.
    destruct banks as [[[b0 b1] b2] b3]; destruct active_bank_setting; cbn;
      destruct zero_shift_saved_in_memory; cbn;
      try (destruct _next_eeprom_write; cbn; try destruct (Py.lt _ _)); cbn; auto.
  - auto.
Qed.

(** C8, the failing input: a bus with one IL-030 whose raw value is
    absent receives [SW,01,001,+000000001].  The claim has the command fail
    with error 012; the code sets [zero_shifting_result] to
    [ABNORMAL_TERMINATION] and answers with the success reply. *)
Lemma C8_failing_input :
  let sensor := Factory.init None 3 5 (-5) 0 10 (-10) 0 in
  let bus := CommunicationUnit.mk [sensor] DLEN1Error.NO_ERROR false in
  let line := "SW,01,001,+000000001" +:+ Py.CRLF in
  SensorUnit._raw_value sensor = None
  /\ Spec.Command "SW" line
  /\ (CommunicationUnit.handle_query bus line 0).1
     = SensorUnit.Return ("SW,01,001" +:+ Py.CRLF)
  /\ (CommunicationUnit.handle_query bus line 0).1
     <> SensorUnit.Return (Spec.ER "SW" "012")
  /\ (exists sensor',
        CommunicationUnit.connected_sensors (CommunicationUnit.handle_query bus line 0).2
          = [sensor']
        /\ SensorUnit.zero_shifting_result sensor' = OperationResult.ABNORMAL_TERMINATION
        /\ SensorUnit.banks sensor' = SensorUnit.banks sensor)
  /\ (SensorUnit.handle_write sensor 1 1 0).1 = SensorUnit.Return tt.
Proof.
  intros sensor bus line.
  split; [reflexivity |]. split.
  { apply (Spec.Command_SW "01" "001" "+000000001").
    - split; reflexivity.
    - split; reflexivity.
    - exists "+"%char, "000000001"%string. repeat split; auto. }
  split; [vm_compute; reflexivity |].
  split; [vm_compute; discriminate |].
  split; [| vm_compute; reflexivity].
  eexists. split; [vm_compute; reflexivity |]. split; reflexivity.
Qed.

(** * The EEPROM scheduler *)














(** * Fixed-width digit strings *)

Lemma is_digit_range c : Py.is_digit c = true -> 0 <= Py.digit_value c < 10.
Proof.
  unfold Py.is_digit, Py.digit_value. cbv zeta.
  rewrite andb_true_iff, !Nat.leb_le. lia.
Qed.

Lemma digit_value_inj c c' : Py.digit_value c = Py.digit_value c' -> c = c'.
Proof.
  unfold Py.digit_value. intros H.
  rewrite <- (ascii_nat_embedding c), <- (ascii_nat_embedding c'). f_equal. lia.
Qed.

Lemma digits_value_bound (s : string) :
  Py.all_chars Py.is_digit s = true ->
  0 <= Py.digits_value s 0 < 10 ^ Z.of_nat (String.length s).
Proof.
  induction s as [|c s IH]; [simpl; lia |].
  cbn [Py.all_chars Py.digits_value String.length]. rewrite andb_true_iff. intros [Hc Hs].
  rewrite digits_value_acc. apply is_digit_range in Hc. specialize (IH Hs).
  rewrite Nat2Z.inj_succ, Z.pow_succ_r by lia. nia.
Qed.

(** Two digit strings of the same length that denote the same number are
    the same string. *)
Lemma digit_strings_unique (a : string) : forall b : string,
  String.length a = String.length b ->
  Py.all_chars Py.is_digit a = true -> Py.all_chars Py.is_digit b = true ->
  Py.digits_value a 0 = Py.digits_value b 0 -> a = b.
Proof.
  induction a as [|c a IH]; intros [|c' b]; try discriminate; [reflexivity |].
  cbn [Py.all_chars Py.digits_value String.length]. rewrite !andb_true_iff.
  intros [= Hlen] [Hc Ha] [Hc' Hb]. rewrite (digits_value_acc a), (digits_value_acc b).
  rewrite <- Hlen. intros Hv.
  pose proof (digits_value_bound a Ha) as Ba. pose proof (digits_value_bound b Hb) as Bb.
  rewrite <- Hlen in Bb. apply is_digit_range in Hc, Hc'.
  set (P := 10 ^ Z.of_nat (String.length a)) in *.
  assert (Py.digit_value c = Py.digit_value c') as Hd by nia.
  f_equal; [now apply digit_value_inj |].
  apply IH; try assumption. rewrite Hd in Hv. lia.
Qed.

Lemma int_digits (ds : string) :
  (1 <= String.length ds)%nat -> Py.all_chars Py.is_digit ds = true ->
  Py.int ds = Some (Py.digits_value ds 0).
Proof.
  intros Hl H. rewrite <- (int_unsigned ds Hl H).
  destruct ds as [|c ds]; [reflexivity |].
  assert (Py.is_digit c = true) as Hc.
  { cbn [Py.all_chars] in H. now apply andb_true_iff in H as [? _]. }
  destruct c as [[] [] [] [] [] [] [] []]; try discriminate Hc; reflexivity.
Qed.

(** A field of exactly [w] digits is read by [int] and written back by
    [f"{n:0>w}"] as it was. *)
Lemma fmt_0r_int (w : nat) (ds : string) :
  (1 <= w)%nat -> Spec.digits_n w ds ->
  exists n, Py.int ds = Some n /\ 0 <= n /\ Py.fmt_0r w n = ds.
Proof.
  intros Hw [Hlen Hall]. exists (Py.digits_value ds 0).
  pose proof (digits_value_bound ds Hall) as B. rewrite Hlen in B.
  split; [apply int_digits; [lia | exact Hall] |]. split; [lia |].
  destruct (fmt_0r_spec w (Py.digits_value ds 0) Hw B) as (L & A & V).
  apply digit_strings_unique; congruence.
Qed.

(** A field of the grammar, parsed. *)
Lemma field_parse (w : nat) (ds : string) :
  (1 <= w)%nat -> Spec.digits_n w ds ->
  Py.int ds = Some (Py.digits_value ds 0)
  /\ Py.fmt_0r w (Py.digits_value ds 0) = ds
  /\ 0 <= Py.digits_value ds 0 < 10 ^ Z.of_nat w.
Proof.
  intros Hw H. destruct (fmt_0r_int w ds Hw H) as (n & Hn & _ & F).
  pose proof (int_digits ds ltac:(destruct H as [-> _]; lia) (proj2 H)) as Hi.
  rewrite Hi in Hn. injection Hn as <-.
  split; [exact Hi |]. split; [exact F |].
  destruct H as [L A]. rewrite <- L. now apply digits_value_bound.
Qed.

Lemma int_sv10 (sv : string) :
  Spec.sv10 sv -> exists n, Py.int sv = Some n /\ Z.abs n < 10 ^ 9.
Proof.
  intros (c & ds & -> & Hc & H9).
  destruct (field_parse 9 ds ltac:(lia) H9) as (_ & _ & B).
  change (Z.of_nat 9) with 9 in B.
  destruct H9 as [L A].
  destruct ds as [| d ds]; [discriminate L |].
  destruct Hc as [-> | ->].
  - exists (Py.digits_value (String d ds) 0). split; [| lia].
    cbn [Py.int]. now apply decimal_value_digits.
  - exists (- Py.digits_value (String d ds) 0). split; [| lia].
    cbn [Py.int]. now rewrite decimal_value_digits.
Qed.

Lemma sv10_fmt_p010d n : Z.abs n < 10 ^ 9 -> Spec.sv10 (Py.fmt_p010d n).
Proof.
  intros Hn. destruct (fmt_p010d_spec n) as (ds & -> & Hall & _ & _ & Hlen).
  eexists _, ds. split; [reflexivity |]. split.
  - destruct (n <? 0); auto.
  - split; [now apply Hlen | exact Hall].
Qed.

(** * SR replies *)

Lemma SR_reply_length (id2 q3 field : string) :
  Spec.digits_n 2 id2 -> Spec.digits_n 3 q3 ->
  String.length ("SR," +:+ id2 +:+ "," +:+ q3 +:+ "," +:+ field +:+ Py.CRLF)
  = (12 + String.length field)%nat.
Proof.
  intros [L2 _] [L3 _]. rewrite !length_append, L2, L3. unfold Py.CRLF. simpl String.length. lia.
Qed.

Lemma handle_query_SR (self : CommunicationUnit.t) (id2 q3 : string) (now : Q) :
  Spec.digits_n 2 id2 -> Spec.digits_n 3 q3 ->
  internal_error self = DLEN1Error.NO_ERROR ->
  handle_query self ("SR," +:+ id2 +:+ "," +:+ q3 +:+ Py.CRLF) now
  = match response_SR self id2 q3 with
    | SensorUnit.Return reply => (SensorUnit.Return reply, self)
    | SensorUnit.Raise (Errors.Communication e) =>
        (SensorUnit.Return (error_reply "SR" (Errors.error_code e)), self)
    | SensorUnit.Raise e => (SensorUnit.Raise e, self)
    | SensorUnit.Leaves o => (SensorUnit.Leaves o, self)
    end.
Proof.
  intros H2 H3 He.
  destruct (Command_fullmatch "SR" _ (Spec.Command_SR id2 q3 H2 H3))
    as (Hd & Hp & m & Hm & Hg).
  unfold handle_query. rewrite Hd. cbv zeta. rewrite Hm, Hp, He. cbn [DLEN1Error.eqb negb].
  destruct m as [g1 g2 g3 g4 g5 g6 g7].
  destruct Hg as (Hg & _ & _). destruct (Hg eq_refl) as (i & q & -> & -> & Hi & Hq & E).
  assert (i = id2 /\ q = q3) as [-> ->].
  { clear - E Hi Hq H2 H3. rewrite !append_cons, !append_nil_l in E.
    injection E as E.
    destruct (digits_unique 2 i id2 _ _ Hi H2 (eq_sym E)) as [-> E'].
    injection E' as E'.
    destruct (digits_unique 3 q q3 _ _ Hq H3 E') as [-> _]. auto. }
  cbn. destruct (response_SR self id2 q3) as [r | [e | | |] | o]; reflexivity.
Qed.

(** C7, as the code has it.  For a request [SR,<id>,<data number>] with a
    two-digit id and a three-digit data number, the register read is that
    of the communication unit for id 00 and that of amplifier [id]
    otherwise.  When it returns the integer [n], the reply is the line
    [SR,<id>,<data number>,] followed by [f"{n:+010d}"] and CR LF, with the
    id and the data number as they were received; parsing the field gives
    [n] back; when [n] has at most nine digits the field is a sign with
    nine digits and the line has 22 characters, CR LF included, and
    otherwise the line is longer.  When the read returns a text, the text
    is the field.  When it raises, so does [response_SR], except that
    [NotImplementedError] becomes the text [NOT_IMPLEMENTED!].  On a
    communication unit without an error this is the reply of
    [handle_query]. *)
Theorem C7_SR_reply_format (self : CommunicationUnit.t) (id2 q3 : string) (now : Q) :
  Spec.digits_n 2 id2 -> Spec.digits_n 3 q3 ->
  let id := Py.digits_value id2 0 in
  let q := Py.digits_value q3 0 in
  let read : SensorUnit.Outcome SensorUnit.RegValue :=
    if id =? 0 then
      match handle_read self q with
      | SensorUnit.Return n => SensorUnit.Return (SensorUnit.IntValue n)
      | SensorUnit.Raise e => SensorUnit.Raise e
      | SensorUnit.Leaves o => SensorUnit.Leaves o
      end
    else
      match Py.getitem (connected_sensors self) (id - 1) with
      | Some sensor => SensorUnit.handle_read sensor q
      | None => SensorUnit.raise Errors.IDOutsideValidRangeError
      end in
  let line (field : string) := "SR," +:+ id2 +:+ "," +:+ q3 +:+ "," +:+ field +:+ Py.CRLF in
  (forall n, read = SensorUnit.Return (SensorUnit.IntValue n) ->
     response_SR self id2 q3 = SensorUnit.Return (line (Py.fmt_p010d n))
     /\ (internal_error self = DLEN1Error.NO_ERROR ->
         handle_query self ("SR," +:+ id2 +:+ "," +:+ q3 +:+ Py.CRLF) now
         = (SensorUnit.Return (line (Py.fmt_p010d n)), self))
     /\ Py.int (Py.fmt_p010d n) = Some n
     /\ (Z.abs n < 10 ^ 9 ->
         Spec.sv10 (Py.fmt_p010d n) /\ String.length (line (Py.fmt_p010d n)) = 22%nat)
     /\ (10 ^ 9 <= Z.abs n -> (22 < String.length (line (Py.fmt_p010d n)))%nat))
  /\ (forall text, read = SensorUnit.Return (SensorUnit.StrValue text) ->
        response_SR self id2 q3 = SensorUnit.Return (line text))
  /\ (forall e, read = SensorUnit.Raise e ->
        response_SR self id2 q3
        = match e with
          | Errors.NotImplementedError => SensorUnit.Return NOT_IMPLEMENTED
          | _ => SensorUnit.Raise e
          end)
  /\ (forall o, read = SensorUnit.Leaves o -> response_SR self id2 q3 = SensorUnit.Leaves o).
Proof.
  intros H2 H3 id q read line.
  destruct (field_parse 2 id2 ltac:(lia) H2) as (Hid & Fid & _).
  destruct (field_parse 3 q3 ltac:(lia) H3) as (Hq & Fq & _).
  fold id in Hid, Fid. fold q in Hq, Fq.
  assert (response_SR self id2 q3
          = match read with
            | SensorUnit.Return (SensorUnit.IntValue n) =>
                SensorUnit.Return (line (Py.fmt_p010d n))
            | SensorUnit.Return (SensorUnit.StrValue text) => SensorUnit.Return (line text)
            | SensorUnit.Raise Errors.NotImplementedError => SensorUnit.Return NOT_IMPLEMENTED
            | SensorUnit.Raise e => SensorUnit.Raise e
            | SensorUnit.Leaves o => SensorUnit.Leaves o
            end) as E.
  { unfold response_SR. rewrite Hid, Hq, Fid, Fq. subst read line. cbv beta.
    destruct (id =? 0).
    - destruct (handle_read self q) as [n | [e | | |] | o]; reflexivity.
    - destruct (Py.getitem (connected_sensors self) (id - 1)) as [sensor |]; [| reflexivity].
      destruct (SensorUnit.handle_read sensor q) as [[n | text] | [e | | |] | o];
        reflexivity. }
  rewrite E. split; [| split; [| split]].
  - intros n ->. split; [reflexivity |]. split.
    { intros He. rewrite (handle_query_SR self id2 q3 now H2 H3 He), E. reflexivity. }
    split; [apply int_fmt_p010d |]. split.
    + intros Hn. split; [now apply sv10_fmt_p010d |].
      subst line. cbv beta. rewrite SR_reply_length by assumption.
      now rewrite fmt_p010d_length.
    + intros Hn. subst line. cbv beta. rewrite SR_reply_length by assumption.
      destruct (fmt_p010d_spec n) as (ds & -> & Hall & Hv & Hlen & _).
      cbn [String.length].
      destruct (Nat.le_gt_cases (String.length ds) 9) as [Hle | Hgt]; [| lia].
      pose proof (digits_value_bound ds Hall) as B. rewrite Hv in B.
      assert (10 ^ Z.of_nat (String.length ds) <= 10 ^ 9)
        by (apply Z.pow_le_mono_r; lia).
      lia.
  - intros text ->. reflexivity.
  - intros e ->. destruct e as [e | | |]; reflexivity.
  - intros o ->. reflexivity.
Qed.

Lemma C7_witness :
  let bus := CommunicationUnit.mk [Factory.init None 3 5 (-5) 0 10 (-10) 0]
               DLEN1Error.NO_ERROR false in
  let reply := "SR,01,037,-000099998" +:+ Py.CRLF in
  Spec.digits_n 2 "01"
  /\ Spec.digits_n 3 "037"
  /\ response_SR bus "01" "037" = SensorUnit.Return reply
  /\ handle_query bus ("SR,01,037" +:+ Py.CRLF) 0 = (SensorUnit.Return reply, bus)
  /\ String.length reply = 22%nat.
Proof.
  intros bus reply.
  assert (Spec.digits_n 2 "01") as H2 by (split; reflexivity).
  assert (Spec.digits_n 3 "037") as H3 by (split; reflexivity).
  split; [exact H2 |]. split; [exact H3 |].
  destruct (C7_SR_reply_format bus "01" "037" 0 H2 H3) as (H & _).
  destruct (H (-99998)) as (R & Q & _ & L & _); [vm_compute; reflexivity |].
  split; [exact R |]. split; [exact (Q eq_refl) |].
  exact (proj2 (L ltac:(vm_compute; reflexivity))).
Defined.

(** C7, the claim as written fails.  A bus with one IL-030 at 0 mm answers
    [SR,01,037] with the line [SR,01,037,+000000000] and CR LF, which has
    22 characters, not 23.  And the field does not always pass the codec
    unchanged: with an error on the amplifier, register 044 of the
    communication unit reads +100000000, which the codec of the amplifier
    takes to 99999; and 1001 comes back from the codec as 1000. *)
Lemma C7_counterexample :
  let sensor := Factory.create_IL_030 0 in
  let bus := CommunicationUnit.mk [sensor] DLEN1Error.NO_ERROR false in
  let line := "SR,01,037" +:+ Py.CRLF in
  let reply := "SR,01,037,+000000000" +:+ Py.CRLF in
  let errored := SensorUnit.set_error ILError.Sensor_Head sensor in
  let bus' := CommunicationUnit.mk [errored] DLEN1Error.NO_ERROR false in
  Spec.Command "SR" line
  /\ handle_query bus line 0 = (SensorUnit.Return reply, bus)
  /\ String.length reply = 22%nat
  /\ Nat.eqb (String.length reply) 23 = false
  /\ (handle_query bus' ("SR,00,044" +:+ Py.CRLF) 0).1
     = SensorUnit.Return ("SR,00,044,+100000000" +:+ Py.CRLF)
  /\ SensorUnit.mm_to_int errored (Some (SensorUnit.int_to_mm errored 100000000)) = 99999
  /\ SensorUnit.mm_to_int sensor (Some (SensorUnit.int_to_mm sensor 1001)) = 1000.
Proof.
  intros sensor bus line reply errored bus'.
  split.
  { apply (Spec.Command_SR "01" "037"); split; reflexivity. }
  repeat split; vm_compute; reflexivity.
Qed.

(** * Further properties of the code *)

(** * Requests end to end *)

(** [handle_query] on an SR request of the grammar, with no error on the
    communication unit: the reply of [response_SR], a communication
    exception turned into its ER reply. *)
Lemma handle_query_FR (self : CommunicationUnit.t) (id2 q3 : string) (now : Q) :
  Spec.digits_n 2 id2 -> Spec.digits_n 3 q3 ->
  internal_error self = DLEN1Error.NO_ERROR ->
  handle_query self ("FR," +:+ id2 +:+ "," +:+ q3 +:+ Py.CRLF) now
  = match response_FR self id2 q3 with
    | SensorUnit.Return reply => (SensorUnit.Return reply, self)
    | SensorUnit.Raise (Errors.Communication e) =>
        (SensorUnit.Return (error_reply "FR" (Errors.error_code e)), self)
    | SensorUnit.Raise e => (SensorUnit.Raise e, self)
    | SensorUnit.Leaves o => (SensorUnit.Leaves o, self)
    end.
Proof.
  intros H2 H3 He.
  destruct (Command_fullmatch "FR" _ (Spec.Command_FR id2 q3 H2 H3))
    as (Hd & Hp & m & Hm & Hg).
  unfold handle_query. rewrite Hd. cbv zeta. rewrite Hm, Hp, He. cbn [DLEN1Error.eqb negb].
  destruct m as [g1 g2 g3 g4 g5 g6 g7].
  destruct Hg as (_ & _ & Hg). destruct (Hg eq_refl) as (i & q & -> & -> & Hi & Hq & E).
  assert (i = id2 /\ q = q3) as [-> ->].
  { clear - E Hi Hq H2 H3. rewrite !append_cons, !append_nil_l in E.
    injection E as E.
    destruct (digits_unique 2 i id2 _ _ Hi H2 (eq_sym E)) as [-> E'].
    injection E' as E'.
    destruct (digits_unique 3 q q3 _ _ Hq H3 E') as [-> _]. auto. }
  cbn. destruct (response_FR self id2 q3) as [r | [e | | |] | o]; reflexivity.
Qed.

Lemma sv10_append_inj (sv sv' r r' : string) :
  Spec.sv10 sv -> Spec.sv10 sv' -> sv +:+ r = sv' +:+ r' -> sv = sv' /\ r = r'.
Proof.
  intros (c & ds & -> & _ & H) (c' & ds' & -> & _ & H').
  rewrite !append_cons. intros [= -> E].
  destruct (digits_unique 9 ds ds' _ _ H H' E) as [-> ->]. auto.
Qed.

Lemma handle_query_SW (self : CommunicationUnit.t) (id2 q3 sv : string) (now : Q) :
  Spec.digits_n 2 id2 -> Spec.digits_n 3 q3 -> Spec.sv10 sv ->
  internal_error self = DLEN1Error.NO_ERROR ->
  handle_query self ("SW," +:+ id2 +:+ "," +:+ q3 +:+ "," +:+ sv +:+ Py.CRLF) now
  = match response_SW self id2 q3 sv now with
    | (SensorUnit.Return reply, self) => (SensorUnit.Return reply, self)
    | (SensorUnit.Raise (Errors.Communication e), self) =>
        (SensorUnit.Return (error_reply "SW" (Errors.error_code e)), self)
    | (SensorUnit.Raise e, self) => (SensorUnit.Raise e, self)
    | (SensorUnit.Leaves o, self) => (SensorUnit.Leaves o, self)
    end.
Proof.
  intros H2 H3 H4 He.
  destruct (Command_fullmatch "SW" _ (Spec.Command_SW id2 q3 sv H2 H3 H4))
    as (Hd & Hp & m & Hm & Hg).
  unfold handle_query. rewrite Hd. cbv zeta. rewrite Hm, Hp, He. cbn [DLEN1Error.eqb negb].
  destruct m as [g1 g2 g3 g4 g5 g6 g7].
  destruct Hg as (_ & Hg & _).
  destruct (Hg eq_refl) as (i & q & v & -> & -> & -> & Hi & Hq & Hv & E).
  assert (i = id2 /\ q = q3 /\ v = sv) as (-> & -> & ->).
  { clear - E Hi Hq Hv H2 H3 H4. rewrite !append_cons, !append_nil_l in E.
    injection E as E.
    destruct (digits_unique 2 i id2 _ _ Hi H2 (eq_sym E)) as [-> E'].
    injection E' as E'.
    destruct (digits_unique 3 q q3 _ _ Hq H3 E') as [-> E''].
    injection E'' as E''.
    destruct (sv10_append_inj v sv _ _ Hv H4 E'') as [-> _]. auto. }
  cbn. destruct (response_SW self id2 q3 sv now) as [[r | [e | | |] | o] self']; reflexivity.
Qed.

Lemma getitem_absent {A} (l : list A) (i : Z) :
  Z.of_nat (length l) <= i -> Py.getitem l i = None.
Proof.
  intros H. unfold Py.getitem.
  destruct (Z.leb_spec 0 i); [| lia].
  apply lookup_ge_None. lia.
Qed.

Lemma getitem_present {A} (l : list A) (i : Z) :
  0 <= i < Z.of_nat (length l) -> Py.getitem l i = l !! Z.to_nat i /\ is_Some (l !! Z.to_nat i).
Proof.
  intros H. unfold Py.getitem.
  destruct (Z.leb_spec 0 i); [| lia].
  split; [reflexivity |]. apply lookup_lt_is_Some. lia.
Qed.

Lemma handle_query_system_error (self : CommunicationUnit.t) (cmd line : string) (now : Q) :
  Spec.Command cmd line ->
  bus_error self = true ->
  handle_query self line now = (SensorUnit.Return (Spec.ER cmd "254"), self).
Proof.
  intros Hc He. apply Command_fullmatch in Hc as (Hd & Hp & m & Hm & _).
  unfold handle_query. rewrite Hd, Hm, Hp. unfold bus_error in He. rewrite He. reflexivity.
Qed.

(** X1.  The system error state covers every command: with an error on the
    communication unit, a request of the grammar for M0, MS, SR, SW or FR
    alike is answered by [ER,<cmd>,254]; no amplifier value is perturbed
    and no register is touched. *)
Theorem bus_error_answers_every_command
    (self : CommunicationUnit.t) (cmd line : string) (now : Q) :
  Spec.Command cmd line ->
  bus_error self = true ->
  handle_query self line now = (SensorUnit.Return (Spec.ER cmd "254"), self)
  /\ String.length (Spec.ER cmd "254") = 11%nat.
Proof.
  intros Hc He. split.
  - now apply handle_query_system_error.
  - destruct Hc; reflexivity.
Qed.

Lemma bus_error_answers_every_command_witness :
  let self := CommunicationUnit.mk [Factory.create_IL_030 0] DLEN1Error.ERROR_100 false in
  Spec.Command "M0" ("M0" +:+ Py.CRLF)
  /\ bus_error self = true
  /\ handle_query self ("M0" +:+ Py.CRLF) 0
     = (SensorUnit.Return ("ER,M0,254" +:+ Py.CRLF), self).
Proof.
  intros self. split; [constructor |]. split; [reflexivity |].
  apply (bus_error_answers_every_command self "M0" _ 0); [constructor | reflexivity].
Defined.

(** X2.  FR: the reply is the decimal position of the addressed amplifier,
    whatever the data number; id 00 and an id beyond the connected
    amplifiers are error 022.  The communication unit is left as it was. *)
Theorem FR_reads_decimal_position
    (self : CommunicationUnit.t) (id2 q3 : string) (now : Q) :
  Spec.digits_n 2 id2 -> Spec.digits_n 3 q3 ->
  internal_error self = DLEN1Error.NO_ERROR ->
  let id := Py.digits_value id2 0 in
  handle_query self ("FR," +:+ id2 +:+ "," +:+ q3 +:+ Py.CRLF) now
  = (SensorUnit.Return
       (if (1 <=? id) && (id <=? Z.of_nat (length (connected_sensors self))) then
          match connected_sensors self !! Z.to_nat (id - 1) with
          | Some sensor =>
              "FR," +:+ id2 +:+ "," +:+ q3 +:+ ","
                +:+ Py.fmt_p010d (Z.of_nat (SensorUnit.decimal_position sensor)) +:+ Py.CRLF
          | None => Spec.ER "FR" "022"
          end
        else Spec.ER "FR" "022"),
     self).
Proof.
  intros H2 H3 He id. rewrite handle_query_FR by assumption.
  destruct (fmt_0r_int 2 id2 ltac:(lia) H2) as (n & Hid & Hn0 & Fid).
  destruct (fmt_0r_int 3 q3 ltac:(lia) H3) as (q & Hq & Hq0 & Fq).
  assert (n = id) as ->.
  { pose proof (int_digits id2 ltac:(destruct H2 as [-> _]; lia) (proj2 H2)) as Hi.
    rewrite Hi in Hid. now injection Hid. }
  unfold response_FR. rewrite Hid, Hq, Fid, Fq.
  destruct (Z.eqb_spec id 0) as [E0 | E0].
  - rewrite E0. reflexivity.
  - destruct (Z.leb_spec 1 id); [| lia].
    destruct (Z.leb_spec id (Z.of_nat (length (connected_sensors self)))); cbn [andb].
    + destruct (getitem_present (connected_sensors self) (id - 1)) as [-> [sensor ->]];
        [lia | reflexivity].
    + rewrite getitem_absent by lia. reflexivity.
Qed.

Lemma FR_reads_decimal_position_witness :
  let self := CommunicationUnit.mk [Factory.create_IL_030 0; Factory.create_IL_300 0]
                DLEN1Error.NO_ERROR false in
  Spec.digits_n 2 "02" /\ Spec.digits_n 3 "999"
  /\ internal_error self = DLEN1Error.NO_ERROR
  /\ handle_query self ("FR,02,999" +:+ Py.CRLF) 0
     = (SensorUnit.Return ("FR,02,999,+000000002" +:+ Py.CRLF), self).
Proof.
  intros self.
  assert (Spec.digits_n 2 "02") as H2 by (split; reflexivity).
  assert (Spec.digits_n 3 "999") as H3 by (split; reflexivity).
  split; [exact H2 |]. split; [exact H3 |]. split; [reflexivity |].
  exact (FR_reads_decimal_position self "02" "999" 0 H2 H3 eq_refl).
Defined.

Lemma bus_error_false (self : CommunicationUnit.t) :
  bus_error self = false -> internal_error self = DLEN1Error.NO_ERROR.
Proof.
  unfold bus_error. intros H. apply DLEN1Error_eqb_eq.
  now destruct (DLEN1Error.eqb _ _).
Qed.

(** X3.  A request for an amplifier that is not connected: an SR or SW request
    whose id is beyond the number of connected amplifiers is answered by
    error 022, and nothing changes. *)
Theorem absent_amplifier_is_error_022
    (self : CommunicationUnit.t) (id2 q3 sv : string) (now : Q) :
  Spec.digits_n 2 id2 -> Spec.digits_n 3 q3 -> Spec.sv10 sv ->
  internal_error self = DLEN1Error.NO_ERROR ->
  Z.of_nat (length (connected_sensors self)) < Py.digits_value id2 0 ->
  handle_query self ("SR," +:+ id2 +:+ "," +:+ q3 +:+ Py.CRLF) now
  = (SensorUnit.Return (Spec.ER "SR" "022"), self)
  /\ handle_query self ("SW," +:+ id2 +:+ "," +:+ q3 +:+ "," +:+ sv +:+ Py.CRLF) now
     = (SensorUnit.Return (Spec.ER "SW" "022"), self).
Proof.
  intros H2 H3 H4 He Hid.
  destruct (field_parse 2 id2 ltac:(lia) H2) as (Ii & _ & _).
  destruct (field_parse 3 q3 ltac:(lia) H3) as (Iq & _ & _).
  destruct (int_sv10 sv H4) as (v & Iv & _).
  set (id := Py.digits_value id2 0) in *.
  assert ((id =? 0) = false) as E0 by (apply Z.eqb_neq; lia).
  split.
  - rewrite handle_query_SR by assumption. unfold response_SR.
    rewrite Ii, Iq, E0, getitem_absent by lia. reflexivity.
  - rewrite handle_query_SW by assumption. unfold response_SW.
    rewrite Ii, Iq, Iv, E0, getitem_absent by lia. reflexivity.
Qed.

Lemma absent_amplifier_is_error_022_witness :
  let self := CommunicationUnit.mk [Factory.create_IL_030 0] DLEN1Error.NO_ERROR false in
  Spec.digits_n 2 "02" /\ Spec.digits_n 3 "037" /\ Spec.sv10 "+000000001"
  /\ Z.of_nat (length (connected_sensors self)) < Py.digits_value "02" 0
  /\ handle_query self ("SR,02,037" +:+ Py.CRLF) 0
     = (SensorUnit.Return ("ER,SR,022" +:+ Py.CRLF), self).
Proof.
  intros self.
  assert (Spec.digits_n 2 "02") as H2 by (split; reflexivity).
  assert (Spec.digits_n 3 "037") as H3 by (split; reflexivity).
  assert (Spec.sv10 "+000000001") as H4.
  { exists "+"%char, "000000001"%string. repeat split; auto. }
  split; [exact H2 |]. split; [exact H3 |]. split; [exact H4 |].
  split; [reflexivity |].
  exact (proj1 (absent_amplifier_is_error_022 self "02" "037" "+000000001" 0
                  H2 H3 H4 eq_refl eq_refl)).
Defined.

(** X4.  SR and FR only read: whatever the request of these two commands and
    whatever it is answered, the communication unit and its amplifiers
    are afterwards as they were before. *)
Theorem reads_leave_the_bus_unchanged
    (self : CommunicationUnit.t) (cmd line : string) (now : Q) :
  Spec.Command cmd line ->
  cmd = "SR"%string \/ cmd = "FR"%string ->
  (handle_query self line now).2 = self.
Proof.
  intros Hc Hcmd.
  destruct (bus_error self) eqn:Eb.
  { now rewrite (handle_query_system_error self cmd line now Hc Eb). }
  apply bus_error_false in Eb.
  destruct Hc as [| | id2 q3 H2 H3 | id2 q3 sv H2 H3 H4 | id2 q3 H2 H3];
    try (destruct Hcmd; discriminate).
  - rewrite handle_query_SR by assumption.
    destruct (response_SR self id2 q3) as [r | [e | | |] | o]; reflexivity.
  - rewrite handle_query_FR by assumption.
    destruct (response_FR self id2 q3) as [r | [e | | |] | o]; reflexivity.
Qed.

Lemma reads_leave_the_bus_unchanged_witness :
  let self := CommunicationUnit.mk [Factory.create_IL_030 0] DLEN1Error.NO_ERROR false in
  Spec.Command "SR" ("SR,01,036" +:+ Py.CRLF)
  /\ (handle_query self ("SR,01,036" +:+ Py.CRLF) 0).2 = self.
Proof.
  intros self.
  assert (Spec.Command "SR" ("SR,01,036" +:+ Py.CRLF)) as Hc.
  { apply (Spec.Command_SR "01" "036"); split; reflexivity. }
  split; [exact Hc |].
  exact (reads_leave_the_bus_unchanged self "SR" _ 0 Hc (or_introl eq_refl)).
Defined.

(** * The register file of the communication unit *)




Lemma dom_keys {A} (m : gmap Z A) (q : Z) :
  q ∈ dom m <-> q ∈ (map_to_list m).*1.
Proof.
  rewrite elem_of_dom, list_elem_of_fmap. split.
  - intros [x Hx]. exists (q, x). split; [reflexivity | now apply elem_of_map_to_list].
  - intros ([k x] & -> & H). exists x. now apply elem_of_map_to_list in H.
Qed.

Lemma CU_readable (q : Z) :
  q ∈ dom read_mapping
  <-> q ∈ [0; 1; 2; 4; 8; 9; 10; 11; 16; 17; 18; 19; 20; 38; 39; 40; 76; 77; 668]
      \/ 44 <= q <= 58 \/ 669 <= q <= 683.
Proof.
  rewrite dom_keys.
  let l := eval vm_compute in ((map_to_list read_mapping).*1) in
  change ((map_to_list read_mapping).*1) with l.
  rewrite !elem_of_cons, !elem_of_nil. lia.
Qed.

Lemma CU_writable (q : Z) : q ∈ dom write_mapping <-> q = 76.
Proof.
  rewrite dom_keys.
  let l := eval vm_compute in ((map_to_list write_mapping).*1) in
  change ((map_to_list write_mapping).*1) with l.
  rewrite !elem_of_cons, !elem_of_nil. lia.
Qed.

Lemma CU_76_readable : read_mapping !! 76 <> None.
Proof.
  apply not_eq_None_Some, elem_of_dom, CU_readable. left.
  rewrite !elem_of_cons, elem_of_nil. lia.
Qed.

(** X6.  The register file of the communication unit.  A data number above
    1179 is error 020.  The readable data numbers are 0, 1, 2, 4, 8 to 11,
    16 to 20, 38 to 40, 44 to 58, 76, 77 and 668 to 683; the only writable
    one is 76, which is readable too, so that a read never ends with error
    016: below the limit, a read of another data number is error 031, and
    a write to a data number other than 76 is error 014 on a readable one
    and error 031 otherwise, and changes nothing. *)
Theorem communication_unit_register_dispatch (self : CommunicationUnit.t) (q v : Z) :
  (1179 < q ->
     Spec.ends_with_error (handle_read self q) 20
     /\ Spec.ends_with_error (handle_write self q v).1 20)
  /\ (q ∈ dom read_mapping
      <-> q ∈ [0; 1; 2; 4; 8; 9; 10; 11; 16; 17; 18; 19; 20; 38; 39; 40; 76; 77; 668]
          \/ 44 <= q <= 58 \/ 669 <= q <= 683)
  /\ (q ∈ dom write_mapping <-> q = 76)
  /\ (q <= 1179 -> q ∉ dom read_mapping -> Spec.ends_with_error (handle_read self q) 31)
  /\ (q <= 1179 -> q <> 76 ->
      Spec.ends_with_error (handle_write self q v).1
        (if bool_decide (q ∈ dom read_mapping) then 14 else 31))
  /\ ~ Spec.ends_with_error (handle_read self q) 16
  /\ (q <> 76 -> (handle_write self q v).2 = self).
Proof.
  assert (q <> 76 -> write_mapping !! q = None) as Hw.
  { intros Hq. apply not_elem_of_dom. now rewrite CU_writable. }
  split; [| split; [apply CU_readable | split; [apply CU_writable |]]].
  { intros Hq. unfold handle_read, handle_write.
    destruct (Z.gtb_spec q 1179); [| lia].
    split; now apply ends_with_error_raise. }
  split; [| split; [| split]].
  - intros Hq Hr. unfold handle_read. destruct (Z.gtb_spec q 1179); [lia |].
    apply not_elem_of_dom in Hr. rewrite Hr.
    case_bool_decide as Hd; [| now apply ends_with_error_raise].
    apply CU_writable in Hd as ->. now apply CU_76_readable in Hr.
  - intros Hq H76. unfold handle_write. destruct (Z.gtb_spec q 1179); [lia |].
    rewrite (Hw H76). case_bool_decide; now apply ends_with_error_raise.
  - intros (e & He & Hc). unfold handle_read in He.
    destruct (Z.gtb_spec q 1179); [injection He as <-; discriminate |].
    destruct (read_mapping !! q) as [h |] eqn:Hr.
    + destruct h; cbn in He; try discriminate He;
        [unfold read_044_to_058 in He | unfold read_669_to_683 in He];
        destruct (Py.getitem _ _); try discriminate He; injection He as <-; discriminate.
    + case_bool_decide as Hd; [| injection He as <-; discriminate].
      apply CU_writable in Hd as ->. now apply CU_76_readable in Hr.
  - intros H76. unfold handle_write. destruct (q >? 1179); [reflexivity |].
    rewrite (Hw H76). now case_bool_decide.
Qed.

(** * Status registers of the communication unit *)

Lemma int_of_bool_b2z b : Py.int_of_bool b = Z.b2z b.
Proof. now destruct b. Qed.

Lemma bitmap_from_scale f sensors : forall i,
  0 <= i -> bitmap_from i f sensors = 2 ^ i * bitmap_from 0 f sensors.
Proof.
  induction sensors as [| s rest IH]; intros i Hi; cbn [bitmap_from]; [lia |].
  rewrite (IH (i + 1)), (IH (0 + 1)) by lia.
  rewrite Z.pow_add_r by lia. cbn. lia.
Qed.

Lemma bitmap_from_cons f s rest :
  bitmap_from 0 f (s :: rest) = 2 * bitmap_from 0 f rest + Z.b2z (f s).
Proof.
  cbn [bitmap_from]. rewrite (bitmap_from_scale f rest (0 + 1)) by lia.
  rewrite int_of_bool_b2z. cbn. lia.
Qed.

Lemma bitmap_from_testbit f sensors : forall k : nat,
  Z.testbit (bitmap_from 0 f sensors) (Z.of_nat k)
  = match sensors !! k with Some s => f s | None => false end.
Proof.
  induction sensors as [| s rest IH]; intros k.
  - cbn. apply Z.testbit_0_l.
  - rewrite bitmap_from_cons. destruct k as [| k].
    + cbn [Z.of_nat]. now rewrite Z.testbit_0_r.
    + rewrite Nat2Z.inj_succ, Z.testbit_succ_r by lia. apply IH.
Qed.

Lemma bitmap_from_bound f sensors :
  0 <= bitmap_from 0 f sensors < 2 ^ Z.of_nat (length sensors).
Proof.
  induction sensors as [| s rest IH]; [cbn; lia |].
  rewrite bitmap_from_cons. cbn [length]. rewrite Nat2Z.inj_succ, Z.pow_succ_r by lia.
  destruct (f s); cbn [Z.b2z]; lia.
Qed.

(** X7.  The bitmap registers of the communication unit (001, 004, 016 to 019
    and 038 to 040): bit [k] of the word is the flag of amplifier [k + 1],
    and the bits from the number of amplifiers on are zero. *)
Theorem bitmap_registers_hold_one_bit_per_amplifier
    (self : CommunicationUnit.t) (f : SensorUnit.t -> bool) (k : nat) :
  let flag :=
    match connected_sensors self !! k with Some sensor => f sensor | None => false end in
  let n := Z.of_nat (length (connected_sensors self)) in
  Z.testbit (bitmap f self) (Z.of_nat k) = flag
  /\ 0 <= bitmap f self < 2 ^ n
  /\ (bitmap f self = 0 <-> forallb (fun sensor => negb (f sensor)) (connected_sensors self) = true)
  /\ handle_read self 1 = SensorUnit.Return (bitmap SensorUnit.has_error self)
  /\ handle_read self 4 = SensorUnit.Return (bitmap SensorUnit.is_out_of_range self)
  /\ handle_read self 16 = SensorUnit.Return (bitmap SensorUnit.high_output self)
  /\ handle_read self 17 = SensorUnit.Return (bitmap SensorUnit.low_output self)
  /\ handle_read self 18 = SensorUnit.Return (bitmap SensorUnit.go_output self)
  /\ handle_read self 19 = SensorUnit.Return (bitmap SensorUnit.alarm_output self)
  /\ handle_read self 38 = SensorUnit.Return (bitmap SensorUnit.value_invalid self)
  /\ handle_read self 39 = SensorUnit.Return (bitmap SensorUnit.value_under_range self)
  /\ handle_read self 40 = SensorUnit.Return (bitmap SensorUnit.value_over_range self).
Proof.
  intros flag n. subst flag n. unfold bitmap.
  split; [apply bitmap_from_testbit |]. split; [apply bitmap_from_bound |].
  split; [| repeat split].
  induction (connected_sensors self) as [| s rest IH]; [easy |].
  rewrite bitmap_from_cons. cbn [forallb].
  pose proof (bitmap_from_bound f rest) as B.
  destruct (f s); cbn [Z.b2z negb andb].
  - split; [lia | discriminate].
  - rewrite <- IH. lia.
Qed.

Lemma first_error_found sensors : forall i,
  (existsb SensorUnit.has_error sensors = false
   /\ first_error_id i sensors = 0 /\ first_error_code sensors = 0)
  \/ (exists (k : nat) sensor,
        sensors !! k = Some sensor
        /\ SensorUnit.has_error sensor = true
        /\ (forall (j : nat) earlier,
              (j < k)%nat -> sensors !! j = Some earlier ->
              SensorUnit.has_error earlier = false)
        /\ existsb SensorUnit.has_error sensors = true
        /\ first_error_id i sensors = i + 1 + Z.of_nat k
        /\ first_error_code sensors = SensorUnit.error_code sensor).
Proof.
  induction sensors as [| s rest IH]; intros i; [now left |].
  cbn [first_error_id first_error_code existsb].
  destruct (SensorUnit.has_error s) eqn:E.
  - right. exists 0%nat, s. repeat split; auto; [lia | cbn; lia].
  - destruct (IH (i + 1)) as [(H1 & H2 & H3) | (k & sensor & H1 & H2 & H3 & H4 & H5 & H6)].
    + left. auto.
    + right. exists (S k), sensor. repeat split; auto; [| lia].
      intros [| j] earlier Hj; cbn; [now intros [= <-] |].
      apply H3. lia.
Qed.

(** X8.  The error summary of the communication unit.  With an error on the
    unit itself, register 008 reads 0, register 009 its error code and bit
    0 of the status word 000 is set.  Otherwise either no amplifier has an
    error, and 008, 009, 001 read 0 and bit 15 of 000 is clear; or 008
    reads the id of the first amplifier with an error, 009 the error code
    of that amplifier, its bit in 001 is set, and bit 15 of 000 is set. *)
Theorem error_summary_registers (self : CommunicationUnit.t) :
  Z.testbit (read_000 self) 0 = bus_error self
  /\ Z.testbit (read_000 self) 15 = existsb SensorUnit.has_error (connected_sensors self)
  /\ if bus_error self then
       read_008 self = 0 /\ read_009 self = DLEN1Error.value (internal_error self)
       /\ read_009 self <> 0
     else
       (existsb SensorUnit.has_error (connected_sensors self) = false
        /\ read_008 self = 0 /\ read_009 self = 0 /\ read_001 self = 0)
       \/ (exists (k : nat) sensor,
             connected_sensors self !! k = Some sensor
             /\ SensorUnit.has_error sensor = true
             /\ (forall (j : nat) earlier,
                   (j < k)%nat -> connected_sensors self !! j = Some earlier ->
                   SensorUnit.has_error earlier = false)
             /\ existsb SensorUnit.has_error (connected_sensors self) = true
             /\ read_008 self = Z.of_nat k + 1
             /\ read_009 self = SensorUnit.error_code sensor
             /\ Z.testbit (read_001 self) (Z.of_nat k) = true).
Proof.
  split; [| split].
  - unfold read_000. now destruct (bus_error self), (existsb _ _).
  - unfold read_000. now destruct (bus_error self), (existsb _ _).
  - unfold read_008, read_009. destruct (bus_error self) eqn:Eb.
    + split; [reflexivity |]. split; [reflexivity |].
      unfold bus_error, DLEN1Error.eqb in Eb. destruct (internal_error self); easy.
    + destruct (first_error_found (connected_sensors self) 0)
        as [(H1 & H2 & H3) | (k & sensor & H1 & H2 & H3 & H4 & H5 & H6)].
      * left. repeat split; auto. unfold read_001, bitmap.
        revert H1. clear. induction (connected_sensors self) as [| s rest IH]; [easy |].
        rewrite bitmap_from_cons. cbn [existsb]. intros [-> H]%orb_false_elim.
        rewrite (IH H). reflexivity.
      * right. exists k, sensor. repeat split; auto; [lia |].
        unfold read_001, bitmap. now rewrite bitmap_from_testbit, H1.
Qed.

(** X9.  Register 076 of the communication unit, the only one it lets write:
    an SW request with 0 or 1 is acknowledged and a following SR request
    reads the value back, with the amplifiers untouched; any other value is
    refused with error 009 and changes nothing. *)
Theorem status_mask_write_then_read
    (self : CommunicationUnit.t) (sv : string) (v : Z) (now : Q) :
  Spec.sv10 sv -> Py.int sv = Some v ->
  internal_error self = DLEN1Error.NO_ERROR ->
  let request := "SW,00,076," +:+ sv +:+ Py.CRLF in
  if bool_decide (v = 0 \/ v = 1) then
    exists self',
      handle_query self request now = (SensorUnit.Return ("SW,00,076" +:+ Py.CRLF), self')
      /\ connected_sensors self' = connected_sensors self
      /\ handle_query self' ("SR,00,076" +:+ Py.CRLF) now
         = (SensorUnit.Return ("SR,00,076," +:+ Py.fmt_p010d v +:+ Py.CRLF), self')
  else
    handle_query self request now = (SensorUnit.Return (Spec.ER "SW" "009"), self).
Proof.
  intros H4 Iv He request. subst request.
  assert (Spec.digits_n 2 "00") as H2 by (split; reflexivity).
  assert (Spec.digits_n 3 "076") as H3 by (split; reflexivity).
  change ("SW,00,076," +:+ sv +:+ Py.CRLF)
    with ("SW," +:+ "00" +:+ "," +:+ "076" +:+ "," +:+ sv +:+ Py.CRLF).
  rewrite handle_query_SW by assumption.
  unfold response_SW. rewrite Iv.
  change (Py.int "00") with (Some 0). change (Py.int "076") with (Some 76).
  cbv iota beta. change (0 =? 0) with true. cbv iota.
  unfold handle_write. change (76 >? 1179) with false. cbv iota.
  change (write_mapping !! 76) with (Some write_076_sensor_status_mask_setting).
  cbn [call_write]. unfold write_076.
  case_bool_decide as Hv.
  - assert (negb (v =? 0) && negb (v =? 1) = false) as ->
      by (destruct Hv as [-> | ->]; reflexivity).
    eexists. split; [reflexivity |]. split; [reflexivity |].
    change ("SR,00,076" +:+ Py.CRLF) with ("SR," +:+ "00" +:+ "," +:+ "076" +:+ Py.CRLF).
    rewrite handle_query_SR by (try assumption; destruct self; exact He).
    destruct Hv as [-> | ->]; reflexivity.
  - assert (negb (v =? 0) && negb (v =? 1) = true) as ->.
    { destruct (Z.eqb_spec v 0), (Z.eqb_spec v 1); auto; exfalso; auto. }
    reflexivity.
Qed.

Lemma status_mask_write_then_read_witness :
  let self := CommunicationUnit.mk [Factory.create_IL_030 0] DLEN1Error.NO_ERROR false in
  Spec.sv10 "+000000001" /\ Py.int "+000000001" = Some 1
  /\ exists self',
       handle_query self ("SW,00,076,+000000001" +:+ Py.CRLF) 0
       = (SensorUnit.Return ("SW,00,076" +:+ Py.CRLF), self')
       /\ connected_sensors self' = connected_sensors self
       /\ handle_query self' ("SR,00,076" +:+ Py.CRLF) 0
          = (SensorUnit.Return ("SR,00,076,+000000001" +:+ Py.CRLF), self').
Proof.
  intros self.
  assert (Spec.sv10 "+000000001") as H4.
  { exists "+"%char, "000000001"%string. repeat split; auto. }
  split; [exact H4 |]. split; [reflexivity |].
  exact (status_mask_write_then_read self "+000000001" 1 0 H4 eq_refl eq_refl).
Defined.

(** * The error word of an amplifier *)

Lemma land_opp_odd (m : Z) : Z.land (- (2 * m + 1)) (2 * m + 1) = 1.
Proof.
  apply Z.bits_inj'. intros n Hn. rewrite Z.land_spec.
  replace (- (2 * m + 1)) with (2 * Z.lnot m + 1) by (unfold Z.lnot; lia).
  destruct (Z.eq_dec n 0) as [-> | Hn0].
  - now rewrite !Z.testbit_odd_0.
  - replace n with (Z.succ (n - 1)) by lia.
    rewrite !Z.testbit_odd_succ, Z.lnot_spec by lia.
    replace 1 with (2 * 0 + 1) by lia. rewrite Z.testbit_odd_succ by lia.
    rewrite Z.testbit_0_l. apply andb_negb_l.
Qed.

Lemma land_double (x y : Z) : Z.land (2 * x) (2 * y) = 2 * Z.land x y.
Proof.
  apply Z.bits_inj'. intros n Hn. rewrite Z.land_spec.
  destruct (Z.eq_dec n 0) as [-> | Hn0].
  - now rewrite !Z.testbit_even_0.
  - replace n with (Z.succ (n - 1)) by lia.
    rewrite !Z.testbit_even_succ, Z.land_spec by lia. reflexivity.
Qed.

Lemma lowest_set_bit (k : nat) (m : Z) :
  let b := 2 ^ Z.of_nat k * (2 * m + 1) in Z.land (- b) b = 2 ^ Z.of_nat k.
Proof.
  cbv zeta. induction k as [| k IH].
  - cbn [Z.of_nat]. rewrite Z.pow_0_r, !Z.mul_1_l. apply land_opp_odd.
  - rewrite Nat2Z.inj_succ, Z.pow_succ_r by lia.
    replace (- (2 * 2 ^ Z.of_nat k * (2 * m + 1)))
      with (2 * - (2 ^ Z.of_nat k * (2 * m + 1))) by lia.
    rewrite <- Z.mul_assoc, land_double, IH. reflexivity.
Qed.

(** X10.  [error_code] is the position, counted from 1, of the lowest bit set
    in the error word, and 0 when no bit is set: [ILError] values are
    powers of two, and of several errors the one of the lowest bit is
    reported. *)
Theorem error_code_is_lowest_set_bit (s : SensorUnit.t) (k m : nat) :
  let word := 2 ^ Z.of_nat k * (2 * Z.of_nat m + 1) in
  SensorUnit.error_code (SensorUnit.set_error word s) = Z.of_nat k + 1
  /\ SensorUnit.has_error (SensorUnit.set_error word s) = true
  /\ SensorUnit.error_code (SensorUnit.clear_error s) = 0
  /\ SensorUnit.has_error (SensorUnit.clear_error s) = false
  /\ SensorUnit.error_code (SensorUnit.set_error ILError.Overcurrent s) = 1
  /\ SensorUnit.error_code
       (SensorUnit.set_error (Z.lor ILError.Sensor_Head ILError.Calculation) s) = 3.
Proof.
  intros word.
  assert (SensorUnit.internal_error (SensorUnit.set_error word s) = word) as Hw
    by now destruct s.
  assert (0 < 2 ^ Z.of_nat k) as Hp by (apply Z.pow_pos_nonneg; lia).
  split; [| split; [| now destruct s]].
  - unfold SensorUnit.error_code. rewrite Hw. cbv zeta. subst word.
    rewrite (lowest_set_bit k (Z.of_nat m)). unfold Py.bit_length.
    destruct (Z.eqb_spec (2 ^ Z.of_nat k) 0); [lia |].
    rewrite Z.abs_eq, Z.log2_pow2 by lia. reflexivity.
  - unfold SensorUnit.has_error. rewrite Hw. unfold ILError.NO_ERROR.
    destruct (Z.eqb_spec word 0) as [E | E]; [| reflexivity].
    subst word. apply Z.mul_eq_0 in E. lia.
Qed.

(** * Judgment outputs *)

Lemma judgment_go_excludes (s : SensorUnit.t) :
  SensorUnit.go_state s = true ->
  SensorUnit.high_state s = false /\ SensorUnit.low_state s = false.
Proof.
  unfold SensorUnit.go_state, SensorUnit.high_state, SensorUnit.low_state.
  destruct (SensorUnit.overcurrent s); [discriminate |].
  destruct (negb (SensorUnit.internal_error s =? ILError.NO_ERROR)
            && negb (SensorUnit.internal_error s =? ILError.EEPROM)); [discriminate |].
  destruct (negb (SensorUnit.laser_active s) || _ || _); [discriminate |].
  destruct (SensorUnit.number_gt (SensorUnit.raw_value s) _),
    (SensorUnit.number_gt (SensorUnit.judgment_value s) _),
    (SensorUnit.number_lt (SensorUnit.raw_value s) _),
    (SensorUnit.number_lt (SensorUnit.judgment_value s) _); cbn; auto; discriminate.
Qed.

(** X11.  The three judgment states.  GO excludes HIGH and LOW.  With the
    overcurrent bit set all three are off; with any other error than an
    EEPROM error alone, HIGH and LOW are both on and GO is off.  While the
    amplifier measures (no such error, laser on, raw value and P.V.
    present) GO is on exactly when neither HIGH nor LOW is, and with the
    low threshold not above the high one and the raw value within the
    bounds HIGH and LOW exclude each other. *)
Theorem judgment_states_partition (s : SensorUnit.t) :
  (SensorUnit.go_state s = true ->
   SensorUnit.high_state s = false /\ SensorUnit.low_state s = false)
  /\ (SensorUnit.overcurrent s = true ->
      SensorUnit.high_state s = false /\ SensorUnit.low_state s = false
      /\ SensorUnit.go_state s = false)
  /\ (SensorUnit.overcurrent s = false ->
      SensorUnit.internal_error s <> ILError.NO_ERROR ->
      SensorUnit.internal_error s <> ILError.EEPROM ->
      SensorUnit.high_state s = true /\ SensorUnit.low_state s = true
      /\ SensorUnit.go_state s = false)
  /\ (forall raw pv,
        SensorUnit.internal_error s = ILError.NO_ERROR
        \/ SensorUnit.internal_error s = ILError.EEPROM ->
        SensorUnit.laser_active s = true ->
        SensorUnit.raw_value s = Some raw -> SensorUnit.judgment_value s = Some pv ->
        SensorUnit.go_state s = negb (SensorUnit.high_state s || SensorUnit.low_state s)
        /\ ((SensorUnit.threshold_low s <= SensorUnit.threshold_high s)%Q ->
            (SensorUnit.lower_bound s <= raw <= SensorUnit.upper_bound s)%Q ->
            SensorUnit.high_state s && SensorUnit.low_state s = false)).
Proof.
  split; [apply judgment_go_excludes |].
  unfold SensorUnit.go_state, SensorUnit.high_state, SensorUnit.low_state.
  split; [| split; [| intros raw pv Herr Hlaser Hraw Hpv]].
  - now intros ->.
  - intros -> H0 H1.
    destruct (Z.eqb_spec (SensorUnit.internal_error s) ILError.NO_ERROR); [contradiction |].
    destruct (Z.eqb_spec (SensorUnit.internal_error s) ILError.EEPROM); [contradiction |].
    auto.
  - assert (SensorUnit.overcurrent s = false) as ->.
    { unfold SensorUnit.overcurrent. now destruct Herr as [-> | ->]. }
    assert (negb (SensorUnit.internal_error s =? ILError.NO_ERROR)
            && negb (SensorUnit.internal_error s =? ILError.EEPROM) = false) as ->.
    { now destruct Herr as [-> | ->]. }
    rewrite Hlaser, Hraw, Hpv. cbn [negb SensorUnit.is_number orb].
    cbn [SensorUnit.number_gt SensorUnit.number_lt].
    split.
    + destruct (Py.gt raw _), (Py.gt pv _), (Py.lt raw _), (Py.lt pv _); reflexivity.
    + intros Hth [Hlo Hhi].
      apply gt_false in Hhi. apply lt_false in Hlo. rewrite Hhi, Hlo. cbn [orb].
      destruct (Py.gt pv _) eqn:Eg, (Py.lt pv _) eqn:El; try reflexivity.
      apply gt_true in Eg. apply lt_true in El. exfalso.
      apply (Qlt_irrefl pv). eapply Qlt_le_trans; [exact El |].
      eapply Qle_trans; [exact Hth |]. now apply Qlt_le_weak.
Qed.

(** Resolve the handler of a register whose data number is a numeral. *)
Ltac resolve_write :=
  rewrite handle_write_below by lia;
  match goal with
  | |- context [SensorUnit.write_mapping !! ?q] =>
      let h := eval vm_compute in (SensorUnit.write_mapping !! q) in
      change (SensorUnit.write_mapping !! q) with h
  end; cbv iota beta; cbn [SensorUnit.call_write].

Ltac resolve_read :=
  rewrite handle_read_below by lia;
  match goal with
  | |- context [SensorUnit.read_mapping !! ?q] =>
      let h := eval vm_compute in (SensorUnit.read_mapping !! q) in
      change (SensorUnit.read_mapping !! q) with h
  end; cbv iota beta; cbn [SensorUnit.call_read].

Lemma start_eeprom_write_frame d now (s : SensorUnit.t) :
  let s' := SensorUnit.start_eeprom_write d now s in
  SensorUnit.with_next_eeprom_write (SensorUnit._next_eeprom_write s')
    (SensorUnit.with_eeprom_write_result OperationResult.OPERATING s) = s'.
Proof.
  cbv zeta. unfold SensorUnit.start_eeprom_write. destruct s; cbn.
  destruct _next_eeprom_write as [next |]; cbn; [| reflexivity].
  destruct (Py.lt next (now + d)); reflexivity.
Qed.

(** X12.  Register 134, the output mode: switching an amplifier to the other
    mode (normally open or normally closed) is acknowledged, inverts the
    HIGH, LOW and GO bits of register 036, and leaves the alarm bit, which
    has a mode of its own, as it was. *)
Theorem output_mode_inverts_judgment_bits (s : SensorUnit.t) (now : Q) :
  let other := 1 - Py.int_of_bool (SensorUnit.output_mode_normally_closed s) in
  exists s',
    SensorUnit.handle_write s 134 other now = (SensorUnit.Return tt, s')
    /\ SensorUnit.handle_read s' 134 = SensorUnit.Return (SensorUnit.IntValue other)
    /\ (forall i, 0 <= i <= 2 ->
          Z.testbit (SensorUnit.read_036 s') i = negb (Z.testbit (SensorUnit.read_036 s) i))
    /\ Z.testbit (SensorUnit.read_036 s') 3 = Z.testbit (SensorUnit.read_036 s) 3
    /\ Z.testbit (SensorUnit.read_036 s) 3 = negb (SensorUnit.alarm_state s)
    /\ 0 <= SensorUnit.read_036 s <= 15.
Proof.
  intros other. subst other. resolve_write.
  unfold SensorUnit.write_134, SensorUnit.write_flag.
  assert (forall b, negb (1 - Py.int_of_bool b =? 0) && negb (1 - Py.int_of_bool b =? 1) = false)
    as E by now intros [].
  rewrite E. eexists. split; [reflexivity |].
  rewrite <- start_eeprom_write_frame.
  set (d := SensorUnit._next_eeprom_write _). clearbody d.
  split.
  { resolve_read. destruct s, output_mode_normally_closed; reflexivity. }
  unfold SensorUnit.read_036, SensorUnit.high_output, SensorUnit.low_output,
    SensorUnit.go_output, SensorUnit.alarm_output, SensorUnit.OUTPUT_TRUE,
    SensorUnit.OUTPUT_FALSE.
  destruct s as [raw rv calc pv hb hp nx ti abs bk cr dp ewr e1 e1s e2 e2s e3 e3s e4 e4s
                 uus hfs ie imu lb nc rrr sles sbe tr ub zsm zsr].
  cbn -[Z.testbit Z.mul Z.add Z.pow].
  set (s0 := SensorUnit.mk raw rv calc pv hb hp nx ti abs bk cr dp ewr e1 e1s e2 e2s e3 e3s
               e4 e4s uus hfs ie imu lb nc rrr sles sbe tr ub zsm zsr).
  match goal with
  | |- context [SensorUnit.high_state ?x] =>
      change (SensorUnit.high_state x) with (SensorUnit.high_state s0);
      change (SensorUnit.low_state x) with (SensorUnit.low_state s0);
      change (SensorUnit.go_state x) with (SensorUnit.go_state s0);
      change (SensorUnit.alarm_state x) with (SensorUnit.alarm_state s0)
  end.
  destruct (SensorUnit.high_state s0), (SensorUnit.low_state s0), (SensorUnit.go_state s0),
    (SensorUnit.alarm_state s0), nc; cbn;
    (split; [intros i Hi; assert (i = 0 \/ i = 1 \/ i = 2) as [-> | [-> | ->]] by lia;
             reflexivity |]);
    (split; [reflexivity |]); (split; [reflexivity | lia]).
Qed.

(** * Setting registers *)

Ltac out_of_range v :=
  repeat match goal with
         | |- context [v =? ?k] => destruct (Z.eqb_spec v k); [lia |]
         end; reflexivity.

Ltac read_back s :=
  eexists; split; [reflexivity |];
  rewrite <- start_eeprom_write_frame;
  resolve_read; destruct s; reflexivity.

(** X13.  The flag and selection registers 100, 134, 136, 145 to 150 and 152: a
    value of the register's range is acknowledged and read back by the
    next read of the same register; any other value is refused with error
    009 and the amplifier stays as it was.  The ranges are 0 to 5 for 136,
    0 to 4 for 146 to 148, 0 to 3 for 149, and 0 to 1 for the flags. *)
Theorem setting_registers_read_back (s : SensorUnit.t) (q v : Z) (now : Q) :
  q ∈ [100; 134; 136; 145; 146; 147; 148; 149; 150; 152] ->
  let hi :=
    if bool_decide (q = 136) then 5
    else if bool_decide (q ∈ [146; 147; 148]) then 4
    else if bool_decide (q = 149) then 3
    else 1 in
  if (0 <=? v) && (v <=? hi) then
    exists s',
      SensorUnit.handle_write s q v now = (SensorUnit.Return tt, s')
      /\ SensorUnit.handle_read s' q = SensorUnit.Return (SensorUnit.IntValue v)
  else
    SensorUnit.handle_write s q v now
    = (SensorUnit.raise Errors.WriteDataOutsideValidRangeError, s).
Proof.
  intros Hq. repeat (apply elem_of_cons in Hq as [-> | Hq]); [.. | inversion Hq];
    cbv zeta; match goal with |- context [bool_decide (?a = 136)] =>
      let b := eval vm_compute in
        (if bool_decide (a = 136) then 5
         else if bool_decide (a ∈ [146; 147; 148]) then 4
         else if bool_decide (a = 149) then 3 else 1) in
      change (if bool_decide (a = 136) then 5
              else if bool_decide (a ∈ [146; 147; 148]) then 4
              else if bool_decide (a = 149) then 3 else 1) with b end;
    resolve_write;
    unfold SensorUnit.write_100, SensorUnit.write_134, SensorUnit.write_136,
      SensorUnit.write_145, SensorUnit.write_146, SensorUnit.write_147,
      SensorUnit.write_148, SensorUnit.write_149, SensorUnit.write_150,
      SensorUnit.write_152, SensorUnit.write_flag, SensorUnit.write_enum,
      HoldFunctionSetting.of_int, ExternalInput1Setting.of_int,
      ExternalInput2Setting.of_int, ExternalInput3Setting.of_int,
      ExternalInput4Setting.of_int;
    destruct (Z.leb_spec 0 v); cbn [andb]; try out_of_range v;
    match goal with |- context [v <=? ?k] => destruct (Z.leb_spec v k) end;
    try out_of_range v.
  all: match goal with
       | H : ?x <= 1 |- _ => assert (x = 0 \/ x = 1) as [-> | ->] by lia
       | H : ?x <= 3 |- _ =>
           assert (x = 0 \/ x = 1 \/ x = 2 \/ x = 3) as [-> | [-> | [-> | ->]]] by lia
       | H : ?x <= 4 |- _ =>
           assert (x = 0 \/ x = 1 \/ x = 2 \/ x = 3 \/ x = 4)
             as [-> | [-> | [-> | [-> | ->]]]] by lia
       | H : ?x <= 5 |- _ =>
           assert (x = 0 \/ x = 1 \/ x = 2 \/ x = 3 \/ x = 4 \/ x = 5)
             as [-> | [-> | [-> | [-> | [-> | ->]]]]] by lia
       end; cbn [Z.eqb Pos.eqb negb andb]; read_back s.
Qed.

Lemma setting_registers_read_back_witness :
  let s := Factory.create_IL_030 0 in
  136 ∈ [100; 134; 136; 145; 146; 147; 148; 149; 150; 152]
  /\ (exists s',
        SensorUnit.handle_write s 136 5 1 = (SensorUnit.Return tt, s')
        /\ SensorUnit.handle_read s' 136 = SensorUnit.Return (SensorUnit.IntValue 5))
  /\ SensorUnit.handle_write s 136 6 1
     = (SensorUnit.raise Errors.WriteDataOutsideValidRangeError, s).
Proof.
  intros s.
  assert (136 ∈ [100; 134; 136; 145; 146; 147; 148; 149; 150; 152]) as Hq
    by (rewrite !elem_of_cons; lia).
  split; [exact Hq |]. split.
  - exact (setting_registers_read_back s 136 5 1 Hq).
  - exact (setting_registers_read_back s 136 6 1 Hq).
Defined.

(** * Refused writes *)

(** X14.  A write that the dispatch or one of the embedded handlers (registers
    001 to 003, 065 to 084, 098, 100, 134, 136, 145 to 150 and 152)
    refuses changes nothing: when such a call of [handle_write] ends with
    an exception, the exception is a communication error of code 009,
    014, 020 or 031, never 012, and the amplifier is as it was before the
    call. *)
Theorem refused_write_changes_nothing
    (s s' : SensorUnit.t) (q v : Z) (now : Q) (e : Errors.Exception) :
  q ∉ dom SensorUnit.write_mapping
  \/ q ∈ [1; 2; 3; 98; 100; 134; 136; 145; 146; 147; 148; 149; 150; 152]
  \/ 65 <= q <= 84 ->
  SensorUnit.handle_write s q v now = (SensorUnit.Raise e, s') ->
  s' = s
  /\ exists c, e = Errors.Communication c
       /\ Errors.value (Errors.error_code c) ∈ [9; 14; 20; 31].
Proof.
  intros _.
  assert (forall c, Errors.value (Errors.error_code c) ∈ [9; 14; 20; 31] ->
            forall o : SensorUnit.Written, o = (SensorUnit.raise c, s) -> o = (SensorUnit.Raise e, s') ->
            s' = s /\ exists c, e = Errors.Communication c
              /\ Errors.value (Errors.error_code c) ∈ [9; 14; 20; 31]) as Hraise.
  { intros c Hc o -> [= <- <-]. split; [reflexivity |]. now exists c. }
  assert (9 ∈ [9; 14; 20; 31]) as H9 by (rewrite !elem_of_cons; lia).
  assert (14 ∈ [9; 14; 20; 31]) as H14 by (rewrite !elem_of_cons; lia).
  assert (20 ∈ [9; 14; 20; 31]) as H20 by (rewrite !elem_of_cons; lia).
  assert (31 ∈ [9; 14; 20; 31]) as H31 by (rewrite !elem_of_cons; lia).
  unfold SensorUnit.handle_write.
  destruct (q >? 223); [now apply (Hraise Errors.QueryOutsideValidRangeError) |].
  destruct (SensorUnit.write_mapping !! q) as [h |].
  2: { case_bool_decide;
       [now apply (Hraise Errors.QueryWriteProtectedError)
       | now apply (Hraise Errors.InaccessibleIDOrQueryError)]. }
  destruct h; cbn [SensorUnit.call_write]; try discriminate;
    unfold SensorUnit.write_001, SensorUnit.write_002, SensorUnit.write_003,
      SensorUnit.write_06X_high, SensorUnit.write_06X_low, SensorUnit.write_06X_shift_target,
      SensorUnit.write_06X_analog_upper, SensorUnit.write_06X_analog_lower,
      SensorUnit.write_098, SensorUnit.write_100, SensorUnit.write_134,
      SensorUnit.write_136, SensorUnit.write_145, SensorUnit.write_146,
      SensorUnit.write_147, SensorUnit.write_148, SensorUnit.write_149,
      SensorUnit.write_150, SensorUnit.write_152, SensorUnit.write_flag,
      SensorUnit.write_enum;
    repeat match goal with
           | |- context [if ?b then _ else _] => destruct b
           | |- context [match ?x with Some _ => _ | None => _ end] => destruct x
           end;
    try discriminate;
    first [ now apply (Hraise Errors.WriteDataOutsideValidRangeError)
          | now apply (Hraise Errors.QueryWriteProtectedError) ].
Qed.

Lemma refused_write_changes_nothing_witness :
  let s := SensorUnit.with_is_main_unit false (Factory.create_IL_030 0) in
  65 <= 68 <= 84
  /\ (SensorUnit.handle_write s 68 100 0).1
     = SensorUnit.Raise (Errors.Communication Errors.QueryWriteProtectedError)
  /\ (SensorUnit.handle_write s 68 100 0).2 = s.
Proof.
  intros s.
  assert (SensorUnit.handle_write s 68 100 0
          = (SensorUnit.Raise (Errors.Communication Errors.QueryWriteProtectedError), s))
    as E by (vm_compute; reflexivity).
  assert (SensorUnit.handle_write s 68 100 0
          = (SensorUnit.Raise (Errors.Communication Errors.QueryWriteProtectedError),
             (SensorUnit.handle_write s 68 100 0).2)) as E' by (rewrite E; reflexivity).
  assert (65 <= 68 <= 84) as Hq by lia.
  split; [exact Hq |]. split; [now rewrite E |].
  exact (proj1 (refused_write_changes_nothing s _ 68 100 0 _
                  (or_intror (or_intror Hq)) E')).
Defined.

(** * Banks *)

Lemma get_update_bank i j f (s : SensorUnit.t) :
  SensorUnit.get_bank (SensorUnit.update_bank i f s) j
  = if BANK_INDEX.value i =? BANK_INDEX.value j then f (SensorUnit.get_bank s j) else SensorUnit.get_bank s j.
Proof.
  unfold SensorUnit.get_bank, SensorUnit.update_bank. destruct s; cbn.
  destruct banks as [[[b0 b1] b2] b3]. destruct i, j; reflexivity.
Qed.

Lemma get_bank_start_eeprom_write d now (s : SensorUnit.t) j :
  SensorUnit.get_bank (SensorUnit.start_eeprom_write d now s) j = SensorUnit.get_bank s j.
Proof. rewrite <- start_eeprom_write_frame. now destruct s. Qed.

Lemma active_bank_setting_after d now i f (s : SensorUnit.t) :
  SensorUnit.active_bank_setting
    (SensorUnit.start_eeprom_write d now (SensorUnit.update_bank i f s))
  = SensorUnit.active_bank_setting s.
Proof.
  rewrite <- start_eeprom_write_frame. unfold SensorUnit.update_bank.
  destruct s; cbn. destruct banks as [[[b0 b1] b2] b3]. now destruct i.
Qed.

Lemma active_bank_index_after d now i f (s : SensorUnit.t) :
  SensorUnit.active_bank_index
    (SensorUnit.start_eeprom_write d now (SensorUnit.update_bank i f s))
  = SensorUnit.active_bank_index s.
Proof. apply active_bank_setting_after. Qed.

Lemma update_bank_zero_shift_saved i f (s : SensorUnit.t) :
  SensorUnit.zero_shift_saved_in_memory (SensorUnit.update_bank i f s)
  = SensorUnit.zero_shift_saved_in_memory s.
Proof.
  unfold SensorUnit.update_bank. destruct s; cbn.
  destruct banks as [[[b0 b1] b2] b3]. now destruct i.
Qed.

Lemma update_bank_active i f (s : SensorUnit.t) :
  SensorUnit.active_bank_setting (SensorUnit.update_bank i f s)
  = SensorUnit.active_bank_setting s.
Proof.
  unfold SensorUnit.update_bank. destruct s; cbn.
  destruct banks as [[[b0 b1] b2] b3]. now destruct i.
Qed.

Lemma change_shift_target_bank (s : SensorUnit.t) value index now j :
  SensorUnit.get_bank (SensorUnit.change_shift_target value index now s) j
  = (if BANK_INDEX.value (SensorUnit.index_or_active s index) =? BANK_INDEX.value j
     then Bank.with_shift_target value (SensorUnit.get_bank s j)
     else SensorUnit.get_bank s j).
Proof.
  unfold SensorUnit.change_shift_target. cbv zeta. rewrite update_bank_zero_shift_saved.
  destruct (SensorUnit.zero_shift_saved_in_memory s);
    now rewrite ?get_bank_start_eeprom_write, ?get_update_bank.
Qed.

Lemma change_shift_target_active (s : SensorUnit.t) value index now :
  SensorUnit.active_bank_setting (SensorUnit.change_shift_target value index now s)
  = SensorUnit.active_bank_setting s.
Proof.
  unfold SensorUnit.change_shift_target. cbv zeta. rewrite update_bank_zero_shift_saved.
  destruct (SensorUnit.zero_shift_saved_in_memory s);
    rewrite ?active_bank_setting_after; [reflexivity | apply update_bank_active].
Qed.

(** X15.  The setters of the banked values change one value of one bank: the
    addressed bank (the active one when no index is given) gets the new
    value in the attribute of the setter, its other attributes and the
    other three banks stay, and so does the active bank setting. *)
Theorem banked_setters_change_one_value
    (s : SensorUnit.t) (value : Q) (index : option BANK_INDEX.t) (now : Q)
    (j : BANK_INDEX.t) :
  let i := SensorUnit.index_or_active s index in
  let changed (after : SensorUnit.t) (set : Q -> Bank.t -> Bank.t) :=
    SensorUnit.get_bank after j
    = (if BANK_INDEX.value i =? BANK_INDEX.value j then set value (SensorUnit.get_bank s j)
       else SensorUnit.get_bank s j)
    /\ SensorUnit.active_bank_setting after = SensorUnit.active_bank_setting s in
  changed (SensorUnit.change_high_threshold value index now s) Bank.with_threshold_high
  /\ changed (SensorUnit.change_low_threshold value index now s) Bank.with_threshold_low
  /\ changed (SensorUnit.change_shift_target value index now s) Bank.with_shift_target
  /\ changed (SensorUnit.change_analog_upper_limit value index now s)
       Bank.with_analog_upper_limit
  /\ changed (SensorUnit.change_analog_lower_limit value index now s)
       Bank.with_analog_lower_limit
  /\ SensorUnit.read_high_threshold
       (SensorUnit.change_high_threshold value index now s) index = value
  /\ SensorUnit.read_low_threshold
       (SensorUnit.change_low_threshold value index now s) index = value.
Proof.
  intros i changed. subst changed. cbv beta.
  unfold SensorUnit.change_high_threshold, SensorUnit.change_low_threshold,
    SensorUnit.change_shift_target, SensorUnit.change_analog_upper_limit,
    SensorUnit.change_analog_lower_limit, SensorUnit.read_high_threshold,
    SensorUnit.read_low_threshold. cbv zeta. fold i.
  rewrite update_bank_zero_shift_saved.
  repeat split;
    rewrite ?get_bank_start_eeprom_write, ?active_bank_setting_after, ?get_update_bank;
    try reflexivity.
  - destruct (SensorUnit.zero_shift_saved_in_memory s);
      now rewrite ?get_bank_start_eeprom_write, ?get_update_bank.
  - destruct (SensorUnit.zero_shift_saved_in_memory s);
      rewrite ?active_bank_setting_after; [reflexivity | apply update_bank_active].
  - unfold SensorUnit.index_or_active. destruct index as [k |].
    + fold i. change (SensorUnit.index_or_active s (Some k)) with k in i. subst i.
      rewrite Z.eqb_refl. reflexivity.
    + rewrite active_bank_index_after. fold i. subst i.
      unfold SensorUnit.index_or_active. rewrite Z.eqb_refl. reflexivity.
  - unfold SensorUnit.index_or_active. destruct index as [k |].
    + fold i. change (SensorUnit.index_or_active s (Some k)) with k in i. subst i.
      rewrite Z.eqb_refl. reflexivity.
    + rewrite active_bank_index_after. fold i. subst i.
      unfold SensorUnit.index_or_active. rewrite Z.eqb_refl. reflexivity.
Qed.

(** * Zero shift reset and reset *)

Lemma with_zero_shifting_result_bank r (s : SensorUnit.t) j :
  SensorUnit.get_bank (SensorUnit.with_zero_shifting_result r s) j = SensorUnit.get_bank s j.
Proof. now destruct s. Qed.

(** X16.  Register 002, the zero shift reset: writing 1 is acknowledged, leaves
    [zero_shifting_result] at [NORMAL_TERMINATION], and sets the shift
    target of the active bank to zero; the thresholds and analog limits of
    that bank and the other three banks stay as they were.  Any other value
    is refused with error 009. *)
Theorem zero_shift_reset_clears_active_bank (s : SensorUnit.t) (v : Z) (now : Q) :
  if v =? 1 then
    exists s',
      SensorUnit.handle_write s 2 v now = (SensorUnit.Return tt, s')
      /\ SensorUnit.handle_read s' 54
         = SensorUnit.Return
             (SensorUnit.IntValue (OperationResult.value OperationResult.NORMAL_TERMINATION))
      /\ SensorUnit.active_bank s' = Bank.with_shift_target 0 (SensorUnit.active_bank s)
      /\ forall j,
           BANK_INDEX.value j <> BANK_INDEX.value (SensorUnit.active_bank_index s) ->
           SensorUnit.get_bank s' j = SensorUnit.get_bank s j
  else
    SensorUnit.handle_write s 2 v now
    = (SensorUnit.raise Errors.WriteDataOutsideValidRangeError, s).
Proof.
  resolve_write. unfold SensorUnit.write_002.
  destruct (Z.eqb_spec v 1) as [-> | Hv]; cbn [negb]; [| reflexivity].
  eexists. split; [reflexivity |].
  split; [resolve_read; now destruct (SensorUnit.change_shift_target _ _ _ _) |].
  unfold SensorUnit.active_bank, SensorUnit.active_bank_index.
  split.
  - rewrite with_zero_shifting_result_bank.
    assert (forall r t, SensorUnit.active_bank_setting (SensorUnit.with_zero_shifting_result r t)
                        = SensorUnit.active_bank_setting t) as Ha by (now intros r []).
    rewrite Ha, change_shift_target_active, Ha, change_shift_target_bank.
    unfold SensorUnit.index_or_active, SensorUnit.active_bank_index.
    rewrite Ha, Z.eqb_refl. now rewrite with_zero_shifting_result_bank.
  - intros j Hj. rewrite with_zero_shifting_result_bank, change_shift_target_bank.
    unfold SensorUnit.index_or_active, SensorUnit.active_bank_index.
    assert (SensorUnit.active_bank_setting
              (SensorUnit.with_zero_shifting_result OperationResult.OPERATING s)
            = SensorUnit.active_bank_setting s) as -> by now destruct s.
    destruct (Z.eqb_spec (BANK_INDEX.value (SensorUnit.active_bank_setting s))
                (BANK_INDEX.value j)) as [E | _]; [now rewrite E in Hj |].
    apply with_zero_shifting_result_bank.
Qed.

(** X17.  Register 003, the reset request: writing 1 is acknowledged and leaves
    [reset_request_result] at [NORMAL_TERMINATION].  With the zero shift
    kept in memory the banks stay as they were; otherwise the shift
    target of every bank becomes zero and nothing else of a bank changes.
    Either way the EEPROM scheduler is left alone and the active bank
    setting stays. *)
Theorem reset_request_clears_zero_shifts (s : SensorUnit.t) (now : Q) :
  exists s',
    SensorUnit.handle_write s 3 1 now = (SensorUnit.Return tt, s')
    /\ SensorUnit.reset_request_result s' = OperationResult.NORMAL_TERMINATION
    /\ (forall j,
          SensorUnit.get_bank s' j
          = if SensorUnit.zero_shift_saved_in_memory s then SensorUnit.get_bank s j
            else Bank.with_shift_target 0 (SensorUnit.get_bank s j))
    /\ Spec.not_armed s s'
    /\ SensorUnit.active_bank_setting s' = SensorUnit.active_bank_setting s.
Proof.
  resolve_write. unfold SensorUnit.write_003. cbn [Z.eqb Pos.eqb negb].
  eexists. split; [reflexivity |].
  unfold SensorUnit.reset, SensorUnit.change_shift_target, Spec.not_armed,
    SensorUnit.index_or_active, SensorUnit.active_bank_index, SensorUnit.update_bank,
    SensorUnit.get_bank.
  destruct s as [raw rv calc pv hb hp nx ti abs bk cr dp ewr e1 e1s e2 e2s e3 e3s e4 e4s
                 uus hfs ie imu lb nc rrr sles sbe tr ub zsm zsr].
  destruct bk as [[[b0 b1] b2] b3]. cbn.
  destruct zsm; cbn; [repeat split; now intros [] |].
  destruct abs; cbn; (repeat split; try reflexivity); intros []; reflexivity.
Qed.

(** * Laser emission stop and the state field *)

(** X18.  With the laser stopped (by the stored stop flag of register 100, by
    an external input assigned to the laser stop, or by a sensor head
    error) the value registers 037, 038 and 041 read the invalid value
    -99998 and register 050 reads 1, whatever was measured; without an
    error the amplifier reports -99999998 and the state All_OFF to the
    communication unit. *)
Theorem laser_stop_invalidates_readings (s : SensorUnit.t) :
  SensorUnit.stored_laser_emission_stop s = true
  \/ SensorUnit.internal_error s = ILError.Sensor_Head
  \/ SensorUnit.laser_active s = false ->
  SensorUnit.laser_active s = false
  /\ SensorUnit.handle_read s 37 = SensorUnit.Return (SensorUnit.IntValue (-99998))
  /\ SensorUnit.handle_read s 38 = SensorUnit.Return (SensorUnit.IntValue (-99998))
  /\ SensorUnit.handle_read s 41 = SensorUnit.Return (SensorUnit.IntValue (-99998))
  /\ SensorUnit.handle_read s 50 = SensorUnit.Return (SensorUnit.IntValue 1)
  /\ SensorUnit.is_out_of_range s = true
  /\ (SensorUnit.internal_error s = ILError.NO_ERROR ->
      SensorUnit.stringified_value s = "-099999998"%string
      /\ SensorUnit.stringified_state s = "00"%string).
Proof.
  intros H.
  assert (SensorUnit.laser_active s = false) as Hl.
  { destruct H as [H | [H | H]]; [| | exact H]; unfold SensorUnit.laser_active; rewrite H.
    - now rewrite orb_true_r.
    - now rewrite orb_true_r. }
  split; [exact Hl |].
  repeat split.
  - resolve_read. unfold SensorUnit.read_037. now rewrite Hl.
  - resolve_read. unfold SensorUnit.read_038. now rewrite Hl.
  - resolve_read. unfold SensorUnit.read_041. now rewrite Hl.
  - resolve_read. unfold SensorUnit.read_050. now rewrite Hl.
  - unfold SensorUnit.is_out_of_range. now rewrite Hl.
  - unfold SensorUnit.stringified_value, SensorUnit.judgment_value_for_communication_unit,
      SensorUnit.value_invalid. now rewrite H0, Hl.
  - unfold SensorUnit.stringified_state, SensorUnit.output_state, SensorUnit.high_state,
      SensorUnit.low_state, SensorUnit.go_state, SensorUnit.overcurrent.
    now rewrite H0, Hl.
Qed.

Lemma laser_stop_invalidates_readings_witness :
  let s := (SensorUnit.handle_write (Factory.create_IL_030 0) 100 1 0).2 in
  SensorUnit.stored_laser_emission_stop s = true
  /\ SensorUnit.handle_read (Factory.create_IL_030 0) 37
     = SensorUnit.Return (SensorUnit.IntValue 0)
  /\ SensorUnit.handle_read s 37 = SensorUnit.Return (SensorUnit.IntValue (-99998)).
Proof.
  intros s.
  assert (SensorUnit.stored_laser_emission_stop s = true) as H by (vm_compute; reflexivity).
  split; [exact H |]. split; [vm_compute; reflexivity |].
  exact (proj1 (proj2 (laser_stop_invalidates_readings s (or_introl H)))).
Defined.

(** X19.  The state field of an MS reply is one of 00, 01, 02, 03, 04 (the
    states HH and LL are never reported); it is 03 exactly when the
    amplifier has an error, and then the value field is +100000000; it is
    04 exactly when, without an error, the GO state holds and neither HIGH
    nor LOW does. *)
Theorem MS_state_field (s : SensorUnit.t) :
  SensorUnit.stringified_state s ∈ ["00"; "01"; "02"; "03"; "04"]%string
  /\ (SensorUnit.stringified_state s = "03"%string <-> SensorUnit.has_error s = true)
  /\ (SensorUnit.has_error s = true -> SensorUnit.stringified_value s = "+100000000"%string)
  /\ (SensorUnit.stringified_state s = "04"%string
      <-> SensorUnit.has_error s = false /\ SensorUnit.go_state s = true)
  /\ (SensorUnit.stringified_state s = "01"%string
      <-> SensorUnit.has_error s = false /\ SensorUnit.high_state s = true).
Proof.
  unfold SensorUnit.stringified_state, SensorUnit.output_state, SensorUnit.has_error,
    SensorUnit.stringified_value, SensorUnit.judgment_value_for_communication_unit.
  pose proof (judgment_go_excludes s) as Hgo.
  destruct (negb (SensorUnit.internal_error s =? ILError.NO_ERROR)).
  { split; [cbn; rewrite !elem_of_cons; tauto |].
    repeat split; try discriminate; try reflexivity; now intros []. }
  destruct (SensorUnit.high_state s).
  { split; [cbn; rewrite !elem_of_cons; tauto |].
    repeat split; try discriminate; try reflexivity.
    intros [_ Hg]. destruct (Hgo Hg). discriminate. }
  destruct (SensorUnit.low_state s).
  { split; [cbn; rewrite !elem_of_cons; tauto |].
    repeat split; try discriminate; try reflexivity; try (now intros []).
    intros [_ Hg]. destruct (Hgo Hg). discriminate. }
  destruct (SensorUnit.go_state s);
    (split; [cbn; rewrite !elem_of_cons; tauto |]);
    repeat split; try discriminate; try reflexivity; now intros [].
Qed.

(** * The EEPROM thread *)

Lemma pass_idle now (s : SensorUnit.t) :
  SensorUnit._next_eeprom_write s = None -> EepromThread.pass now s = s.
Proof. unfold EepromThread.pass. now intros ->. Qed.

Lemma perform_idle clock : forall s : SensorUnit.t,
  SensorUnit._next_eeprom_write s = None -> EepromThread.perform_eeprom_writes clock s = s.
Proof.
  unfold EepromThread.perform_eeprom_writes.
  induction clock as [| now clock IH]; intros s H; [reflexivity |].
  cbn [foldl]. rewrite pass_idle by exact H. now apply IH.
Qed.

(** X20.  The EEPROM thread completes a write at its deadline and not before.
    With a deadline that is not 0.0, a pass of the loop before the
    deadline changes nothing, and a pass at or after it clears the deadline
    and sets [eeprom_write_result] to [NORMAL_TERMINATION], or to
    [ABNORMAL_TERMINATION] when the error word is the EEPROM error; the
    loop over a sequence of clock readings completes the write exactly when
    one of the readings has reached the deadline.  Without a deadline, and
    with the deadline 0.0 (which Python takes for false), the loop changes
    nothing. *)
Theorem eeprom_thread_completes_at_deadline
    (s : SensorUnit.t) (deadline : Q) (clock : list Q) :
  SensorUnit._next_eeprom_write s = Some deadline ->
  let completed :=
    SensorUnit.with_next_eeprom_write None
      (SensorUnit.with_eeprom_write_result
         (if SensorUnit.internal_error s =? ILError.EEPROM
          then OperationResult.ABNORMAL_TERMINATION
          else OperationResult.NORMAL_TERMINATION) s) in
  EepromThread.perform_eeprom_writes clock s
  = (if negb (Qeq_bool deadline 0) && existsb (Qle_bool deadline) clock
     then completed else s)
  /\ EepromThread.perform_eeprom_writes clock completed = completed
  /\ SensorUnit._next_eeprom_write completed = None.
Proof.
  intros Hd completed.
  assert (SensorUnit._next_eeprom_write completed = None) as Hc by now destruct s.
  split; [| split; [now apply perform_idle | exact Hc]].
  unfold EepromThread.perform_eeprom_writes.
  induction clock as [| now clock IH]; [now rewrite andb_false_r |].
  cbn [foldl existsb]. unfold EepromThread.pass at 2. rewrite Hd.
  cbn [EepromThread.truthy].
  destruct (negb (Qeq_bool deadline 0)); cbn [andb] in *; [| exact IH].
  destruct (Qle_bool deadline now); cbn [orb].
  - replace (SensorUnit.with_next_eeprom_write None _) with completed
      by (subst completed; now destruct (SensorUnit.internal_error s =? ILError.EEPROM)).
    now apply perform_idle.
  - exact IH.
Qed.

Lemma eeprom_thread_completes_at_deadline_witness :
  let s := SensorUnit.change_high_threshold 6 None 10 (Factory.create_IL_030 0) in
  SensorUnit._next_eeprom_write s = Some (10 + 2)%Q
  /\ SensorUnit.eeprom_write_result
       (EepromThread.perform_eeprom_writes [11; 11.5]%Q s) = OperationResult.OPERATING
  /\ SensorUnit.eeprom_write_result
       (EepromThread.perform_eeprom_writes [11; 11.5; 12; 13]%Q s)
     = OperationResult.NORMAL_TERMINATION.
Proof.
  intros s.
  assert (SensorUnit._next_eeprom_write s = Some (10 + 2)%Q) as H by reflexivity.
  split; [exact H |]. split.
  - rewrite (proj1 (eeprom_thread_completes_at_deadline s _ [11; 11.5]%Q H)). reflexivity.
  - rewrite (proj1 (eeprom_thread_completes_at_deadline s _ [11; 11.5; 12; 13]%Q H)).
    reflexivity.
Defined.

(** * Scaling *)

Lemma scale_values_eq (x x1 y1 x2 y2 : Q) :
  ~ (x2 == x1)%Q ->
  Scaling.scale_values x x1 y1 x2 y2
  = Some ((y2 - y1) / (x2 - x1) * x + (y1 - x1 * ((y2 - y1) / (x2 - x1))))%Q.
Proof.
  intros H. unfold Scaling.scale_values, Scaling.get_scale_values.
  destruct (Qeq_bool (x2 - x1) 0) eqn:E; [| reflexivity].
  apply Qeq_bool_iff in E. exfalso. apply H. lra.
Qed.

(** X21.  [scale_values] is the straight line through (x1, y1) and (x2, y2), in
    exact arithmetic: it takes x1 to y1 and x2 to y2; for x1 < x2 and
    y1 <= y2 it is monotone and takes the values between x1 and x2 to
    values between y1 and y2.  With x2 = x1 the division by zero raises. *)
Theorem scale_values_is_the_line_through_two_points (x x' x1 y1 x2 y2 : Q) :
  ~ (x2 == x1)%Q ->
  exists y y' at1 at2,
    Scaling.scale_values x x1 y1 x2 y2 = Some y
    /\ Scaling.scale_values x' x1 y1 x2 y2 = Some y'
    /\ Scaling.scale_values x1 x1 y1 x2 y2 = Some at1
    /\ Scaling.scale_values x2 x1 y1 x2 y2 = Some at2
    /\ (at1 == y1)%Q /\ (at2 == y2)%Q
    /\ (y * (x2 - x1) == y1 * (x2 - x1) + (x - x1) * (y2 - y1))%Q
    /\ ((x1 < x2)%Q -> (y1 <= y2)%Q ->
        ((x <= x')%Q -> (y <= y')%Q)
        /\ ((x1 <= x <= x2)%Q -> (y1 <= y <= y2)%Q))
    /\ Scaling.scale_values x x1 y1 x1 y2 = None.
Proof.
  intros H. rewrite !scale_values_eq by exact H.
  do 4 eexists. do 4 (split; [reflexivity |]).
  assert (~ (x2 - x1 == 0)%Q) as Hd by (intros E; apply H; lra).
  set (t := ((y2 - y1) / (x2 - x1))%Q).
  assert (t * (x2 - x1) == y2 - y1)%Q as Ht by (subst t; field; exact Hd).
  split; [lra |]. split; [lra |]. split; [nra |].
  split.
  - intros Hx Hy.
    assert (0 <= t)%Q as Ht0.
    { subst t. apply Qle_shift_div_l; lra. }
    split; [intros; nra | intros [? ?]; split; nra].
  - unfold Scaling.scale_values, Scaling.get_scale_values.
    assert (Qeq_bool (x1 - x1) 0 = true) as -> by (apply Qeq_bool_iff; lra).
    reflexivity.
Qed.

Lemma scale_values_is_the_line_through_two_points_witness :
  ~ (10 == -10)%Q
  /\ Scaling.scale_values 0 (-10) 1 10 5 = Some ((5 - 1) / (10 - -10) * 0
                                                 + (1 - -10 * ((5 - 1) / (10 - -10))))%Q
  /\ exists y, Scaling.scale_values 0 (-10) 1 10 5 = Some y /\ (1 <= y <= 5)%Q.
Proof.
  assert (~ (10 == -10)%Q) as H by discriminate.
  split; [exact H |]. split; [reflexivity |].
  destruct (scale_values_is_the_line_through_two_points 0 0 (-10) 1 10 5 H)
    as (y & y' & at1 & at2 & Hy & _ & _ & _ & _ & _ & _ & Hm & _).
  exists y. split; [exact Hy |].
  apply Hm; [reflexivity | discriminate | split; discriminate].
Defined.

(** * Attaching amplifiers *)

Lemma lookup_set_is_main_unit v unit (heap : Wiring.Heap) u :
  Wiring.set_is_main_unit v unit heap !! u
  = if bool_decide (unit = u)
    then (fun a => Wiring.mkAmplifier v (Wiring.connected_amplifier a)) <$> heap !! u
    else heap !! u.
Proof.
  unfold Wiring.set_is_main_unit, Wiring.Heap, Wiring.ref in *. rewrite lookup_alter.
  case_bool_decide as E; destruct (decide (unit = u)); congruence.
Qed.

Lemma lookup_set_connected_amplifier v unit (heap : Wiring.Heap) u :
  Wiring.set_connected_amplifier v unit heap !! u
  = if bool_decide (unit = u)
    then (fun a => Wiring.mkAmplifier (Wiring.is_main_unit a) (Some v)) <$> heap !! u
    else heap !! u.
Proof.
  unfold Wiring.set_connected_amplifier, Wiring.Heap, Wiring.ref in *. rewrite lookup_alter.
  case_bool_decide as E; destruct (decide (unit = u)); congruence.
Qed.

Lemma lookup_clear_main_units rest : forall (heap : Wiring.Heap) u,
  foldl (fun heap su => Wiring.set_is_main_unit false su heap) heap rest !! u
  = if bool_decide (u ∈ rest)
    then (fun a => Wiring.mkAmplifier false (Wiring.connected_amplifier a)) <$> heap !! u
    else heap !! u.
Proof.
  induction rest as [| su rest IH]; intros heap u; cbn [foldl].
  - case_bool_decide as E; [inversion E | reflexivity].
  - rewrite IH, lookup_set_is_main_unit.
    destruct (decide (su = u)) as [-> | Hne].
    + rewrite (bool_decide_eq_true_2 (u = u)) by reflexivity.
      rewrite (bool_decide_eq_true_2 (u ∈ u :: rest)) by apply list_elem_of_here.
      case_bool_decide; destruct (heap !! u) as [[]|]; reflexivity.
    + rewrite (bool_decide_eq_false_2 (su = u)) by exact Hne.
      case_bool_decide as E.
      * rewrite bool_decide_eq_true_2 by now apply list_elem_of_further.
        reflexivity.
      * rewrite bool_decide_eq_false_2; [reflexivity |].
        rewrite elem_of_cons. intros [-> | ?]; [now apply Hne | contradiction].
Qed.

(** X22.  [assign_main_unit] on a list of allocated amplifiers.  Every
    amplifier listed after the first is left without the main unit status;
    the first one is left with it, unless the same amplifier is listed
    again further on, in which case no amplifier is the main unit.  With
    two or more amplifiers the first and the second are connected to each
    other.  Amplifiers that are not listed are not touched. *)
Theorem assign_main_unit_marks_the_first
    (main : Wiring.ref) (rest : list Wiring.ref) (heap : Wiring.Heap) :
  (forall u, u ∈ main :: rest -> is_Some (heap !! u)) ->
  let heap' := Wiring.assign_main_unit (main :: rest) heap in
  (forall u, u ∈ rest -> Wiring.is_main_unit <$> heap' !! u = Some false)
  /\ Wiring.is_main_unit <$> heap' !! main = Some (bool_decide (main ∉ rest))
  /\ (forall sub more,
        rest = sub :: more -> main <> sub ->
        Wiring.connected_amplifier <$> heap' !! main = Some (Some sub)
        /\ Wiring.connected_amplifier <$> heap' !! sub = Some (Some main))
  /\ (forall u, u ∉ main :: rest -> heap' !! u = heap !! u)
  /\ (Wiring.add_unit main [] heap).2 = Wiring.assign_main_unit [main] heap
  /\ (Wiring.add_multiple_units rest [main] heap).2 = heap'.
Proof.
  intros Halloc heap'. subst heap'.
  assert (main ∈ main :: rest) as Hmain by apply list_elem_of_here.
  destruct (Halloc main Hmain) as [am Ham].
  unfold Wiring.assign_main_unit. cbn [lookup list_lookup drop].
  destruct rest as [| sub more].
  - change (@nil Wiring.ref !! 0%nat) with (@None Wiring.ref). cbv iota.
    split; [intros u Hu; inversion Hu |].
    split.
    { rewrite lookup_set_is_main_unit, bool_decide_eq_true_2, Ham by reflexivity.
      rewrite (bool_decide_eq_true_2 (main ∉ [])) by apply not_elem_of_nil.
      reflexivity. }
    split; [discriminate |].
    split; [| split; reflexivity].
    intros u Hu. rewrite lookup_set_is_main_unit, bool_decide_eq_false_2; [reflexivity |].
    intros ->. now apply Hu.
  - change ((sub :: more) !! 0%nat) with (Some sub).
    change (drop 0 (sub :: more)) with (sub :: more). cbv iota zeta.
    assert (sub ∈ main :: sub :: more) as Hsubin
      by apply list_elem_of_further, list_elem_of_here.
    destruct (Halloc sub Hsubin) as [asub Hsub].
    assert (forall u,
      foldl (fun heap su => Wiring.set_is_main_unit false su heap)
        (Wiring.set_connected_amplifier main sub
           (Wiring.set_connected_amplifier sub main (Wiring.set_is_main_unit true main heap)))
        (sub :: more) !! u
      = (if bool_decide (u ∈ sub :: more)
         then (fun a => Wiring.mkAmplifier false (Wiring.connected_amplifier a))
         else id)
        <$> ((if bool_decide (sub = u)
              then (fun a => Wiring.mkAmplifier (Wiring.is_main_unit a) (Some main))
              else id)
             <$> ((if bool_decide (main = u)
                   then (fun a => Wiring.mkAmplifier (Wiring.is_main_unit
                                    (Wiring.mkAmplifier true (Wiring.connected_amplifier a)))
                                    (Some sub))
                   else id)
                  <$> heap !! u))) as Hl.
    { intros u. rewrite lookup_clear_main_units, !lookup_set_connected_amplifier,
        lookup_set_is_main_unit.
      repeat case_bool_decide; destruct (heap !! u) as [[]|]; reflexivity. }
    split.
    { intros u Hu. rewrite Hl. destruct (Halloc u (list_elem_of_further _ _ _ Hu)) as [au ->].
      rewrite (bool_decide_eq_true_2 _ Hu). repeat case_bool_decide; reflexivity. }
    split.
    { rewrite Hl, Ham. rewrite (bool_decide_eq_true_2 (main = main)) by reflexivity.
      repeat case_bool_decide; try reflexivity; contradiction. }
    split.
    { intros sub' more' [= <- <-] Hne. split.
      - rewrite Hl, Ham.
        rewrite (bool_decide_eq_true_2 (main = main)) by reflexivity.
        rewrite (bool_decide_eq_false_2 (sub = main)) by congruence.
        case_bool_decide; reflexivity.
      - rewrite Hl, Hsub.
        rewrite (bool_decide_eq_false_2 (main = sub)) by congruence.
        rewrite (bool_decide_eq_true_2 (sub = sub)) by reflexivity.
        case_bool_decide; reflexivity. }
    split; [| split; reflexivity].
    intros u Hu. rewrite Hl.
    assert (main <> u) as H1 by (intros ->; apply Hu, list_elem_of_here).
    assert (u ∉ sub :: more) as H2 by (intros ?; now apply Hu, list_elem_of_further).
    assert (sub <> u) as H3 by (intros ->; apply H2, list_elem_of_here).
    rewrite !bool_decide_eq_false_2 by assumption.
    destruct (heap !! u); reflexivity.
Qed.

Lemma assign_main_unit_marks_the_first_witness :
  let fresh := Wiring.mkAmplifier true None in
  let heap : Wiring.Heap := <[1%nat := fresh]> (<[0%nat := fresh]> ∅) in
  (forall u, u ∈ [0%nat; 1%nat] -> is_Some (heap !! u))
  /\ Wiring.is_main_unit <$> Wiring.assign_main_unit [0%nat; 1%nat] heap !! 0%nat = Some true
  /\ Wiring.is_main_unit <$> Wiring.assign_main_unit [0%nat; 1%nat] heap !! 1%nat = Some false
  /\ Wiring.is_main_unit <$> Wiring.assign_main_unit [0%nat; 0%nat] heap !! 0%nat = Some false.
Proof.
  intros fresh heap.
  assert (forall u, u ∈ [0%nat; 1%nat] -> is_Some (heap !! u)) as H.
  { intros u Hu. apply elem_of_cons in Hu as [-> | Hu]; [now exists fresh |].
    apply list_elem_of_singleton in Hu as ->. now exists fresh. }
  assert (forall u, u ∈ [0%nat; 0%nat] -> is_Some (heap !! u)) as H'.
  { intros u Hu. apply H. apply elem_of_cons in Hu as [-> | Hu]; [apply list_elem_of_here |].
    apply list_elem_of_singleton in Hu as ->. apply list_elem_of_here. }
  split; [exact H |].
  destruct (assign_main_unit_marks_the_first 0%nat [1%nat] heap H) as (H1 & H0 & _).
  destruct (assign_main_unit_marks_the_first 0%nat [0%nat] heap H') as (_ & H0' & _).
  split; [exact H0 |]. split; [apply H1, list_elem_of_here | exact H0'].
Defined.

(** X23.  Register 004 of the communication unit is the union of registers
    038, 039 and 040: the bit of an amplifier is set in the out-of-range
    word exactly when it is set in the invalid, the under-range or the
    over-range word. *)
Theorem out_of_range_word_is_union (self : CommunicationUnit.t) :
  read_004 self = Z.lor (read_038 self) (Z.lor (read_039 self) (read_040 self)).
Proof.
  unfold read_004, read_038, read_039, read_040, bitmap.
  apply Z.bits_inj'. intros n Hn. rewrite !Z.lor_spec.
  rewrite <- (Z2Nat.id n Hn), !bitmap_from_testbit.
  destruct (connected_sensors self !! Z.to_nat n) as [s |]; [| reflexivity].
  unfold SensorUnit.is_out_of_range, SensorUnit.value_invalid, SensorUnit.value_under_range,
    SensorUnit.value_over_range, SensorUnit.number_gt, SensorUnit.number_lt.
  destruct (SensorUnit.laser_active s), (SensorUnit.judgment_value s) as [pv |]; cbn;
    try reflexivity.
  destruct (Py.gt pv _), (Py.lt pv _); reflexivity.
Qed.

(** X24.  A data number above 223 does not exist on an amplifier: an SR or SW
    request for a connected amplifier with such a data number is answered
    by error 020, and nothing changes. *)
Theorem amplifier_data_numbers_end_at_223
    (self : CommunicationUnit.t) (id2 q3 sv : string) (now : Q) :
  Spec.digits_n 2 id2 -> Spec.digits_n 3 q3 -> Spec.sv10 sv ->
  internal_error self = DLEN1Error.NO_ERROR ->
  1 <= Py.digits_value id2 0 <= Z.of_nat (length (connected_sensors self)) ->
  223 < Py.digits_value q3 0 ->
  handle_query self ("SR," +:+ id2 +:+ "," +:+ q3 +:+ Py.CRLF) now
  = (SensorUnit.Return (Spec.ER "SR" "020"), self)
  /\ handle_query self ("SW," +:+ id2 +:+ "," +:+ q3 +:+ "," +:+ sv +:+ Py.CRLF) now
     = (SensorUnit.Return (Spec.ER "SW" "020"), self).
Proof.
  intros H2 H3 H4 He Hid Hq.
  destruct (field_parse 2 id2 ltac:(lia) H2) as (Ii & _ & _).
  destruct (field_parse 3 q3 ltac:(lia) H3) as (Iq & _ & _).
  destruct (int_sv10 sv H4) as (v & Iv & _).
  set (id := Py.digits_value id2 0) in *. set (q := Py.digits_value q3 0) in *.
  assert ((id =? 0) = false) as E0 by (apply Z.eqb_neq; lia).
  destruct (getitem_present (connected_sensors self) (id - 1)) as [Hg [sensor Hs]]; [lia |].
  split.
  - rewrite handle_query_SR by assumption. unfold response_SR.
    rewrite Ii, Iq, E0, Hg, Hs, handle_read_above by exact Hq. reflexivity.
  - rewrite handle_query_SW by assumption. unfold response_SW.
    rewrite Ii, Iq, Iv, E0, Hg, Hs, handle_write_above by exact Hq.
    cbv iota beta zeta.
    assert (Py.setitem (connected_sensors self) (id - 1) sensor = connected_sensors self) as ->.
    { unfold Py.setitem. destruct (Z.leb_spec 0 (id - 1)); [| lia].
      now apply list_insert_id. }
    now destruct self.
Qed.

Lemma amplifier_data_numbers_end_at_223_witness :
  let self := CommunicationUnit.mk [Factory.create_IL_030 0] DLEN1Error.NO_ERROR false in
  Spec.digits_n 2 "01" /\ Spec.digits_n 3 "500" /\ Spec.sv10 "+000000001"
  /\ 223 < Py.digits_value "500" 0
  /\ handle_query self ("SR,01,500" +:+ Py.CRLF) 0
     = (SensorUnit.Return ("ER,SR,020" +:+ Py.CRLF), self).
Proof.
  intros self.
  assert (Spec.digits_n 2 "01") as H2 by (split; reflexivity).
  assert (Spec.digits_n 3 "500") as H3 by (split; reflexivity).
  assert (Spec.sv10 "+000000001") as H4.
  { exists "+"%char, "000000001"%string. repeat split; auto. }
  assert (223 < Py.digits_value "500" 0) as Hq by reflexivity.
  split; [exact H2 |]. split; [exact H3 |]. split; [exact H4 |]. split; [exact Hq |].
  refine (proj1 (amplifier_data_numbers_end_at_223 self "01" "500" "+000000001" 0
                   H2 H3 H4 eq_refl _ Hq)).
  split; discriminate.
Defined.

(** X25.  Register 098 selects the active bank.  A value 0 to 3 is
    acknowledged; when the banks are not switched by the external inputs
    it becomes the active bank, which registers 098 and 043 report and
    whose thresholds and shift target the amplifier then uses; when they
    are, the write is acknowledged and changes nothing.  Another value is
    refused with error 009. *)
Theorem bank_function_selects_the_active_bank (s : SensorUnit.t) (v : Z) (now : Q) :
  match BANK_INDEX.of_int v with
  | Some index =>
      0 <= v <= 3 /\ BANK_INDEX.value index = v
      /\ exists s',
           SensorUnit.handle_write s 98 v now = (SensorUnit.Return tt, s')
           /\ if SensorUnit.switch_banks_via_external_input s then s' = s
              else
                SensorUnit.handle_read s' 98 = SensorUnit.Return (SensorUnit.IntValue v)
                /\ SensorUnit.handle_read s' 43 = SensorUnit.Return (SensorUnit.IntValue v)
                /\ SensorUnit.active_bank s' = SensorUnit.get_bank s index
                /\ SensorUnit.threshold_high s'
                   = Bank.threshold_high (SensorUnit.get_bank s index)
                /\ SensorUnit.banks s' = SensorUnit.banks s
  | None =>
      (v < 0 \/ 3 < v)
      /\ SensorUnit.handle_write s 98 v now
         = (SensorUnit.raise Errors.WriteDataOutsideValidRangeError, s)
  end.
Proof.
  resolve_write. unfold SensorUnit.write_098, BANK_INDEX.of_int.
  destruct (Z.eqb_spec v 0) as [-> | H0];
    [| destruct (Z.eqb_spec v 1) as [-> | H1];
       [| destruct (Z.eqb_spec v 2) as [-> | H2];
          [| destruct (Z.eqb_spec v 3) as [-> | H3]; [| split; [lia | reflexivity]]]]].
  all: split; [lia |]; split; [reflexivity |];
    destruct (SensorUnit.switch_banks_via_external_input s) eqn:E; cbn [negb];
    eexists; (split; [reflexivity |]); [reflexivity |];
    unfold SensorUnit.change_bank; rewrite <- start_eeprom_write_frame;
    (split; [resolve_read; now destruct s |]);
    (split; [resolve_read; now destruct s |]);
    destruct s; repeat split; reflexivity.
Qed.
